(** * Network health dashboard (dash_app/app.py): data-refresh pipeline

    A shallow embedding of the dashboard's refresh pipeline
    ([parse_log], [filter_data_by_date], [get_filtered_data],
    [calculate_y_range], [update_dashboard]) and of the power-cycle
    callback ([trigger_power_cycle]), followed by the properties the
    specification states about them.

    Conventions.
    - A pandas cell is a [value]; float64 numbers are exact rationals and
      NaN / NaT are constructors of their own.  Instants are integers
      (nanoseconds since the epoch).
    - A text that reads as a date-time carries the format pandas guesses
      from it; [pd.to_datetime] converts a column under the format of its
      first cell that is not missing, reads the empty text and the texts
      "NaT" and "nan" as missing, and raises on an instant outside the
      64-bit nanosecond range.
    - A row, and a Python dict of [to_dict('records')], is a finite map
      from column names to values.
    - A Python call that can raise returns a [result]; code that also reads
      the database, the cache or runs a subprocess lives in the monad [M]
      over [World].
    - The wall clock is an explicit argument [now].
    - What [get_filtered_data] returns reaches [update_dashboard] as it is:
      the JSON encoding of the browser-side store between the two callbacks
      is not modelled.
    - Colours, fonts and other styling attributes of the charts are left
      out; series, titles, axis ranges and annotations are kept. *)

From Stdlib Require Import ZArith QArith Qminmax Qround Lqa Lia List Bool.
From Stdlib Require Import DecimalString.
From stdpp Require Import base option list gmap strings sorting.

Local Open Scope Z_scope.

(** ** Values, exceptions, results *)

Inductive value : Type :=
| VNone                         (* SQL NULL, Python None *)
| VStr (s : string)             (* any text that reads neither as a number nor
                                   as a date-time *)
| VDateStr (t : Z) (tz : bool) (fmt : option string)
                                (* text that reads as a date-time: instant [t];
                                   [tz] tells whether it carries a UTC offset;
                                   [fmt] is the format pandas guesses from the
                                   text, [None] when it guesses none *)
| VNum (q : Q)                  (* a number *)
| VNaN                          (* missing number *)
| VNaT                          (* missing timestamp *)
| VTime (t : Z) (tz : bool).    (* pandas Timestamp; [tz]: timezone-aware *)

Inductive exn : Type :=
| DatabaseError
| ValueError
| TypeError
| KeyError (key : string)
| CalledProcessError (stderr : string)
| OSError.

Inductive result (A : Type) : Type :=
| Ok (a : A)
| Raise (e : exn).
Arguments Ok {A} a.
Arguments Raise {A} e.

Definition rbind {A B} (m : result A) (k : A → result B) : result B :=
  match m with
  | Ok a => k a
  | Raise e => Raise e
  end.

Notation "'let!' x ':=' m 'in' k" := (rbind m (fun x => k))
  (at level 10, x name, m at level 100, k at level 200).

Fixpoint mapR {A B} (f : A → result B) (l : list A) : result (list B) :=
  match l with
  | [] => Ok []
  | a :: l' => let! b := f a in let! bs := mapR f l' in Ok (b :: bs)
  end.

Fixpoint foldR {A B} (f : B → A → result B) (l : list A) (b : B) : result B :=
  match l with
  | [] => Ok b
  | a :: l' => let! b' := f b a in foldR f l' b'
  end.

(** ** Data frames *)

Abbreviation record := (gmap string value).

Record DataFrame : Type := mkFrame {
  columns : list string;
  rows : list record
}.

(** [pd.DataFrame()]: no columns, no rows. *)
Definition empty_frame : DataFrame := mkFrame [] [].

(** [df.empty]: some axis has length 0. *)
Definition empty (df : DataFrame) : bool :=
  match rows df, columns df with
  | [], _ => true
  | _, [] => true
  | _, _ => false
  end.

(** The cell of row [r] under column [c]; a key the row does not carry
    reads as NaN, as pandas fills it. *)
Definition cell (c : string) (r : record) : value := default VNaN (r !! c).

Definition has_column (df : DataFrame) (c : string) : bool :=
  bool_decide (c ∈ columns df).

(** [df[c]] *)
Definition getitem (df : DataFrame) (c : string) : result (list value) :=
  if has_column df c then Ok (map (cell c) (rows df)) else Raise (KeyError c).

(** [df[c] = vals] *)
Definition setitem (df : DataFrame) (c : string) (vals : list value)
  : result DataFrame :=
  if Nat.eqb (length vals) (length (rows df)) then
    Ok {| columns := if has_column df c then columns df else columns df ++ [c];
          rows := zip_with (λ r v, <[c := v]> r) (rows df) vals |}
  else Raise ValueError.

(** [df[c] = f(df[c])] *)
Definition assign (df : DataFrame) (c : string)
    (f : list value → result (list value)) : result DataFrame :=
  let! col := getitem df c in
  let! new := f col in
  setitem df c new.

(** The dict with keys [cols] read off row [r]. *)
Definition project (cols : list string) (r : record) : record :=
  list_to_map (map (λ c, (c, cell c r)) cols).

(** [df[cols]] for a list of column names. *)
Definition select_columns (df : DataFrame) (cols : list string)
  : result DataFrame :=
  match find (λ c, negb (has_column df c)) cols with
  | Some c => Raise (KeyError c)
  | None => Ok {| columns := cols; rows := map (project cols) (rows df) |}
  end.

(** [df.to_dict('records')] *)
Definition to_dict_records (df : DataFrame) : list record :=
  map (project (columns df)) (rows df).

(** [df[mask]] for a boolean mask. *)
Fixpoint boolean_index {A} (xs : list A) (mask : list bool) : list A :=
  match xs, mask with
  | x :: xs', b :: mask' =>
      if b then x :: boolean_index xs' mask' else boolean_index xs' mask'
  | _, _ => []
  end.

(** ** pandas converters used by the reader *)

(** The layout ["2024-11-04 09:00:00"], without and with a UTC offset. *)
Definition ISO : option string := Some "%Y-%m-%d %H:%M:%S"%string.
Definition ISO_offset : option string := Some "%Y-%m-%d %H:%M:%S%z"%string.

(** The texts [pd.to_datetime] reads as a missing date-time. *)
Definition nat_strings : list string :=
  [""; "NaT"; "nat"; "NAT"; "nan"; "NaN"; "NAN"]%string.

Definition null_like (v : value) : bool :=
  match v with
  | VNone | VNaN | VNaT => true
  | VStr s => bool_decide (s ∈ nat_strings)
  | _ => false
  end.

(** The format of the conversion: the one guessed from the first cell that
    is not missing, when that cell is a text with a format to guess; with
    [None] every cell is parsed on its own. *)
Definition guessed_format (vals : list value) : option string :=
  match find (λ v, negb (null_like v)) vals with
  | Some (VDateStr _ _ fmt) => fmt
  | _ => None
  end.

(** A Timestamp is a 64-bit count of nanoseconds, the least one standing
    for NaT. *)
Definition in_bounds (t : Z) : bool :=
  (- (2 ^ 63 - 1) <=? t) && (t <=? 2 ^ 63 - 1).

(** One cell of the conversion under [format]: a text in another format,
    a text that is no date-time, a number where a format is set, and an
    instant out of bounds raise. *)
Definition datetime_cell (format : option string) (v : value) : result value :=
  match v with
  | VNone | VNaN | VNaT => Ok VNaT
  | VStr s =>
      if bool_decide (s ∈ nat_strings) then Ok VNaT else Raise ValueError
  | VDateStr t tz fmt =>
      if match format with
         | Some f => bool_decide (fmt = Some f)
         | None => true
         end && in_bounds t
      then Ok (VTime t tz) else Raise ValueError
  | VNum q =>
      match format with
      | Some _ => Raise ValueError
      | None =>
          if in_bounds (Qfloor q) then Ok (VTime (Qfloor q) false)
          else Raise ValueError
      end
  | VTime t tz => Ok (VTime t tz)
  end.

Definition is_aware (v : value) : bool :=
  match v with VTime _ true => true | _ => false end.

Definition is_naive (v : value) : bool :=
  match v with VTime _ false => true | _ => false end.

(** [pd.to_datetime(series)]: the cells are converted under the format
    guessed for the column; one cell that raises fails the whole
    conversion, and so does a mix of offset-carrying and offset-free
    date-times. *)
Definition to_datetime (vals : list value) : result (list value) :=
  let! ts := mapR (datetime_cell (guessed_format vals)) vals in
  if existsb is_aware ts && existsb is_naive ts then Raise ValueError
  else Ok ts.

(** [pd.to_numeric(series, errors='coerce')], cell by cell. *)
Definition to_numeric (v : value) : value :=
  match v with
  | VNum q => VNum q
  | VTime t _ => VNum (inject_Z t)
  | _ => VNaN
  end.

(** [series.clip(upper=u)], cell by cell. *)
Definition clip (upper : Q) (v : value) : value :=
  match v with
  | VNum q => if Qle_bool q upper then VNum q else VNum upper
  | _ => v
  end.

(** ** The world the callbacks run in *)

Inductive proc_outcome : Type :=
| Exited (code : Z) (stderr : string)
| NotLaunched.

Record World : Type := mkWorld {
  (** [storage k p]: the table [internet_status] of the SQLite file at [p]
      as the [k]-th call of [parse_log] finds it (the probe process writes
      to it while the dashboard runs); [None] when the file or the table
      cannot be read. *)
  storage : nat → string → option DataFrame;
  (** The cache backend: key ↦ (time of the write, stored value). *)
  cache : gmap (string * string) (Z * list record);
  parse_log_calls : nat;
  (** What running the power-cycle script yields, and how often it ran. *)
  script : proc_outcome;
  subprocess_runs : nat
}.

Definition M (A : Type) : Type := World → result A * World.

Definition ret {A} (a : A) : M A := λ w, (Ok a, w).

Definition bind {A B} (m : M A) (k : A → M B) : M B :=
  λ w, match m w with
       | (Ok a, w') => k a w'
       | (Raise e, w') => (Raise e, w')
       end.

Definition lift {A} (r : result A) : M A := λ w, (r, w).

(** [try: m  except Exception as e: h e] *)
Definition try_catch {A} (m : M A) (h : exn → M A) : M A :=
  λ w, match m w with
       | (Ok a, w') => (Ok a, w')
       | (Raise e, w') => h e w'
       end.

Notation "'let*' x ':=' m 'in' k" := (bind m (fun x => k))
  (at level 10, x name, m at level 100, k at level 200).

(** The world after one more call of [parse_log]. *)
Definition called (w : World) : World :=
  {| storage := storage w; cache := cache w;
     parse_log_calls := S (parse_log_calls w);
     script := script w; subprocess_runs := subprocess_runs w |}.

Definition count_parse_log : M unit := λ w, (Ok tt, called w).

Definition set_cache (c : gmap (string * string) (Z * list record)) (w : World)
  : World :=
  {| storage := storage w; cache := c; parse_log_calls := parse_log_calls w;
     script := script w; subprocess_runs := subprocess_runs w |}.

(** The world after one more run of the power-cycle script. *)
Definition launched (w : World) : World :=
  {| storage := storage w; cache := cache w;
     parse_log_calls := parse_log_calls w;
     script := script w; subprocess_runs := S (subprocess_runs w) |}.

Definition count_subprocess : M unit := λ w, (Ok tt, launched w).

(** ** parse_log *)

(** The SELECT list of the query: stored column and the name it is read as. *)
Definition query_columns : list (string * string) :=
  [("timestamp", "timestamp"); ("status", "status_message");
   ("success_percentage", "success"); ("avg_latency_ms", "avg_latency_ms");
   ("max_latency_ms", "max_latency_ms"); ("min_latency_ms", "min_latency_ms");
   ("packet_loss", "packet_loss")]%string.

Definition select_row (r : record) : record :=
  list_to_map (map (λ sa, (sa.2, default VNone (r !! sa.1))) query_columns).

(** [sqlite3.connect(db_path)] followed by [pd.read_sql_query(query, conn)]. *)
Definition read_sql_query (db_path : string) : M DataFrame :=
  λ w, match storage w (parse_log_calls w) db_path with
       | None => (Raise DatabaseError, w)
       | Some tbl =>
           if forallb (λ sa, has_column tbl sa.1) query_columns then
             (Ok {| columns := map snd query_columns;
                    rows := map select_row (rows tbl) |}, w)
           else (Raise DatabaseError, w)
       end.

Definition numeric_columns : list string :=
  ["success"; "avg_latency_ms"; "max_latency_ms"; "min_latency_ms";
   "packet_loss"]%string.

Definition clip_upper (upper : Q) (col : list value) : result (list value) :=
  Ok (map (clip upper) col).

(** The body of the [try] block of [parse_log], after the read. *)
Definition normalize (df : DataFrame) : result DataFrame :=
  let! df := assign df "timestamp" to_datetime in
  let! df := foldR (λ df col, assign df col (λ s, Ok (map to_numeric s)))
                   numeric_columns df in
  let! df := assign df "avg_latency_ms" (clip_upper 500) in
  let! df := assign df "max_latency_ms" (clip_upper 500) in
  let! df := assign df "min_latency_ms" (clip_upper 500) in
  let! df := assign df "packet_loss" (clip_upper 100) in
  Ok df.

Definition parse_log (db_path : string) : M DataFrame :=
  let* _ := count_parse_log in
  try_catch
    (let* df := read_sql_query db_path in
     lift (normalize df))
    (λ _, ret empty_frame).

(** ** filter_data_by_date *)

(** [pd.DateOffset(hours=h)] and [pd.DateOffset(days=d)] on instants
    without a time zone. *)
Definition hours (h : Z) : Z := h * 3600 * 1000000000.
Definition days (d : Z) : Z := d * 24 * 3600 * 1000000000.

(** One cell of [log_data['timestamp'] >= start_date], where [start_date]
    carries no time zone: NaT compares false, a timezone-aware Timestamp
    (or anything that is not a Timestamp) cannot be compared. *)
Definition ge_timestamp (start_date : Z) (v : value) : result bool :=
  match v with
  | VTime t false => Ok (start_date <=? t)
  | VNaT => Ok false
  | _ => Raise TypeError
  end.

Definition filter_data_by_date (now : Z) (log_data : DataFrame)
    (date_range : string) : result DataFrame :=
  let start :=
    if String.eqb date_range "last_12_hours" then Some (now - hours 12)
    else if String.eqb date_range "last_24_hours" then Some (now - hours 24)
    else if String.eqb date_range "last_48_hours" then Some (now - hours 48)
    else if String.eqb date_range "last_7_days" then Some (now - days 7)
    else None in
  match start with
  | None => Ok log_data
  | Some start_date =>
      let! ts := getitem log_data "timestamp" in
      let! mask := mapR (ge_timestamp start_date) ts in
      Ok {| columns := columns log_data;
            rows := boolean_index (rows log_data) mask |}
  end.

(** ** get_filtered_data *)

Definition columns_to_cache : list string :=
  ["timestamp"; "success"; "avg_latency_ms"; "max_latency_ms";
   "min_latency_ms"; "packet_loss"]%string.

(** The [try] block of [get_filtered_data]. *)
Definition cached_path (now : Z) (db_path date_range : string)
  : M (list record) :=
  let* df := parse_log db_path in
  if empty df then ret []
  else
    let* filtered_df := lift (filter_data_by_date now df date_range) in
    if empty filtered_df then ret []
    else
      let* reduced := lift (select_columns filtered_df columns_to_cache) in
      ret (to_dict_records reduced).

(** The [except] block of [get_filtered_data]. *)
Definition uncached_path (now : Z) (db_path date_range : string)
  : M (list record) :=
  let* df := parse_log db_path in
  let* filtered_df := lift (filter_data_by_date now df date_range) in
  ret (if negb (empty filtered_df) then to_dict_records filtered_df else []).

(** The function under the decorator. *)
Definition get_filtered_data_uncached (now : Z) (db_path date_range : string)
  : M (list record) :=
  try_catch (cached_path now db_path date_range)
            (λ _, uncached_path now db_path date_range).

Definition seconds (s : Z) : Z := s * 1000000000.

(** Modelled from the spec: the decorator [cache.memoize(timeout=...)] of
    the caching library, which is not among the sources.  An entry is keyed
    on the call's arguments, is created on a miss from what the decorated
    function returns, is reused until [timeout] has elapsed since its
    creation, and is recomputed on the next access after that (lazy expiry:
    a stale entry stays until it is overwritten).  A call that raises stores
    nothing. *)
Definition memoize (timeout : Z) (f : Z → string → string → M (list record))
    (now : Z) (a b : string) : M (list record) :=
  λ w,
    let miss :=
      match f now a b w with
      | (Ok v, w') => (Ok v, set_cache (<[(a, b) := (now, v)]> (cache w')) w')
      | (Raise e, w') => (Raise e, w')
      end in
    match cache w !! (a, b) with
    | Some (created, v) => if now <? created + timeout then (Ok v, w) else miss
    | None => miss
    end.

Definition get_filtered_data : Z → string → string → M (list record) :=
  memoize (seconds 300) get_filtered_data_uncached.

Definition fetch_data (now : Z) (n : Z) (date_range : string)
  : M (list record) :=
  let db_path := "logs/internet_status.db"%string in
  get_filtered_data now db_path date_range.

(** ** Series reductions *)

(** The larger of two cells, skipping what is not a number. *)
Definition vmax (a b : value) : value :=
  match a, b with
  | VNum x, VNum y => if Qle_bool x y then VNum y else VNum x
  | VNum _, _ => a
  | _, VNum _ => b
  | _, _ => VNaN
  end.

(** [series.max()] on numbers (NaN is skipped; NaN if nothing is left). *)
Definition series_max (s : list value) : value := fold_right vmax VNaN s.

Definition time_key (v : value) : option Z :=
  match v with VTime t _ => Some t | _ => None end.

Definition time_pick (le : Z → Z → bool) (a b : value) : value :=
  match time_key a, time_key b with
  | Some x, Some y => if le x y then a else b
  | Some _, None => a
  | None, Some _ => b
  | None, None => VNaT
  end.

(** [series.min()] and [series.max()] on timestamps (NaT is skipped). *)
Definition time_min (s : list value) : value :=
  fold_right (time_pick Z.leb) VNaT s.
Definition time_max (s : list value) : value :=
  fold_right (time_pick Z.geb) VNaT s.

(** [x * k] for a float [x]. *)
Definition vmul (v : value) (k : Q) : value :=
  match v with
  | VNum x => VNum (x * k)
  | _ => VNaN
  end.

(** The builtin [min(a, b)]: [b] if [b < a], else [a]; a comparison with
    NaN is false. *)
Definition py_min (a : value) (b : Q) : value :=
  match a with
  | VNum x => if Qle_bool x b then VNum x else VNum b
  | _ => a
  end.

(** ** calculate_y_range *)

Definition calculate_y_range (data_series : list value) (absolute_max : Q)
    (buffer_ratio : Q) : value * value :=
  match data_series with
  | [] => (VNum 0, VNum absolute_max)
  | _ =>
      let data_max := series_max data_series in
      let dynamic_max := vmul data_max (1 + buffer_ratio) in
      let y_max := py_min dynamic_max absolute_max in
      (VNum 0, y_max)
  end.

(** ** update_dashboard *)

Record trace : Type := mkTrace {
  trace_x : list value;
  trace_y : list value;
  trace_name : string
}.

Record layout : Type := mkLayout {
  title : string;
  yaxis_title : string;
  yaxis_range : value * value;
  xaxis_title : string;
  xaxis_range : value * value;
  annotations : list string
}.

(** A figure: the empty dict [{}], or data and layout. *)
Inductive figure : Type :=
| EmptyFigure
| Figure (data : list trace) (lay : layout).

Record DashboardOutputs : Type := mkOutputs {
  success_fig : figure;
  latency_fig : figure;
  packetloss_fig : figure;
  table_data : list record;
  full_up_count : string;
  partial_up_count : string;
  down_count : string
}.

(** [pd.DataFrame(records)] for a list of dicts: the columns are the keys
    that occur, and a key a dict lacks is filled with NaN. *)
Definition DataFrame_of_records (records : list record) : DataFrame :=
  let cols := remove_dups (concat (map (λ r, (map_to_list r).*1) records)) in
  {| columns := cols; rows := map (project cols) records |}.

Definition time_le (ascending : bool) (a b : value) : bool :=
  match time_key a, time_key b with
  | Some x, Some y => if ascending then x <=? y else y <=? x
  | Some _, None => true
  | None, Some _ => false
  | None, None => true
  end.

Fixpoint insert_sorted (le : record → record → bool) (r : record)
    (l : list record) : list record :=
  match l with
  | [] => [r]
  | h :: t => if le r h then r :: l else h :: insert_sorted le r t
  end.

Definition sorted_rows (by_ : string) (ascending : bool) (l : list record)
  : list record :=
  fold_right
    (insert_sorted (λ a b, time_le ascending (cell by_ a) (cell by_ b))) [] l.

(** [df.sort_values(by, ascending=...)] on a timestamp column; rows without
    a timestamp go last. *)
Definition sort_values (df : DataFrame) (by_ : string) (ascending : bool)
  : result DataFrame :=
  if has_column df by_ then
    Ok {| columns := columns df;
          rows := sorted_rows by_ ascending (rows df) |}
  else Raise (KeyError by_).

Definition ABSOLUTE_MAX_LATENCY : Q := 500.
Definition ABSOLUTE_MAX_PACKET_LOSS : Q := 100.

Definition name_mapping (metric : string) : string :=
  if String.eqb metric "avg_latency_ms" then "Avg Latency (ms)"
  else if String.eqb metric "max_latency_ms" then "Max Latency (ms)"
  else if String.eqb metric "min_latency_ms" then "Min Latency (ms)"
  else metric.

Definition str_nat (n : nat) : string :=
  NilZero.string_of_uint (Nat.to_uint n).

(** Cell tests of the status counts; a comparison with NaN is false. *)
Definition eq_num (k : Q) (v : value) : bool :=
  match v with VNum x => Qeq_bool x k | _ => false end.
Definition gt_num (k : Q) (v : value) : bool :=
  match v with VNum x => negb (Qle_bool x k) | _ => false end.
Definition lt_num (k : Q) (v : value) : bool :=
  match v with VNum x => negb (Qle_bool k x) | _ => false end.

(** [df[mask].shape[0]] *)
Definition count_rows (df : DataFrame) (mask : list bool) : nat :=
  length (boolean_index (rows df) mask).

(** [latency_data.max().max()]: the maximum of each column, then the
    maximum of those. *)
Definition frame_max (latency_data : DataFrame) : value :=
  series_max
    (map (λ c, series_max (map (cell c) (rows latency_data)))
         (columns latency_data)).

Definition placeholder_text : string :=
  "Please select at least one latency metric to display.".

Definition update_dashboard (filtered_data : list record)
    (selected_latency_metrics : list string) : result DashboardOutputs :=
  let df := DataFrame_of_records filtered_data in
  (* the logged timestamp range *)
  let! _ := if negb (empty df) then getitem df "timestamp" else Ok [] in
  if empty df then
    Ok {| success_fig := EmptyFigure;
          latency_fig := EmptyFigure;
          packetloss_fig := EmptyFigure;
          table_data := [];
          full_up_count := "Fully Up: 0";
          partial_up_count := "Partially Up: 0";
          down_count := "Down: 0" |}
  else
    let! df := sort_values df "timestamp" true in
    let! latency_y_range :=
      match selected_latency_metrics with
      | _ :: _ =>
          let! latency_data := select_columns df selected_latency_metrics in
          let max_latency := frame_max latency_data in
          let dynamic_max_latency :=
            py_min (vmul max_latency (11 # 10)) ABSOLUTE_MAX_LATENCY in
          Ok (VNum 0, dynamic_max_latency)
      | [] => Ok (VNum 0, VNum ABSOLUTE_MAX_LATENCY)
      end in
    let! timestamp := getitem df "timestamp" in
    let! success := getitem df "success" in
    let time_range := (time_min timestamp, time_max timestamp) in
    let success_fig :=
      Figure [ {| trace_x := timestamp; trace_y := success;
                  trace_name := "Success Rate (%)" |} ]
             {| title := "Internet Connectivity Over Time";
                yaxis_title := "Ping Response Success Rate (%)";
                yaxis_range := (VNum 0, VNum 100);
                xaxis_title := "Timestamp";
                xaxis_range := time_range;
                annotations := [] |} in
    let! latency_traces :=
      match selected_latency_metrics with
      | _ :: _ =>
          mapR (λ metric,
                  let! y := getitem df metric in
                  Ok {| trace_x := timestamp; trace_y := y;
                        trace_name := name_mapping metric |})
               selected_latency_metrics
      | [] => Ok []
      end in
    let latency_fig :=
      match selected_latency_metrics with
      | _ :: _ =>
          Figure latency_traces
                 {| title := "Latency Over Time";
                    yaxis_title := "Latency (ms)";
                    yaxis_range := latency_y_range;
                    xaxis_title := "Timestamp";
                    xaxis_range := time_range;
                    annotations := [] |}
      | [] =>
          Figure []
                 {| title := "Latency Over Time";
                    yaxis_title := "Latency (ms)";
                    yaxis_range := (VNum 0, VNum ABSOLUTE_MAX_LATENCY);
                    xaxis_title := "Timestamp";
                    xaxis_range := time_range;
                    annotations := [placeholder_text] |}
      end in
    let! packet_loss := getitem df "packet_loss" in
    let packetloss_y_range :=
      calculate_y_range packet_loss ABSOLUTE_MAX_PACKET_LOSS (1 # 10) in
    let packetloss_fig :=
      Figure [ {| trace_x := timestamp; trace_y := packet_loss;
                  trace_name := "Packet Loss (%)" |} ]
             {| title := "Packet Loss Over Time";
                yaxis_title := "Packet Loss (%)";
                yaxis_range := (VNum 0, packetloss_y_range.2);
                xaxis_title := "Timestamp";
                xaxis_range := time_range;
                annotations := [] |} in
    let! filtered_data_sorted := sort_values df "timestamp" false in
    let table_data := to_dict_records filtered_data_sorted in
    let full_up := count_rows df (map (eq_num 100) success) in
    let partial_up :=
      count_rows df
        (zip_with andb (map (gt_num 0) success) (map (lt_num 100) success)) in
    let down := count_rows df (map (eq_num 0) success) in
    Ok {| success_fig := success_fig;
          latency_fig := latency_fig;
          packetloss_fig := packetloss_fig;
          table_data := table_data;
          full_up_count := "Fully Up: " +:+ str_nat full_up;
          partial_up_count := "Partially Up: " +:+ str_nat partial_up;
          down_count := "Down: " +:+ str_nat down |}.

(** ** trigger_power_cycle *)

(** [subprocess.run([...], check=True, capture_output=True, text=True)] *)
Definition subprocess_run_check : M unit :=
  let* _ := count_subprocess in
  λ w, match script w with
       | Exited 0 _ => (Ok tt, w)
       | Exited _ stderr => (Raise (CalledProcessError stderr), w)
       | NotLaunched => (Raise OSError, w)
       end.

(** [now] is the text of [datetime.datetime.now()]. *)
Definition trigger_power_cycle (now : string) (n_clicks : Z) : M string :=
  if 0 <? n_clicks then
    try_catch
      (let* _ := subprocess_run_check in
       ret ("Power cycle triggered at " +:+ now))
      (λ e, match e with
            | CalledProcessError stderr =>
                ret ("Power cycle failed: " +:+ stderr)
            | _ => lift (Raise e)
            end)
  else ret ""%string.

(** ** Row-wise reading of the reader's normalisation

    [finish_row] is what the conversions and clips of [parse_log], which
    work column by column, do to one row once its timestamp is converted. *)
Definition numeric_in (c : string) (r : record) : record :=
  <[c := to_numeric (cell c r)]> r.

Definition clip_in (c : string) (upper : Q) (r : record) : record :=
  <[c := clip upper (cell c r)]> r.

Definition finish_row (r : record) : record :=
  clip_in "packet_loss" 100
    (clip_in "min_latency_ms" 500
       (clip_in "max_latency_ms" 500
          (clip_in "avg_latency_ms" 500
             (numeric_in "packet_loss"
                (numeric_in "min_latency_ms"
                   (numeric_in "max_latency_ms"
                      (numeric_in "avg_latency_ms"
                         (numeric_in "success" r)))))))).

(** The frame [parse_log] returns for a table whose timestamp column
    converts to [ts]. *)
Definition normalized (tbl : DataFrame) (ts : list value) : DataFrame :=
  {| columns := map snd query_columns;
     rows := map finish_row
               (zip_with (λ r v, <["timestamp" := v]> r)
                         (map select_row (rows tbl)) ts) |}.

(** The table answers the query: every selected column exists. *)
Definition queryable (tbl : DataFrame) : bool :=
  forallb (λ sa, has_column tbl sa.1) query_columns.

(** What [parse_log] returns, read off the table the call finds. *)
Definition parsed (found : option DataFrame) : DataFrame :=
  match found with
  | None => empty_frame
  | Some tbl =>
      if queryable tbl then
        match to_datetime (map (cell "timestamp") (map select_row (rows tbl))) with
        | Ok ts => normalized tbl ts
        | Raise _ => empty_frame
        end
      else empty_frame
  end.

(** ** Reading of the time-window filter *)

(** The row has a timestamp, and it is at or after [cutoff]. *)
Definition at_or_after (cutoff : Z) (r : record) : bool :=
  match cell "timestamp" r with
  | VTime t false => cutoff <=? t
  | _ => false
  end.

Definition naive_cell (v : value) : bool :=
  match v with
  | VNaT | VTime _ false => true
  | _ => false
  end.

(** The frame has a timestamp column, and no timestamp in it carries a
    time zone. *)
Definition tz_naive (df : DataFrame) : bool :=
  has_column df "timestamp"
  && forallb (λ r, naive_cell (cell "timestamp" r)) (rows df).

(** ** Reading of the dashboard update *)

(** The update goes through for these inputs: the frame built from the
    records is not empty and has every column the callback reads. *)
Definition renderable (filtered_data : list record)
    (selected_latency_metrics : list string) : bool :=
  let df := DataFrame_of_records filtered_data in
  negb (empty df)
  && has_column df "timestamp" && has_column df "success"
  && has_column df "packet_loss"
  && forallb (has_column df) selected_latency_metrics.

(** The three status predicates on a record. *)
Definition fully_up (r : record) : bool := eq_num 100 (cell "success" r).
Definition partially_up (r : record) : bool :=
  gt_num 0 (cell "success" r) && lt_num 100 (cell "success" r).
Definition is_down (r : record) : bool := eq_num 0 (cell "success" r).

Definition count_if (p : record → bool) (l : list record) : nat :=
  length (List.filter p l).

(** The frame the callback works on: built from the records, then sorted
    by timestamp. *)
Definition sorted_frame (filtered_data : list record) : DataFrame :=
  {| columns := columns (DataFrame_of_records filtered_data);
     rows := sorted_rows "timestamp" true
               (rows (DataFrame_of_records filtered_data)) |}.

(** The frame [df[selected_latency_metrics]]. *)
Definition latency_frame (filtered_data : list record)
    (selected_latency_metrics : list string) : DataFrame :=
  {| columns := selected_latency_metrics;
     rows := map (project selected_latency_metrics)
                 (rows (sorted_frame filtered_data)) |}.

(** ** Sample data *)

(** A stored row of the table [internet_status]. *)
Definition stored_row (timestamp : value) (success avg mx mn loss : value)
  : record :=
  list_to_map
    [("timestamp"%string, timestamp); ("status"%string, VStr "Internet is up");
     ("success_percentage"%string, success); ("avg_latency_ms"%string, avg);
     ("max_latency_ms"%string, mx); ("min_latency_ms"%string, mn);
     ("packet_loss"%string, loss)].

Definition table_columns : list string :=
  ["timestamp"; "status"; "success_percentage"; "avg_latency_ms";
   "max_latency_ms"; "min_latency_ms"; "packet_loss"]%string.

(** A world whose database file always holds [tbl], with an empty cache. *)
Definition world_with (tbl : DataFrame) : World :=
  {| storage := λ _ p,
       if String.eqb p "logs/internet_status.db" then Some tbl else None;
     cache := ∅;
     parse_log_calls := 0;
     script := Exited 0 "";
     subprocess_runs := 0 |}.

(** Three probes at 09:00, 10:00 and 11:00 (hours since the epoch), the
    first with latencies above the cap and a negative minimum. *)
Definition sample_table : DataFrame :=
  {| columns := table_columns;
     rows := [ stored_row (VDateStr (hours 9) false ISO)
                 (VNum 100) (VNum 600) (VNum 750) (VNum (-3)) (VNum 120);
               stored_row (VDateStr (hours 10) false ISO)
                 (VNum 50) (VNum 20) (VNum 500) (VNum 12) (VNum 50);
               stored_row (VDateStr (hours 11) false ISO)
                 (VNum 0) VNone VNone VNone (VNum 100) ] |}.

(** Observations on what a call produced. *)
Definition rmap {A B} (f : A → B) (r : result A) : result B :=
  match r with
  | Ok a => Ok (f a)
  | Raise e => Raise e
  end.

Definition returned {A} (x : result A * World) : bool :=
  match x.1 with
  | Ok _ => true
  | Raise _ => false
  end.

Definition payload (x : result (list record) * World) : list record :=
  match x.1 with
  | Ok l => l
  | Raise _ => []
  end.

(** What a call leaves in the cache under a key: time of the write and
    number of records stored. *)
Definition cache_entry (x : result (list record) * World)
    (db_path date_range : string) : option (Z * nat) :=
  (λ cv, (cv.1, length cv.2)) <$> cache x.2 !! (db_path, date_range).

Definition shown_counts (out : DashboardOutputs) : string * string * string :=
  (full_up_count out, partial_up_count out, down_count out).

Definition latency_range (out : DashboardOutputs) : option (value * value) :=
  match latency_fig out with
  | Figure _ lay => Some (yaxis_range lay)
  | EmptyFigure => None
  end.

(** What the fetch returns, from an empty cache, for a database that
    holds [tbl]. *)
Definition fetched (tbl : DataFrame) (now : Z) (date_range : string)
  : list record :=
  payload (get_filtered_data now "logs/internet_status.db" date_range
             (world_with tbl)).

(** The three sample probes as the dashboard receives them: success 100,
    50 and 0. *)
Definition sample_records : list record :=
  fetched sample_table (hours 12) "all_time".

(** A record as the fetch hands it to the dashboard. *)
Definition dashboard_record (timestamp success avg mx mn loss : value)
  : record :=
  list_to_map
    [("timestamp"%string, timestamp); ("success"%string, success);
     ("avg_latency_ms"%string, avg); ("max_latency_ms"%string, mx);
     ("min_latency_ms"%string, mn); ("packet_loss"%string, loss)].

(** One probe whose success value is a number, but above 100. *)
Definition overrange_records : list record :=
  [dashboard_record (VTime (hours 9) false)
     (VNum 150) (VNum 20) (VNum 30) (VNum 10) (VNum 0)].

(** A single probe whose stored average latency is 600 ms. *)
Definition spike_table : DataFrame :=
  {| columns := table_columns;
     rows := [ stored_row (VDateStr (hours 9) false ISO)
                 (VNum 100) (VNum 600) (VNum 640) (VNum 580) (VNum 0) ] |}.

Definition spike_records : list record :=
  fetched spike_table (hours 12) "all_time".

(** The sample probes stored with a UTC offset in their timestamps
    (e.g. "... 09:00:00+10:00"). *)
Definition aware_table : DataFrame :=
  {| columns := table_columns;
     rows := [ stored_row (VDateStr (hours 9) true ISO_offset)
                 (VNum 100) (VNum 600) (VNum 750) (VNum (-3)) (VNum 120);
               stored_row (VDateStr (hours 10) true ISO_offset)
                 (VNum 50) (VNum 20) (VNum 500) (VNum 12) (VNum 50) ] |}.

(** A world whose database holds [first] at the first read and [later]
    from the second read on. *)
Definition world_changing (first later : DataFrame) : World :=
  {| storage := λ k p,
       if String.eqb p "logs/internet_status.db" then
         Some (if (k <=? 1)%nat then first else later)
       else None;
     cache := ∅;
     parse_log_calls := 0;
     script := Exited 0 "";
     subprocess_runs := 0 |}.





(** ** Further readings of the pipeline *)

(** The length of the window a selector stands for; [None] for "all_time"
    and for anything else. *)
Definition window (date_range : string) : option Z :=
  if String.eqb date_range "last_12_hours" then Some (hours 12)
  else if String.eqb date_range "last_24_hours" then Some (hours 24)
  else if String.eqb date_range "last_48_hours" then Some (hours 48)
  else if String.eqb date_range "last_7_days" then Some (days 7)
  else None.

(** The rows of [df] inside the window of [date_range] at time [now]. *)
Definition rows_in_window (now : Z) (date_range : string) (df : DataFrame)
  : list record :=
  match window date_range with
  | Some len => List.filter (at_or_after (now - len)) (rows df)
  | None => rows df
  end.

(** The sample probes with one more row whose timestamp is no date. *)
Definition garbled_table : DataFrame :=
  {| columns := table_columns;
     rows := rows sample_table
             ++ [ stored_row (VStr "n/a")
                    (VNum 100) (VNum 20) (VNum 30) (VNum 10) (VNum 0) ] |}.

(** A world whose database cannot be read at the first read and holds
    [tbl] from the second read on. *)
Definition world_recovering (tbl : DataFrame) : World :=
  {| storage := λ k p,
       if String.eqb p "logs/internet_status.db" then
         (if (k <=? 1)%nat then None else Some tbl)
       else None;
     cache := ∅;
     parse_log_calls := 0;
     script := Exited 0 "";
     subprocess_runs := 0 |}.

(** Row [a] may stand before row [b] in a frame sorted by timestamp:
    ascending or descending, rows without a timestamp last. *)
Definition in_time_order (ascending : bool) (a b : record) : Prop :=
  time_le ascending (cell "timestamp" a) (cell "timestamp" b) = true.

(** The records as rows of the frame built from them: each with all the
    keys that occur, a missing one filled with NaN. *)
Definition framed (filtered_data : list record) : list record :=
  rows (DataFrame_of_records filtered_data).

(** The records are of the kind [fetch_data] hands over: the timestamps
    are instants, all of them without or all of them with a UTC offset, or
    are missing; the numeric fields are numbers or NaN; the selection names
    numeric fields. *)
Definition number_or_nan (v : value) : bool :=
  match v with VNum _ | VNaN => true | _ => false end.

Definition instant_or_missing (aware : bool) (v : value) : bool :=
  match v with
  | VTime _ tz => Bool.eqb tz aware
  | VNaT | VNaN => true
  | _ => false
  end.

Definition typed_input (filtered_data : list record)
    (selected_latency_metrics : list string) : bool :=
  (forallb (λ r, instant_or_missing false (cell "timestamp" r)) filtered_data
   || forallb (λ r, instant_or_missing true (cell "timestamp" r)) filtered_data)
  && forallb (λ r, forallb (λ c, number_or_nan (cell c r)) numeric_columns)
             filtered_data
  && forallb (λ c, bool_decide (c ∈ numeric_columns)) selected_latency_metrics.

(** Records that all lack the packet loss. *)
Definition lossless_records : list record :=
  [ list_to_map
      [("timestamp"%string, VTime (hours 9) false);
       ("success"%string, VNum 100);
       ("avg_latency_ms"%string, VNum 20)] ].

(** * The power-cycle script

    [src/scripts/power_cycle_p100.py]: the script that switches the smart
    plug of the modem off and on again.  The plug, the clock, the cooldown
    file and the log file are the state the script runs in; what the plug
    answers to each request is given by the state. *)

Module Script.

(** The modules the script imports (lines 1 to 5).  Any other module name
    is not a global of the script. *)
Definition imported : list string :=
  ["asyncio"; "tapo"; "json"; "logging"; "datetime"]%string.

Definition device_name : string := "<device name>".
Definition COOLDOWN_PERIOD : Z := 600.
Definition wait_time : Z := 30.
Definition retry_attempts : nat := 3.

(** The exceptions (all of them subclasses of [Exception]); the ones that
    come from outside the script carry their text. *)
Inductive exn : Type :=
| NameError (name : string)
| UnboundLocalError (name : string)
| TimeoutError (msg : string)
| ValueError (msg : string)
| OSError (msg : string)
| DeviceError (msg : string).

(** [str(e)] (for the unbound local, the text of Python 3.11 and later). *)
Definition str (e : exn) : string :=
  match e with
  | NameError name => "name '" +:+ name +:+ "' is not defined"
  | UnboundLocalError name =>
      "cannot access local variable '" +:+ name
      +:+ "' where it is not associated with a value"
  | TimeoutError msg | ValueError msg | OSError msg | DeviceError msg => msg
  end.

Inductive result (A : Type) : Type :=
| Ok (a : A)
| Raise (e : exn).
Arguments Ok {A} a.
Arguments Raise {A} e.

Inductive level : Type := INFO | WARNING | ERROR | CRITICAL.

(** The requests the script sends to the plug through the tapo client:
    [client.p100(ip)] and the four methods of the device it uses. *)
Inductive request : Type :=
| Connect | RefreshSession | Off | On | GetDeviceInfoJson.

(** A request fails with an exception, or is answered (the text is the
    device information, for the request that asks for it). *)
Inductive reply : Type :=
| Fails (e : exn)
| Answers (body : string).

(** The cooldown file: absent, holding the time of the last power cycle,
    or there but failing to be read as a number. *)
Inductive file : Type :=
| Absent
| Holds (last_cycle : Z)
| Unreadable (e : exn).

(** The handle [client.p100] returns. *)
Inductive Device : Type := P100.

Record State : Type := mkState {
  (** [int(datetime.now().timestamp())] *)
  clock : Z;
  cooldown_file : file;
  (** The exception opening the cooldown file for writing meets, if any. *)
  write_error : option exn;
  (** [plug k]: what the [k]-th request sent to the plug meets. *)
  plug : nat → reply;
  (** The requests sent so far, oldest first. *)
  requests : list request;
  (** The records written to the log file, oldest first. *)
  log : list (level * string);
  (** The local variable [device] of [control_tapo]. *)
  device : option Device
}.

Definition M (A : Type) : Type := State → result A * State.

Definition ret {A} (a : A) : M A := λ s, (Ok a, s).

Definition raise {A} (e : exn) : M A := λ s, (Raise e, s).

Definition bind {A B} (m : M A) (k : A → M B) : M B :=
  λ s, match m s with
       | (Ok a, s') => k a s'
       | (Raise e, s') => (Raise e, s')
       end.

Notation "'let+' x ':=' m 'in' k" := (bind m (fun x => k))
  (at level 10, x name, m at level 100, k at level 200).

(** [try: m  except Exception as e: h e] *)
Definition try_except {A} (m : M A) (h : exn → M A) : M A :=
  λ s, match m s with
       | (Ok a, s') => (Ok a, s')
       | (Raise e, s') => h e s'
       end.

(** A global name is looked up: a module name resolves if it was
    imported. *)
Definition global_name (name : string) : M unit :=
  if bool_decide (name ∈ imported) then ret tt else raise (NameError name).

(** [logging.info], [logging.warning], [logging.error],
    [logging.critical] *)
Definition logging (lvl : level) (msg : string) : M unit :=
  λ s, (Ok tt,
        {| clock := clock s; cooldown_file := cooldown_file s;
           write_error := write_error s; plug := plug s;
           requests := requests s; log := log s ++ [(lvl, msg)];
           device := device s |}).

(** An awaited call of the tapo client. *)
Definition send (r : request) : M string :=
  λ s,
    let s' := {| clock := clock s; cooldown_file := cooldown_file s;
                 write_error := write_error s; plug := plug s;
                 requests := requests s ++ [r]; log := log s;
                 device := device s |} in
    match plug s (length (requests s)) with
    | Fails e => (Raise e, s')
    | Answers body => (Ok body, s')
    end.

(** [await asyncio.sleep(seconds)] *)
Definition sleep (seconds : Z) : M unit :=
  λ s, (Ok tt,
        {| clock := clock s + seconds; cooldown_file := cooldown_file s;
           write_error := write_error s; plug := plug s;
           requests := requests s; log := log s; device := device s |}).

(** Entering [control_tapo]: no local is bound. *)
Definition enter : M unit :=
  λ s, (Ok tt,
        {| clock := clock s; cooldown_file := cooldown_file s;
           write_error := write_error s; plug := plug s;
           requests := requests s; log := log s; device := None |}).

(** [device = ...] *)
Definition assign_device (d : Device) : M unit :=
  λ s, (Ok tt,
        {| clock := clock s; cooldown_file := cooldown_file s;
           write_error := write_error s; plug := plug s;
           requests := requests s; log := log s; device := Some d |}).

(** Reading the local [device]. *)
Definition local_device : M Device :=
  λ s, match device s with
       | Some d => (Ok d, s)
       | None => (Raise (UnboundLocalError "device"), s)
       end.

Definition str_Z (z : Z) : string := NilZero.string_of_int (Z.to_int z).

Definition is_in_cooldown : M bool :=
  let+ _ := global_name "os" in
  λ s, match cooldown_file s with
       | Absent => (Ok false, s)
       | Unreadable e => (Raise e, s)
       | Holds last_cycle =>
           let current_time := clock s in
           let time_diff := current_time - last_cycle in
           if time_diff <? COOLDOWN_PERIOD then
             (let+ _ :=
                logging INFO
                  ("Cooldown period is still active, skipping power cycle. Time left: "
                   +:+ str_Z (COOLDOWN_PERIOD - time_diff) +:+ " seconds.") in
              ret true) s
           else (Ok false, s)
       end.

Definition update_cooldown_file : M unit :=
  let+ _ :=
    (λ s, match write_error s with
          | Some e => (Raise e, s)
          | None =>
              (Ok tt,
               {| clock := clock s; cooldown_file := Holds (clock s);
                  write_error := write_error s; plug := plug s;
                  requests := requests s; log := log s;
                  device := device s |})
          end) in
  logging INFO "Cooldown file updated with the current timestamp.".

(** [json.dumps] is applied to the JSON value the client returned; its
    result is not used. *)
Definition print_device_info (device : Device) : M unit :=
  try_except
    (let+ device_info_json := send GetDeviceInfoJson in
     logging INFO ("Device info: " +:+ device_info_json))
    (λ e, logging ERROR ("Failed to retrieve device info: " +:+ str e)).

(** The [try] block of one round of the retry loop. *)
Definition retry (device : Device) (attempt : nat) : M unit :=
  let+ _ :=
    logging WARNING
      ("Attempting to refresh session and retry... (Attempt "
       +:+ str_nat attempt +:+ "/" +:+ str_nat retry_attempts +:+ ")") in
  let+ _ := send RefreshSession in
  let+ _ := send On in
  let+ _ :=
    logging INFO
      (device_name +:+ " has been turned back on after retry attempt "
       +:+ str_nat attempt +:+ ".") in
  print_device_info device.

(** [for attempt in attempts: ...]; the function returns from inside the
    loop after a round that went through, and after the round numbered
    [retry_attempts]. *)
Fixpoint retry_loop (device : Device) (attempts : list nat) : M unit :=
  match attempts with
  | [] => ret tt
  | attempt :: rest =>
      try_except
        (retry device attempt)
        (λ retry_error,
           let+ _ :=
             logging ERROR
               ("Retry attempt " +:+ str_nat attempt +:+ " failed: "
                +:+ str retry_error) in
           if Nat.eqb attempt retry_attempts then
             logging CRITICAL
               "All retry attempts failed. Please check your connection."
           else retry_loop device rest)
  end.

Definition handle_exception (device : Device) : M unit :=
  retry_loop device (seq 1 retry_attempts).

Definition control_tapo : M unit :=
  let+ _ := enter in
  try_except
    (let+ cooling := is_in_cooldown in
     if cooling then ret tt
     else
       let+ _ := send Connect in
       let+ _ := assign_device P100 in
       let+ device := local_device in
       let+ _ := send RefreshSession in
       let+ _ := logging INFO ("Session refreshed for " +:+ device_name +:+ ".") in
       let+ _ := send Off in
       let+ _ := logging INFO (device_name +:+ " has been turned off.") in
       let+ _ := sleep wait_time in
       let+ _ :=
         logging INFO ("Waited for " +:+ str_Z wait_time +:+ " seconds.") in
       let+ _ := send On in
       let+ _ := logging INFO (device_name +:+ " has been turned back on.") in
       let+ _ := update_cooldown_file in
       print_device_info device)
    (λ e,
       match e with
       | TimeoutError _ =>
           logging ERROR
             "The request timed out. Please check your network connection or the device."
       | _ =>
           let+ _ :=
             logging ERROR ("An unexpected error occurred: " +:+ str e) in
           let+ device := local_device in
           handle_exception device
       end).

(** The requests sent since the state [s]. *)
Definition sent_since (s s' : State) : list request :=
  drop (length (requests s)) (requests s').

Definition count (r : request) (l : list request) : nat :=
  length (List.filter
            (λ x, match r, x with
                  | Connect, Connect | RefreshSession, RefreshSession
                  | Off, Off | On, On
                  | GetDeviceInfoJson, GetDeviceInfoJson => true
                  | _, _ => false
                  end) l).

(** A plug that fails the first [k] requests and answers from then on. *)
Definition plug_down_for (k : nat) : nat → reply :=
  λ i, if (i <? k)%nat then Fails (DeviceError "connection refused")
       else Answers "{}".

Definition start (k : nat) : State :=
  {| clock := 1000; cooldown_file := Absent; write_error := None;
     plug := plug_down_for k; requests := []; log := []; device := None |}.

End Script.




(** Two probes during an outage: nothing answered, no latency was
    measured. *)
Definition outage_table : DataFrame :=
  {| columns := table_columns;
     rows := [ stored_row (VDateStr (hours 9) false ISO)
                 (VNum 0) VNone VNone VNone (VNum 100);
               stored_row (VDateStr (hours 10) false ISO)
                 (VNum 0) VNone VNone VNone (VNum 100) ] |}.

Definition outage_records : list record :=
  fetched outage_table (hours 12) "all_time".

(** The table before the first probe: all columns, no row. *)
Definition empty_table : DataFrame :=
  {| columns := table_columns; rows := [] |}.

(** * Properties *)

(** ** Results and frames *)

Lemma mapR_length {A B} (f : A → result B) (l : list A) (bs : list B) :
  mapR f l = Ok bs → length bs = length l.
Proof.
  revert bs. induction l as [|a l IH]; simpl; intros bs H.
  - inversion H. reflexivity.
  - destruct (f a) as [b|e]; simpl in H; [|discriminate].
    destruct (mapR f l) as [bs'|e]; simpl in H; [|discriminate].
    inversion H; subst. simpl. f_equal. apply IH. reflexivity.
Qed.

Lemma zip_with_map_r {A B C} (f : A → B → C) (g : A → B) (l : list A) :
  zip_with f l (map g l) = map (λ x, f x (g x)) l.
Proof. induction l; simpl; congruence. Qed.

Lemma assign_pure (df : DataFrame) (c : string) (g : value → value) :
  has_column df c = true →
  assign df c (λ s, Ok (map g s))
  = Ok {| columns := columns df;
          rows := map (λ r, <[c := g (cell c r)]> r) (rows df) |}.
Proof.
  intros Hc. unfold assign, getitem, setitem. rewrite Hc. simpl.
  rewrite !length_map, Nat.eqb_refl.
  rewrite map_map, zip_with_map_r. reflexivity.
Qed.

Lemma cell_insert_eq (c : string) (v : value) (r : record) :
  cell c (<[c := v]> r) = v.
Proof. unfold cell. rewrite lookup_insert_eq. reflexivity. Qed.

Lemma cell_insert_ne (c c' : string) (v : value) (r : record) :
  c ≠ c' → cell c' (<[c := v]> r) = cell c' r.
Proof. intros H. unfold cell. rewrite lookup_insert_ne by exact H. reflexivity. Qed.

Lemma normalize_spec (df : DataFrame) (ts : list value) :
  columns df = map snd query_columns →
  to_datetime (map (cell "timestamp") (rows df)) = Ok ts →
  normalize df
  = Ok {| columns := columns df;
          rows := map finish_row
                    (zip_with (λ r v, <["timestamp" := v]> r) (rows df) ts) |}.
Proof.
  intros Hcols Hts.
  assert (Hlen : length ts = length (rows df)).
  { unfold to_datetime in Hts.
    destruct (mapR (datetime_cell _) _) as [ts'|] eqn:E; simpl in Hts;
      [|discriminate].
    destruct (_ && _); [discriminate|]. inversion Hts; subst.
    apply mapR_length in E. rewrite length_map in E. exact E. }
  unfold normalize.
  unfold assign at 1. unfold getitem, has_column. rewrite Hcols.
  simpl bool_decide. cbn [rbind]. rewrite Hts. cbn [rbind].
  unfold setitem, has_column. rewrite Hlen, Nat.eqb_refl, Hcols.
  simpl bool_decide. cbn [rbind].
  cbn [foldR numeric_columns].
  repeat (rewrite assign_pure by reflexivity; cbn [rbind columns rows]).
  unfold clip_upper.
  repeat (rewrite assign_pure by reflexivity; cbn [rbind columns rows]).
  rewrite !map_map. reflexivity.
Qed.

(** ** parse_log *)

Lemma parse_log_spec (db_path : string) (w : World) :
  parse_log db_path w
  = (Ok (parsed (storage w (S (parse_log_calls w)) db_path)), called w).
Proof.
  unfold parse_log, bind, count_parse_log, try_catch, read_sql_query, lift, ret.
  cbn [called parse_log_calls storage]. unfold parsed.
  destruct (storage w (S (parse_log_calls w)) db_path) as [tbl|]; [|reflexivity].
  fold (queryable tbl). destruct (queryable tbl); [|reflexivity].
  destruct (to_datetime _) as [ts|e] eqn:Hts.
  - erewrite normalize_spec; [reflexivity|reflexivity|exact Hts].
  - assert (Hc : ∀ rs, has_column {| columns := map snd query_columns;
                                      rows := rs |} "timestamp" = true)
      by reflexivity.
    unfold normalize. unfold assign at 1. unfold getitem.
    rewrite Hc. cbn [rbind rows]. rewrite Hts. reflexivity.
Qed.

Lemma lookup_map {A B} (f : A → B) (l : list A) (i : nat) :
  map f l !! i = f <$> (l !! i).
Proof.
  revert i. induction l as [|a l IH]; intros [|i]; simpl; auto.
Qed.

Lemma to_datetime_length (vals ts : list value) :
  to_datetime vals = Ok ts → length ts = length vals.
Proof.
  unfold to_datetime. intros H.
  destruct (mapR (datetime_cell _) vals) as [ts'|] eqn:E; simpl in H;
    [|discriminate].
  destruct (_ && _); [discriminate|]. inversion H; subst.
  eapply mapR_length; eauto.
Qed.

Lemma normalized_length (tbl : DataFrame) (ts : list value) :
  to_datetime (map (cell "timestamp") (map select_row (rows tbl))) = Ok ts →
  length (rows (normalized tbl ts)) = length (rows tbl).
Proof.
  intros H. apply to_datetime_length in H. rewrite !length_map in H.
  unfold normalized. cbn [rows].
  rewrite length_map, length_zip_with, length_map. lia.
Qed.

Lemma normalized_lookup (tbl : DataFrame) (ts : list value) (i : nat)
    (stored : record) :
  to_datetime (map (cell "timestamp") (map select_row (rows tbl))) = Ok ts →
  rows tbl !! i = Some stored →
  ∃ t, rows (normalized tbl ts) !! i
       = Some (finish_row (<["timestamp" := t]> (select_row stored))).
Proof.
  intros Hts Hi.
  assert (Hlt : (i < length ts)%nat).
  { apply to_datetime_length in Hts. rewrite !length_map in Hts.
    rewrite Hts. eapply lookup_lt_Some; eauto. }
  destruct (lookup_lt_is_Some_2 ts i Hlt) as [t Ht].
  exists t. unfold normalized. cbn [rows].
  rewrite lookup_map, lookup_zip_with, lookup_map, Hi. simpl.
  rewrite Ht. reflexivity.
Qed.

(** Reads a cell through a chain of column updates. *)
Ltac read_cell :=
  repeat (rewrite cell_insert_eq || rewrite cell_insert_ne by done);
  try reflexivity.

Lemma cell_finish_row_latency (c : string) (r : record) :
  c = "avg_latency_ms"%string ∨ c = "max_latency_ms"%string
  ∨ c = "min_latency_ms"%string →
  cell c (finish_row r) = clip 500 (to_numeric (cell c r)).
Proof.
  unfold finish_row, clip_in, numeric_in.
  intros [-> | [-> | ->]]; read_cell.
Qed.

Lemma cell_finish_row_packet_loss (r : record) :
  cell "packet_loss" (finish_row r)
  = clip 100 (to_numeric (cell "packet_loss" r)).
Proof. unfold finish_row, clip_in, numeric_in. read_cell. Qed.

Lemma cell_finish_row_timestamp (r : record) :
  cell "timestamp" (finish_row r) = cell "timestamp" r.
Proof. unfold finish_row, clip_in, numeric_in. read_cell. Qed.

Lemma cell_select_row_same (c : string) (r : record) :
  c = "avg_latency_ms"%string ∨ c = "max_latency_ms"%string
  ∨ c = "min_latency_ms"%string ∨ c = "packet_loss"%string
  ∨ c = "timestamp"%string →
  cell c (select_row r) = default VNone (r !! c).
Proof.
  unfold select_row, cell. cbn [map query_columns list_to_map foldr fst snd uncurry].
  intros [-> | [-> | [-> | [-> | ->]]]];
    repeat (rewrite lookup_insert_eq || rewrite lookup_insert_ne by done);
    reflexivity.
Qed.

Lemma clip_above (u q : Q) : (u < q)%Q → clip u (VNum q) = VNum u.
Proof.
  intros H. simpl. destruct (Qle_bool q u) eqn:E; [|reflexivity].
  apply Qle_bool_iff in E. lra.
Qed.

Lemma clip_below (u q : Q) : (q <= u)%Q → clip u (VNum q) = VNum q.
Proof.
  intros H. simpl. apply Qle_bool_iff in H. rewrite H. reflexivity.
Qed.

(** C8 (as stated, refuted).  A caller can tell a failed read from a
    table without rows.  Both frames have no row, but the frame of the
    failed read has no column either, while that of the empty table has the
    seven columns of the query.  The [except] block of [get_filtered_data]
    calls [parse_log] and hands the frame to the filter without testing it
    for emptiness: for a bounded window it raises KeyError on the frame of
    the failed read and returns the empty list on that of the empty
    table. *)
Lemma failed_read_told_apart :
  rmap rows (parse_log "no_such_file.db" (world_with empty_table)).1 = Ok []
  ∧ rmap rows (parse_log "logs/internet_status.db" (world_with empty_table)).1
    = Ok []
  ∧ rmap columns (parse_log "no_such_file.db" (world_with empty_table)).1
    = Ok []
  ∧ rmap columns
      (parse_log "logs/internet_status.db" (world_with empty_table)).1
    = Ok ["timestamp"; "status_message"; "success"; "avg_latency_ms";
          "max_latency_ms"; "min_latency_ms"; "packet_loss"]%string
  ∧ (uncached_path 0 "no_such_file.db" "last_12_hours"
       (world_with empty_table)).1
    = Raise (KeyError "timestamp")
  ∧ (uncached_path 0 "logs/internet_status.db" "last_12_hours"
       (world_with empty_table)).1
    = Ok [].
Proof. repeat split; reflexivity. Qed.

(** C8 (amended).  [parse_log] never raises.  Whatever the storage
    location holds, the call returns a frame: the normalised table, one row
    per stored record, when the table can be read, queried and its
    timestamps converted; the empty frame on every failure (file or table
    unreadable, query error, timestamp conversion failing as a whole).  A
    failed read and a table without rows both pass the emptiness test, so a
    caller that only tests the frame for emptiness, as the [try] block of
    the fetch operation does, cannot tell them apart: it returns the empty
    list for both. *)
Theorem parse_log_never_raises (db_path : string) (w : World) :
  ∃ df : DataFrame,
    parse_log db_path w = (Ok df, called w) ∧
    match storage w (S (parse_log_calls w)) db_path with
    | None => df = empty_frame
    | Some tbl =>
        (∃ ts, queryable tbl = true
               ∧ to_datetime (map (cell "timestamp")
                                  (map select_row (rows tbl))) = Ok ts
               ∧ df = normalized tbl ts
               ∧ length (rows df) = length (rows tbl))
        ∨ ((queryable tbl = false
            ∨ ∃ e, to_datetime (map (cell "timestamp")
                                    (map select_row (rows tbl))) = Raise e)
           ∧ df = empty_frame)
    end ∧
    ((df = empty_frame
      ∨ ∃ tbl, storage w (S (parse_log_calls w)) db_path = Some tbl
               ∧ rows tbl = []) →
     empty df = true
     ∧ ∀ now date_range,
         cached_path now db_path date_range w = (Ok [], called w)).
Proof.
  exists (parsed (storage w (S (parse_log_calls w)) db_path)).
  split; [apply parse_log_spec|].
  assert (Hcase :
    match storage w (S (parse_log_calls w)) db_path with
    | None => parsed (storage w (S (parse_log_calls w)) db_path) = empty_frame
    | Some tbl =>
        (∃ ts, queryable tbl = true
               ∧ to_datetime (map (cell "timestamp")
                                  (map select_row (rows tbl))) = Ok ts
               ∧ parsed (storage w (S (parse_log_calls w)) db_path)
                 = normalized tbl ts
               ∧ length (rows (parsed (storage w (S (parse_log_calls w)) db_path)))
                 = length (rows tbl))
        ∨ ((queryable tbl = false
            ∨ ∃ e, to_datetime (map (cell "timestamp")
                                    (map select_row (rows tbl))) = Raise e)
           ∧ parsed (storage w (S (parse_log_calls w)) db_path) = empty_frame)
    end).
  { destruct (storage w (S (parse_log_calls w)) db_path) as [tbl|];
      [|reflexivity].
    unfold parsed. destruct (queryable tbl) eqn:Hq.
    - destruct (to_datetime _) as [ts|e] eqn:Hts.
      + left. exists ts. repeat split; auto. apply normalized_length; auto.
      + right. split; [right; eauto | reflexivity].
    - right. split; [left; reflexivity | reflexivity]. }
  split; [exact Hcase|].
  intros Hempty.
  assert (He : empty (parsed (storage w (S (parse_log_calls w)) db_path)) = true).
  { destruct Hempty as [-> | [tbl [Hst Hrows]]]; [reflexivity|].
    rewrite Hst in Hcase |- *.
    destruct Hcase as [[ts (_ & _ & -> & Hlen)] | [_ ->]]; [|reflexivity].
    rewrite Hrows in Hlen. unfold empty.
    destruct (rows (normalized tbl ts)); [reflexivity | discriminate]. }
  split; [exact He|].
  intros now date_range. unfold cached_path, bind.
  rewrite parse_log_spec, He. reflexivity.
Qed.

Lemma parse_log_never_raises_witness :
  ∃ df : DataFrame,
    parse_log "no_such_file.db" (world_with sample_table)
    = (Ok df, called (world_with sample_table))
    ∧ df = empty_frame
    ∧ empty df = true
    ∧ ∀ now date_range,
        cached_path now "no_such_file.db" date_range (world_with sample_table)
        = (Ok [], called (world_with sample_table)).
Proof.
  destruct (parse_log_never_raises "no_such_file.db" (world_with sample_table))
    as (df & Hp & Hcase & Hempty).
  exists df. split; [exact Hp|].
  change (df = empty_frame) in Hcase.
  split; [exact Hcase|].
  apply Hempty. left. exact Hcase.
Defined.

(** C4.  Normalisation by the reader caps the latencies at 500 and the
    packet loss at 100 and changes nothing below the cap: for a stored row
    of a table that is read successfully, a numeric [avg_latency_ms],
    [max_latency_ms] or [min_latency_ms] above 500 comes out as exactly 500
    and one of at most 500 (negative ones included) comes out unchanged; a
    numeric [packet_loss] above 100 comes out as exactly 100 (and one of at
    most 100 unchanged). *)
Theorem parse_log_clamps (db_path : string) (w : World) (tbl : DataFrame)
    (ts : list value) (i : nat) (stored : record) :
  storage w (S (parse_log_calls w)) db_path = Some tbl →
  queryable tbl = true →
  to_datetime (map (cell "timestamp") (map select_row (rows tbl))) = Ok ts →
  rows tbl !! i = Some stored →
  ∃ (df : DataFrame) (r : record),
    parse_log db_path w = (Ok df, called w) ∧
    rows df !! i = Some r ∧
    (∀ (c : string) (q : Q),
        c = "avg_latency_ms"%string ∨ c = "max_latency_ms"%string
        ∨ c = "min_latency_ms"%string →
        stored !! c = Some (VNum q) →
        ((500 < q)%Q → cell c r = VNum 500)
        ∧ ((q <= 500)%Q → cell c r = VNum q)) ∧
    (∀ q : Q,
        stored !! "packet_loss" = Some (VNum q) →
        ((100 < q)%Q → cell "packet_loss" r = VNum 100)
        ∧ ((q <= 100)%Q → cell "packet_loss" r = VNum q)).
Proof.
  intros Hst Hq Hts Hi.
  destruct (normalized_lookup tbl ts i stored Hts Hi) as [t Ht].
  exists (normalized tbl ts), (finish_row (<["timestamp" := t]> (select_row stored))).
  split.
  { rewrite parse_log_spec, Hst. unfold parsed. rewrite Hq, Hts. reflexivity. }
  split; [exact Ht|].
  split.
  - intros c q Hc Hs.
    rewrite cell_finish_row_latency by exact Hc.
    rewrite cell_insert_ne by (destruct Hc as [-> | [-> | ->]]; done).
    rewrite cell_select_row_same by tauto.
    rewrite Hs. simpl default. cbn [to_numeric].
    split; intros Hb; [apply clip_above | apply clip_below]; exact Hb.
  - intros q Hs.
    rewrite cell_finish_row_packet_loss.
    rewrite cell_insert_ne by done.
    rewrite cell_select_row_same by tauto.
    rewrite Hs. simpl default. cbn [to_numeric].
    split; intros Hb; [apply clip_above | apply clip_below]; exact Hb.
Qed.

Lemma parse_log_clamps_witness :
  ∃ (df : DataFrame) (r : record),
    parse_log "logs/internet_status.db" (world_with sample_table)
    = (Ok df, called (world_with sample_table)) ∧
    rows df !! 0%nat = Some r ∧
    (∀ (c : string) (q : Q),
        c = "avg_latency_ms"%string ∨ c = "max_latency_ms"%string
        ∨ c = "min_latency_ms"%string →
        stored_row (VDateStr (hours 9) false ISO)
          (VNum 100) (VNum 600) (VNum 750) (VNum (-3)) (VNum 120) !! c
        = Some (VNum q) →
        ((500 < q)%Q → cell c r = VNum 500)
        ∧ ((q <= 500)%Q → cell c r = VNum q)) ∧
    (∀ q : Q,
        stored_row (VDateStr (hours 9) false ISO)
          (VNum 100) (VNum 600) (VNum 750) (VNum (-3)) (VNum 120)
          !! "packet_loss" = Some (VNum q) →
        ((100 < q)%Q → cell "packet_loss" r = VNum 100)
        ∧ ((q <= 100)%Q → cell "packet_loss" r = VNum q)).
Proof.
  exact (parse_log_clamps "logs/internet_status.db" (world_with sample_table)
           sample_table
           [VTime (hours 9) false; VTime (hours 10) false; VTime (hours 11) false]
           0%nat
           (stored_row (VDateStr (hours 9) false ISO)
              (VNum 100) (VNum 600) (VNum 750) (VNum (-3)) (VNum 120))
           eq_refl eq_refl eq_refl eq_refl).
Defined.

(** ** filter_data_by_date *)

Lemma mask_naive (start_date : Z) (rs : list record) :
  forallb (λ r, naive_cell (cell "timestamp" r)) rs = true →
  ∃ mask,
    mapR (ge_timestamp start_date) (map (cell "timestamp") rs) = Ok mask
    ∧ boolean_index rs mask = List.filter (at_or_after start_date) rs.
Proof.
  induction rs as [|r rs IH]; simpl; intros H.
  - exists []. split; reflexivity.
  - apply andb_true_iff in H as [Hr Hrs].
    destruct (IH Hrs) as [mask [Hm Hb]].
    unfold at_or_after.
    destruct (cell "timestamp" r) as [| | | | | |t [|]]; try discriminate;
      simpl; rewrite Hm; simpl.
    + exists (false :: mask). split; [reflexivity|]. simpl. exact Hb.
    + exists ((start_date <=? t) :: mask). split; [reflexivity|]. simpl.
      rewrite Hb. reflexivity.
Qed.

Lemma mask_defined (start_date : Z) (rs : list record) (mask : list bool) :
  mapR (ge_timestamp start_date) (map (cell "timestamp") rs) = Ok mask →
  forallb (λ r, naive_cell (cell "timestamp" r)) rs = true.
Proof.
  revert mask. induction rs as [|r rs IH]; simpl; intros mask H; [reflexivity|].
  destruct (ge_timestamp start_date (cell "timestamp" r)) as [b|] eqn:Hb;
    simpl in H; [|discriminate].
  destruct (mapR _ _) as [mask'|] eqn:Hm; simpl in H; [|discriminate].
  rewrite (IH mask' eq_refl), andb_true_r.
  destruct (cell "timestamp" r) as [| | | | | |t [|]]; try discriminate;
    reflexivity.
Qed.

Lemma filter_bounded (start_date : Z) (df : DataFrame) :
  tz_naive df = true →
  (let! ts := getitem df "timestamp" in
   let! mask := mapR (ge_timestamp start_date) ts in
   Ok {| columns := columns df; rows := boolean_index (rows df) mask |})
  = Ok {| columns := columns df;
          rows := List.filter (at_or_after start_date) (rows df) |}.
Proof.
  unfold tz_naive. intros H. apply andb_true_iff in H as [Hc Hr].
  unfold getitem. rewrite Hc. cbn [rbind].
  destruct (mask_naive start_date (rows df) Hr) as [mask [Hm Hb]].
  rewrite Hm. cbn [rbind]. rewrite Hb. reflexivity.
Qed.

(** C2.  With the clock fixed at [T], the window "last_12_hours" keeps
    exactly the records whose timestamp is at least [T] minus 12 hours:
    on a frame whose timestamps carry no time zone the filter returns the
    rows, in their order, that have a timestamp [t >= T - 12h]; every
    output row has such a timestamp and every input row that has one is in
    the output.  The filter returns records on no other frame: where a
    timestamp cannot be compared with the cutoff, it raises. *)
Theorem filter_last_12_hours (T : Z) (log_data : DataFrame) :
  (tz_naive log_data = true →
   ∃ out : DataFrame,
     filter_data_by_date T log_data "last_12_hours" = Ok out ∧
     columns out = columns log_data ∧
     rows out = List.filter (at_or_after (T - hours 12)) (rows log_data) ∧
     ∀ r : record,
       r ∈ rows out ↔
       r ∈ rows log_data
       ∧ ∃ t, cell "timestamp" r = VTime t false ∧ T - hours 12 <= t)
  ∧ (∀ out : DataFrame,
       filter_data_by_date T log_data "last_12_hours" = Ok out →
       tz_naive log_data = true).
Proof.
  split.
  - intros Hn.
    exists {| columns := columns log_data;
              rows := List.filter (at_or_after (T - hours 12)) (rows log_data) |}.
    split.
    { unfold filter_data_by_date. cbn [String.eqb Ascii.eqb Bool.eqb].
      apply filter_bounded. exact Hn. }
    split; [reflexivity|]. split; [reflexivity|].
    intros r. cbn [rows]. rewrite !list_elem_of_In, filter_In.
    unfold at_or_after. split.
    + intros [Hin Hb]. split; [exact Hin|].
      destruct (cell "timestamp" r) as [| | | | | |t [|]]; try discriminate.
      exists t. split; [reflexivity|]. apply Z.leb_le. exact Hb.
    + intros [Hin [t [Ht Hle]]]. split; [exact Hin|].
      rewrite Ht. apply Z.leb_le. exact Hle.
  - intros out H. unfold filter_data_by_date in H.
    cbn [String.eqb Ascii.eqb Bool.eqb] in H.
    unfold getitem in H. unfold tz_naive.
    destruct (has_column log_data "timestamp"); [|discriminate].
    cbn [rbind andb] in H |- *.
    destruct (mapR _ _) as [mask|] eqn:Hm; [|discriminate].
    eapply mask_defined. exact Hm.
Qed.

Lemma filter_last_12_hours_witness :
  ∃ out : DataFrame,
    filter_data_by_date (hours 22) (parsed (Some sample_table)) "last_12_hours"
    = Ok out ∧
    columns out = columns (parsed (Some sample_table)) ∧
    rows out = List.filter (at_or_after (hours 22 - hours 12))
                           (rows (parsed (Some sample_table))) ∧
    ∀ r : record,
      r ∈ rows out ↔
      r ∈ rows (parsed (Some sample_table))
      ∧ ∃ t, cell "timestamp" r = VTime t false ∧ hours 22 - hours 12 <= t.
Proof.
  exact (proj1 (filter_last_12_hours (hours 22) (parsed (Some sample_table)))
           eq_refl).
Defined.

(** C3.  With the selector "all_time", and with every selector that is not
    one of the four bounded windows, the filter is the identity: it returns
    its input unchanged, so the output has as many records as the input. *)
Theorem filter_all_time_identity (now : Z) (log_data : DataFrame)
    (date_range : string) :
  date_range = "all_time"%string
  ∨ (date_range ≠ "last_12_hours"%string ∧ date_range ≠ "last_24_hours"%string
     ∧ date_range ≠ "last_48_hours"%string ∧ date_range ≠ "last_7_days"%string) →
  ∃ out : DataFrame,
    filter_data_by_date now log_data date_range = Ok out ∧
    out = log_data ∧
    length (rows out) = length (rows log_data).
Proof.
  intros H. exists log_data. split; [|split; reflexivity].
  assert (Hne : date_range ≠ "last_12_hours"%string
                ∧ date_range ≠ "last_24_hours"%string
                ∧ date_range ≠ "last_48_hours"%string
                ∧ date_range ≠ "last_7_days"%string).
  { destruct H as [-> | H]; [repeat split; discriminate | exact H]. }
  destruct Hne as (H1 & H2 & H3 & H4).
  unfold filter_data_by_date.
  apply String.eqb_neq in H1, H2, H3, H4.
  rewrite H1, H2, H3, H4. reflexivity.
Qed.

Lemma filter_all_time_identity_witness :
  ∃ out : DataFrame,
    filter_data_by_date (hours 22) (parsed (Some sample_table)) "all_time"
    = Ok out ∧
    out = parsed (Some sample_table) ∧
    length (rows out) = length (rows (parsed (Some sample_table))).
Proof.
  apply (filter_all_time_identity (hours 22) (parsed (Some sample_table))
           "all_time").
  left. reflexivity.
Defined.

(** ** update_dashboard *)

Lemma boolean_index_map {A} (f : A → bool) (l : list A) :
  boolean_index l (map f l) = List.filter f l.
Proof.
  induction l as [|a l IH]; simpl; [reflexivity|].
  rewrite IH. reflexivity.
Qed.

Lemma zip_with_andb_map {A} (g h : A → bool) (l : list A) :
  zip_with andb (map g l) (map h l) = map (λ a, g a && h a) l.
Proof. induction l; simpl; congruence. Qed.

Lemma cell_project (cols : list string) (c : string) (r : record) :
  c ∈ cols → cell c (project cols r) = cell c r.
Proof.
  unfold project, cell at 1. induction cols as [|k cols IH]; intros Hin.
  - inversion Hin.
  - cbn [map]. rewrite list_to_map_cons.
    destruct (decide (k = c)) as [->|Hne].
    + rewrite lookup_insert_eq. reflexivity.
    + rewrite lookup_insert_ne by exact Hne. apply IH.
      apply elem_of_cons in Hin as [->|Hin]; [congruence | exact Hin].
Qed.

Lemma has_column_elem (df : DataFrame) (c : string) :
  has_column df c = true ↔ c ∈ columns df.
Proof. unfold has_column. apply bool_decide_eq_true. Qed.

Lemma select_columns_ok (df : DataFrame) (cols : list string) :
  forallb (has_column df) cols = true →
  select_columns df cols
  = Ok {| columns := cols; rows := map (project cols) (rows df) |}.
Proof.
  intros H. unfold select_columns.
  destruct (find _ cols) as [c|] eqn:E; [|reflexivity].
  apply find_some in E as [Hin Hc].
  rewrite forallb_forall in H. rewrite (H c Hin) in Hc. discriminate.
Qed.

Lemma traces_ok (df : DataFrame) (x : list value) (sel : list string) :
  forallb (has_column df) sel = true →
  mapR (λ metric,
          let! y := getitem df metric in
          Ok {| trace_x := x; trace_y := y; trace_name := name_mapping metric |})
       sel
  = Ok (map (λ metric, {| trace_x := x;
                          trace_y := map (cell metric) (rows df);
                          trace_name := name_mapping metric |}) sel).
Proof.
  induction sel as [|m sel IH]; simpl; intros H; [reflexivity|].
  apply andb_true_iff in H as [Hm Hs].
  unfold getitem at 1. rewrite Hm. cbn [rbind].
  rewrite (IH Hs). reflexivity.
Qed.

Lemma update_dashboard_renderable (filtered_data : list record)
    (sel : list string) :
  renderable filtered_data sel = true →
  ∃ (out : DashboardOutputs) (traces : list trace) (lay : layout),
    update_dashboard filtered_data sel = Ok out ∧
    latency_fig out = Figure traces lay ∧
    length traces = length sel ∧
    (sel = [] →
     annotations lay = [placeholder_text]
     ∧ yaxis_range lay = (VNum 0, VNum ABSOLUTE_MAX_LATENCY)) ∧
    (sel ≠ [] →
     annotations lay = []
     ∧ yaxis_range lay
       = (VNum 0,
          py_min (vmul (frame_max (latency_frame filtered_data sel)) (11 # 10))
                 ABSOLUTE_MAX_LATENCY)) ∧
    full_up_count out
    = "Fully Up: " +:+ str_nat (count_if fully_up (rows (sorted_frame filtered_data))) ∧
    partial_up_count out
    = "Partially Up: "
      +:+ str_nat (count_if partially_up (rows (sorted_frame filtered_data))) ∧
    down_count out
    = "Down: " +:+ str_nat (count_if is_down (rows (sorted_frame filtered_data))).
Proof.
  unfold renderable. intros H.
  apply andb_true_iff in H as [H Hsel0].
  apply andb_true_iff in H as [H Hpl].
  apply andb_true_iff in H as [H Hsu].
  apply andb_true_iff in H as [H Hts].
  apply negb_true_iff in H.
  set (df0 := DataFrame_of_records filtered_data) in *.
  assert (Hcol : ∀ c, has_column (sorted_frame filtered_data) c = has_column df0 c)
    by reflexivity.
  assert (Hsel : forallb (has_column (sorted_frame filtered_data)) sel = true).
  { exact Hsel0. }
  assert (Hsort : sort_values df0 "timestamp" true = Ok (sorted_frame filtered_data)).
  { unfold sort_values. rewrite Hts. reflexivity. }
  assert (Hsortd : ∃ d, sort_values (sorted_frame filtered_data) "timestamp" false = Ok d).
  { unfold sort_values. rewrite Hcol, Hts. eauto. }
  destruct Hsortd as [d Hd].
  unfold update_dashboard. fold df0. rewrite H. cbn [negb].
  unfold getitem at 1. rewrite Hts.
  cbn [rbind]. rewrite Hsort. cbn [rbind].
  assert (Hg : ∀ c, has_column df0 c = true →
                 getitem (sorted_frame filtered_data) c
                 = Ok (map (cell c) (rows (sorted_frame filtered_data)))).
  { intros c Hc. unfold getitem. rewrite Hcol, Hc. reflexivity. }
  destruct sel as [|m sel].
  - cbn [rbind]. rewrite !Hg by auto. cbn [rbind]. rewrite Hd. cbn [rbind].
    eexists _, _, _. split; [reflexivity|]. cbn [latency_fig].
    split; [reflexivity|]. split; [reflexivity|].
    split; [intros _; split; reflexivity|].
    split; [intros Hne; congruence|].
    cbn [full_up_count partial_up_count down_count].
    unfold count_rows, count_if.
    rewrite zip_with_andb_map, !map_map, !boolean_index_map.
    repeat split; reflexivity.
  - rewrite select_columns_ok by exact Hsel. cbn [rbind].
    rewrite !Hg by auto. cbn [rbind].
    rewrite traces_ok by exact Hsel. cbn [rbind]. rewrite Hd. cbn [rbind].
    eexists _, _, _. split; [reflexivity|]. cbn [latency_fig].
    split; [reflexivity|]. split; [rewrite length_map; reflexivity|].
    split; [intros Hne; discriminate|].
    split; [intros _; split; reflexivity|].
    cbn [full_up_count partial_up_count down_count].
    unfold count_rows, count_if.
    rewrite zip_with_andb_map, !map_map, !boolean_index_map.
    repeat split; reflexivity.
Qed.

(** Sorting permutes the rows. *)
Lemma insert_sorted_perm (le : record → record → bool) (r : record)
    (l : list record) :
  insert_sorted le r l ≡ₚ r :: l.
Proof.
  induction l as [|h t IH]; simpl; [reflexivity|].
  destruct (le r h); [reflexivity|].
  rewrite IH. apply perm_swap.
Qed.

Lemma sorted_rows_perm (by_ : string) (ascending : bool) (l : list record) :
  sorted_rows by_ ascending l ≡ₚ l.
Proof.
  unfold sorted_rows. induction l as [|r l IH]; simpl; [reflexivity|].
  rewrite insert_sorted_perm, IH. reflexivity.
Qed.

Lemma count_if_perm (p : record → bool) (l l' : list record) :
  l ≡ₚ l' → count_if p l = count_if p l'.
Proof.
  unfold count_if. induction 1; simpl.
  - reflexivity.
  - destruct (p x); simpl; congruence.
  - destruct (p x), (p y); reflexivity.
  - congruence.
Qed.

Lemma count_if_map (p : record → bool) (f : record → record)
    (l : list record) :
  count_if p (map f l) = count_if (λ r, p (f r)) l.
Proof.
  unfold count_if. induction l as [|r l IH]; simpl; [reflexivity|].
  destruct (p (f r)); simpl; congruence.
Qed.

Lemma count_if_ext (p q : record → bool) (l : list record) :
  (∀ r, p r = q r) → count_if p l = count_if q l.
Proof.
  intros H. unfold count_if. induction l as [|r l IH]; simpl; [reflexivity|].
  rewrite H. destruct (q r); simpl; congruence.
Qed.

(** Counting rows of the sorted frame is counting the records. *)
Lemma count_if_sorted_frame (p : value → bool) (filtered_data : list record) :
  has_column (DataFrame_of_records filtered_data) "success" = true →
  count_if (λ r, p (cell "success" r)) (rows (sorted_frame filtered_data))
  = count_if (λ r, p (cell "success" r)) filtered_data.
Proof.
  intros Hc. apply has_column_elem in Hc.
  unfold sorted_frame. cbn [rows].
  rewrite (count_if_perm _ _ _ (sorted_rows_perm _ _ _)).
  unfold DataFrame_of_records in *. cbn [rows columns] in *.
  rewrite count_if_map. apply count_if_ext. intros r.
  rewrite cell_project by exact Hc. reflexivity.
Qed.

(** The three status predicates exclude one another. *)
Lemma status_disjoint (r : record) :
  (fully_up r = true → partially_up r = false ∧ is_down r = false)
  ∧ (partially_up r = true → fully_up r = false ∧ is_down r = false)
  ∧ (is_down r = true → fully_up r = false ∧ partially_up r = false).
Proof.
  unfold fully_up, partially_up, is_down, eq_num, gt_num, lt_num.
  destruct (cell "success" r) as [| | |x| | |]; try (repeat split; discriminate).
  destruct (Qeq_bool x 100) eqn:E100, (Qeq_bool x 0) eqn:E0,
           (Qle_bool x 0) eqn:L0, (Qle_bool 100 x) eqn:L100;
    simpl; repeat split; try reflexivity; try discriminate; exfalso;
    try apply Qeq_bool_iff in E100; try apply Qeq_bool_iff in E0;
    try apply Qle_bool_iff in L0; try apply Qle_bool_iff in L100;
    try (apply Qeq_bool_neq in E100); try (apply Qeq_bool_neq in E0);
    try (assert (¬ (x <= 0)%Q) by (rewrite <- Qle_bool_iff; congruence));
    try (assert (¬ (100 <= x)%Q) by (rewrite <- Qle_bool_iff; congruence));
    lra.
Qed.

Lemma status_counts_le (l : list record) :
  (count_if fully_up l + count_if partially_up l + count_if is_down l
   <= length l)%nat.
Proof.
  unfold count_if. induction l as [|r l IH]; simpl; [lia|].
  destruct (status_disjoint r) as (Hf & Hp & Hd).
  destruct (fully_up r) eqn:Ef, (partially_up r) eqn:Ep, (is_down r) eqn:Ed;
    simpl;
    try (destruct (Hf eq_refl); discriminate);
    try (destruct (Hp eq_refl); discriminate);
    try (destruct (Hd eq_refl); discriminate);
    lia.
Qed.

(** A success value within [0, 100] falls under one of the predicates. *)
Lemma status_exhaustive (r : record) (q : Q) :
  cell "success" r = VNum q → (0 <= q)%Q → (q <= 100)%Q →
  fully_up r || partially_up r || is_down r = true.
Proof.
  unfold fully_up, partially_up, is_down, eq_num, gt_num, lt_num.
  intros -> H0 H100.
  destruct (Qeq_bool q 100) eqn:E100; [reflexivity|].
  destruct (Qeq_bool q 0) eqn:E0; [rewrite orb_true_r; reflexivity|].
  apply Qeq_bool_neq in E100, E0.
  destruct (Qle_bool q 0) eqn:L0.
  { apply Qle_bool_iff in L0. exfalso. apply E0. lra. }
  destruct (Qle_bool 100 q) eqn:L100.
  { apply Qle_bool_iff in L100. exfalso. apply E100. lra. }
  reflexivity.
Qed.

Lemma status_counts_eq (l : list record) :
  (∀ r, r ∈ l → ∃ q, cell "success" r = VNum q ∧ (0 <= q)%Q ∧ (q <= 100)%Q) →
  (count_if fully_up l + count_if partially_up l + count_if is_down l
   = length l)%nat.
Proof.
  unfold count_if. induction l as [|r l IH]; simpl; intros H; [reflexivity|].
  assert (IH' := IH (λ r' Hr', H r' (list_elem_of_further _ _ _ Hr'))).
  destruct (H r (list_elem_of_here _ _)) as (q & Hq & H0 & H100).
  pose proof (status_exhaustive r q Hq H0 H100) as Hex.
  destruct (status_disjoint r) as (Hf & Hp & Hd).
  destruct (fully_up r) eqn:Ef, (partially_up r) eqn:Ep, (is_down r) eqn:Ed;
    simpl in *;
    try (destruct (Hf eq_refl); discriminate);
    try (destruct (Hp eq_refl); discriminate);
    try (destruct (Hd eq_refl); discriminate);
    try discriminate; lia.
Qed.

(** C5 (as stated, refuted).  The claim has the three counts add up to the
    number of records whenever no success value is missing.  Here is one
    record whose success value is the number 150: nothing is missing, yet
    it is counted under none of the three predicates, so the counts are
    0, 0 and 0 for a dataset of one record. *)
Lemma status_counts_overrange :
  length overrange_records = 1%nat
  ∧ map (cell "success") overrange_records = [VNum 150]
  ∧ rmap shown_counts
      (update_dashboard overrange_records ["avg_latency_ms"%string])
    = Ok ("Fully Up: 0", "Partially Up: 0", "Down: 0")%string.
Proof. repeat split; reflexivity. Qed.

(** C5 (amended).  For every dataset the dashboard can render, the three
    status counts it shows are the numbers of records with success == 100,
    with 0 < success < 100 and with success == 0; the three predicates
    exclude one another; the counts add up to at most the number of
    records, and to exactly that number whenever every record's success
    value is a number between 0 and 100.  For the three sample records with
    success 100, 50 and 0 the counts are 1, 1 and 1. *)
Theorem status_counts_partition :
  (∀ (filtered_data : list record) (sel : list string),
      renderable filtered_data sel = true →
      ∃ (out : DashboardOutputs) (fu pu dn : nat),
        update_dashboard filtered_data sel = Ok out ∧
        full_up_count out = "Fully Up: " +:+ str_nat fu ∧
        partial_up_count out = "Partially Up: " +:+ str_nat pu ∧
        down_count out = "Down: " +:+ str_nat dn ∧
        fu = count_if fully_up filtered_data ∧
        pu = count_if partially_up filtered_data ∧
        dn = count_if is_down filtered_data ∧
        (∀ r, (fully_up r = true → partially_up r = false ∧ is_down r = false)
              ∧ (partially_up r = true → fully_up r = false ∧ is_down r = false)
              ∧ (is_down r = true → fully_up r = false ∧ partially_up r = false)) ∧
        (fu + pu + dn <= length filtered_data)%nat ∧
        ((∀ r, r ∈ filtered_data →
               ∃ q, cell "success" r = VNum q ∧ (0 <= q)%Q ∧ (q <= 100)%Q) →
         (fu + pu + dn = length filtered_data)%nat))
  ∧ (map (cell "success") sample_records = [VNum 100; VNum 50; VNum 0]
     ∧ rmap shown_counts
         (update_dashboard sample_records
            ["avg_latency_ms"; "max_latency_ms"; "min_latency_ms"]%string)
       = Ok ("Fully Up: 1", "Partially Up: 1", "Down: 1")%string).
Proof.
  split.
  - intros filtered_data sel Hr.
    destruct (update_dashboard_renderable filtered_data sel Hr)
      as (out & traces & lay & Hout & _ & _ & _ & _ & Hfu & Hpu & Hdn).
    assert (Hc : has_column (DataFrame_of_records filtered_data) "success" = true).
    { unfold renderable in Hr.
      apply andb_true_iff in Hr as [Hr _]. apply andb_true_iff in Hr as [Hr _].
      apply andb_true_iff in Hr as [_ Hr]. exact Hr. }
    exists out, (count_if fully_up filtered_data),
           (count_if partially_up filtered_data),
           (count_if is_down filtered_data).
    split; [exact Hout|].
    split.
    { rewrite Hfu. unfold fully_up.
      rewrite (count_if_sorted_frame (eq_num 100)) by exact Hc. reflexivity. }
    split.
    { rewrite Hpu. unfold partially_up.
      rewrite (count_if_sorted_frame (λ v, gt_num 0 v && lt_num 100 v))
        by exact Hc.
      reflexivity. }
    split.
    { rewrite Hdn. unfold is_down.
      rewrite (count_if_sorted_frame (eq_num 0)) by exact Hc. reflexivity. }
    split; [reflexivity|]. split; [reflexivity|]. split; [reflexivity|].
    split; [apply status_disjoint|].
    split; [apply status_counts_le | apply status_counts_eq].
  - split; reflexivity.
Qed.

Lemma status_counts_partition_witness :
  ∃ (out : DashboardOutputs) (fu pu dn : nat),
    update_dashboard sample_records ["avg_latency_ms"%string] = Ok out ∧
    full_up_count out = "Fully Up: " +:+ str_nat fu ∧
    partial_up_count out = "Partially Up: " +:+ str_nat pu ∧
    down_count out = "Down: " +:+ str_nat dn ∧
    fu = count_if fully_up sample_records ∧
    pu = count_if partially_up sample_records ∧
    dn = count_if is_down sample_records ∧
    (∀ r, (fully_up r = true → partially_up r = false ∧ is_down r = false)
          ∧ (partially_up r = true → fully_up r = false ∧ is_down r = false)
          ∧ (is_down r = true → fully_up r = false ∧ partially_up r = false)) ∧
    (fu + pu + dn <= length sample_records)%nat ∧
    ((∀ r, r ∈ sample_records →
           ∃ q, cell "success" r = VNum q ∧ (0 <= q)%Q ∧ (q <= 100)%Q) →
     (fu + pu + dn = length sample_records)%nat).
Proof.
  apply (proj1 status_counts_partition sample_records ["avg_latency_ms"%string]).
  reflexivity.
Defined.

(** C6.  For the empty input dataset the update takes its empty-input
    branch, whatever latency metrics are selected: the three charts are the
    empty figure, the table is empty and the three counts read zero.  The
    branch is an explicit one: the first step of the general path, the sort
    by timestamp, has no column to work on and would raise. *)
Theorem update_dashboard_empty (sel : list string) :
  update_dashboard [] sel
  = Ok {| success_fig := EmptyFigure;
          latency_fig := EmptyFigure;
          packetloss_fig := EmptyFigure;
          table_data := [];
          full_up_count := "Fully Up: 0";
          partial_up_count := "Partially Up: 0";
          down_count := "Down: 0" |}
  ∧ empty (DataFrame_of_records []) = true
  ∧ sort_values (DataFrame_of_records []) "timestamp" true
    = Raise (KeyError "timestamp").
Proof. repeat split; reflexivity. Qed.

(** ** trigger_power_cycle *)

(** C10.  Invoked with a click count of zero, as on page load, the
    callback returns the empty status string and leaves the world as it
    was: the power-cycle script is not run.  The script is run, once, only
    for a strictly positive click count. *)
Theorem trigger_power_cycle_needs_click (now : string) (n_clicks : Z)
    (w : World) :
  trigger_power_cycle now 0 w = (Ok ""%string, w)
  ∧ (n_clicks <= 0 → trigger_power_cycle now n_clicks w = (Ok ""%string, w))
  ∧ (0 < n_clicks →
     subprocess_runs (trigger_power_cycle now n_clicks w).2
     = S (subprocess_runs w))
  ∧ (subprocess_runs (trigger_power_cycle now n_clicks w).2
     ≠ subprocess_runs w → 0 < n_clicks).
Proof.
  split; [reflexivity|].
  assert (Hpos : 0 < n_clicks →
                 subprocess_runs (trigger_power_cycle now n_clicks w).2
                 = S (subprocess_runs w)).
  { intros H. unfold trigger_power_cycle.
    apply Z.ltb_lt in H. rewrite H.
    unfold subprocess_run_check, count_subprocess, try_catch, bind, ret, lift.
    cbn [launched script].
    destruct (script w) as [[|p|p] stderr|]; reflexivity. }
  assert (Hnon : n_clicks <= 0 →
                 trigger_power_cycle now n_clicks w = (Ok ""%string, w)).
  { intros H. unfold trigger_power_cycle.
    apply Z.ltb_ge in H. rewrite H. reflexivity. }
  split; [exact Hnon|]. split; [exact Hpos|].
  intros Hne. destruct (Z.lt_ge_cases 0 n_clicks) as [Hlt|Hge]; [exact Hlt|].
  rewrite (Hnon Hge) in Hne. contradiction.
Qed.

Lemma trigger_power_cycle_needs_click_witness :
  trigger_power_cycle "2024-11-04 08:00:00" 0 (world_with sample_table)
  = (Ok ""%string, world_with sample_table)
  ∧ subprocess_runs
      (trigger_power_cycle "2024-11-04 08:00:00" 1 (world_with sample_table)).2
    = 1%nat.
Proof.
  destruct (trigger_power_cycle_needs_click "2024-11-04 08:00:00" 1
              (world_with sample_table)) as (H0 & _ & H1 & _).
  split; [exact H0 | apply H1; lia].
Defined.

(** ** Maxima of series and frames *)

Lemma series_max_spec (s : list value) :
  (series_max s = VNaN ∧ ∀ q, VNum q ∉ s)
  ∨ ∃ m, series_max s = VNum m ∧ VNum m ∈ s
         ∧ ∀ q, VNum q ∈ s → (q <= m)%Q.
Proof.
  induction s as [|v s IH].
  - left. split; [reflexivity|]. intros q H. inversion H.
  - cbn [series_max fold_right]. fold (series_max s).
    destruct IH as [[Hn Hno] | (m & Hm & Hin & Hub)].
    + rewrite Hn. destruct v as [| | |x| | |];
        try (left; split; [reflexivity|];
             intros q H; apply elem_of_cons in H as [H|H];
             [discriminate | exact (Hno q H)]).
      right. exists x. split; [reflexivity|]. split; [left|].
      intros q H. apply elem_of_cons in H as [H|H].
      * inversion H; subst. lra.
      * destruct (Hno q H).
    + rewrite Hm. destruct v as [| | |x| | |];
        try (right; exists m; split; [reflexivity|]; split; [right; exact Hin|];
             intros q H; apply elem_of_cons in H as [H|H];
             [discriminate | exact (Hub q H)]).
      cbn [vmax]. destruct (Qle_bool x m) eqn:E.
      * apply Qle_bool_iff in E.
        right. exists m. split; [reflexivity|]. split; [right; exact Hin|].
        intros q H. apply elem_of_cons in H as [H|H].
        -- inversion H; subst. exact E.
        -- exact (Hub q H).
      * assert (Hlt : (m < x)%Q).
        { destruct (Qlt_le_dec m x) as [Hl|Hl]; [exact Hl|].
          apply Qle_bool_iff in Hl. congruence. }
        right. exists x. split; [reflexivity|]. split; [left|].
        intros q H. apply elem_of_cons in H as [H|H].
        -- inversion H; subst. lra.
        -- specialize (Hub q H). lra.
Qed.

Lemma elem_of_map_iff {A B} (f : A → B) (l : list A) (b : B) :
  b ∈ map f l ↔ ∃ a, b = f a ∧ a ∈ l.
Proof.
  rewrite list_elem_of_In, in_map_iff. split.
  - intros (a & <- & Ha). exists a. split; [reflexivity|].
    apply list_elem_of_In. exact Ha.
  - intros (a & -> & Ha). exists a. split; [reflexivity|].
    apply list_elem_of_In. exact Ha.
Qed.

(** [frame_max] is the greatest number in the frame, NaN if the frame
    holds no number. *)
Lemma frame_max_spec (df : DataFrame) :
  (frame_max df = VNaN
   ∧ ∀ c r q, c ∈ columns df → r ∈ rows df → cell c r ≠ VNum q)
  ∨ ∃ m, frame_max df = VNum m
         ∧ (∃ c r, c ∈ columns df ∧ r ∈ rows df ∧ cell c r = VNum m)
         ∧ ∀ c r q, c ∈ columns df → r ∈ rows df → cell c r = VNum q →
                    (q <= m)%Q.
Proof.
  unfold frame_max.
  destruct (series_max_spec
              (map (λ c, series_max (map (cell c) (rows df))) (columns df)))
    as [[Hn Hno] | (m & Hm & Hin & Hub)].
  - left. split; [exact Hn|]. intros c r q Hc Hr Hq.
    destruct (series_max_spec (map (cell c) (rows df)))
      as [[_ Hno'] | (m' & Hm' & _ & _)].
    + apply (Hno' q). apply elem_of_map_iff. exists r. split; [congruence|exact Hr].
    + apply (Hno m'). apply elem_of_map_iff. exists c. split; [congruence|exact Hc].
  - right. exists m. split; [exact Hm|]. split.
    + apply elem_of_map_iff in Hin as (c & Hc & Hcin).
      destruct (series_max_spec (map (cell c) (rows df)))
        as [[Hn' _] | (m' & Hm' & Hin' & _)]; [congruence|].
      rewrite Hm' in Hc. inversion Hc; subst m'.
      apply elem_of_map_iff in Hin' as (r & Hr & Hrin).
      exists c, r. repeat split; auto.
    + intros c r q Hc Hr Hq.
      destruct (series_max_spec (map (cell c) (rows df)))
        as [[_ Hno'] | (m' & Hm' & _ & Hub')].
      * exfalso. apply (Hno' q). apply elem_of_map_iff.
        exists r. split; [congruence|exact Hr].
      * assert (Hqm' : (q <= m')%Q).
        { apply Hub'. apply elem_of_map_iff. exists r. split; [congruence|exact Hr]. }
        assert (Hm'm : (m' <= m)%Q).
        { apply Hub. apply elem_of_map_iff. exists c. split; [congruence|exact Hc]. }
        lra.
Qed.

Lemma py_min_Qmin (x b : Q) : py_min (VNum x) b = VNum (Qmin x b).
Proof.
  unfold py_min, Qmin, GenericMinMax.gmin. 
  destruct (Qle_bool x b) eqn:E.
  - apply Qle_bool_iff in E. destruct (x ?= b)%Q eqn:C; try reflexivity.
    apply Qgt_alt in C. lra.
  - destruct (x ?= b)%Q eqn:C; try reflexivity; exfalso.
    + apply Qeq_alt in C. assert (x <= b)%Q by lra.
      apply Qle_bool_iff in H. congruence.
    + apply Qlt_alt in C. assert (x <= b)%Q by lra.
      apply Qle_bool_iff in H. congruence.
Qed.

Lemma latency_frame_rows (filtered_data : list record) (sel : list string)
    (r' : record) :
  r' ∈ rows (latency_frame filtered_data sel) ↔
  ∃ r, r ∈ filtered_data
       ∧ r' = project sel
                (project (columns (DataFrame_of_records filtered_data)) r).
Proof.
  unfold latency_frame, sorted_frame. cbn [rows].
  rewrite elem_of_map_iff. split.
  - intros (r0 & -> & Hr0). rewrite sorted_rows_perm in Hr0.
    unfold DataFrame_of_records in Hr0. cbn [rows] in Hr0.
    apply elem_of_map_iff in Hr0 as (r & -> & Hr). eauto.
  - intros (r & Hr & ->). eexists. split; [reflexivity|].
    rewrite sorted_rows_perm. unfold DataFrame_of_records. cbn [rows].
    apply elem_of_map_iff. eauto.
Qed.

Lemma renderable_selected (filtered_data : list record) (sel : list string)
    (c : string) :
  renderable filtered_data sel = true → c ∈ sel →
  c ∈ columns (DataFrame_of_records filtered_data).
Proof.
  unfold renderable. intros H Hc.
  apply andb_true_iff in H as [_ H]. rewrite forallb_forall in H.
  apply has_column_elem. apply H. apply list_elem_of_In. exact Hc.
Qed.

(** The latency chart of a dataset the dashboard can render, by cases on
    whether the selected metrics hold a number. *)
Lemma latency_range_cases (filtered_data : list record) (sel : list string) :
  renderable filtered_data sel = true →
  ∃ (out : DashboardOutputs) (traces : list trace) (lay : layout),
    update_dashboard filtered_data sel = Ok out ∧
    latency_fig out = Figure traces lay ∧
    (sel ≠ [] →
     length traces = length sel ∧
     annotations lay = [] ∧
     ((∃ m : Q,
          (∃ c r, c ∈ sel ∧ r ∈ filtered_data ∧ cell c r = VNum m)
          ∧ (∀ c r q, c ∈ sel → r ∈ filtered_data → cell c r = VNum q →
                      (q <= m)%Q)
          ∧ yaxis_range lay = (VNum 0, VNum (Qmin (m * (11 # 10)) 500)))
      ∨ ((∀ c r q, c ∈ sel → r ∈ filtered_data → cell c r ≠ VNum q)
         ∧ yaxis_range lay = (VNum 0, VNaN)))) ∧
    (sel = [] →
     traces = [] ∧
     annotations lay
     = ["Please select at least one latency metric to display."%string] ∧
     yaxis_range lay = (VNum 0, VNum 500)).
Proof.
  - intros Hr.
    destruct (update_dashboard_renderable filtered_data sel Hr)
      as (out & traces & lay & Hout & Hfig & Hlen & Hnone & Hsome & _).
    exists out, traces, lay. split; [exact Hout|]. split; [exact Hfig|].
    split.
    + intros Hne. destruct (Hsome Hne) as [Hann Hrange].
      split; [exact Hlen|]. split; [exact Hann|].
      assert (Hcell : ∀ c r, c ∈ sel →
                cell c (project sel
                          (project (columns (DataFrame_of_records filtered_data)) r))
                = cell c r).
      { intros c r Hc. rewrite cell_project by exact Hc.
        apply cell_project. eapply renderable_selected; eauto. }
      destruct (frame_max_spec (latency_frame filtered_data sel))
        as [[Hn Hno] | (m & Hm & (c & r' & Hc & Hr' & Hcm) & Hub)].
      * right. split.
        -- intros c r q Hc Hrin Hq.
           apply (Hno c (project sel
                           (project (columns (DataFrame_of_records filtered_data)) r))
                      q); [exact Hc | |].
           ++ apply latency_frame_rows. eauto.
           ++ rewrite Hcell by exact Hc. exact Hq.
        -- rewrite Hrange, Hn. reflexivity.
      * left. exists m. split; [|split].
        -- apply latency_frame_rows in Hr' as (r & Hrin & ->).
           cbn [latency_frame columns] in Hc.
           rewrite Hcell in Hcm by exact Hc. eauto.
        -- intros c0 r q Hc0 Hrin Hq.
           apply (Hub c0 (project sel
                            (project (columns (DataFrame_of_records filtered_data)) r))
                      q); [exact Hc0 | |].
           ++ apply latency_frame_rows. eauto.
           ++ rewrite Hcell by exact Hc0. exact Hq.
        -- rewrite Hrange, Hm. cbn [vmul]. rewrite py_min_Qmin. reflexivity.
    + intros ->. destruct (Hnone eq_refl) as [Hann Hrange].
      split; [|split; [exact Hann | exact Hrange]].
      destruct traces; [reflexivity | discriminate].
Qed.

(** C7 (as stated, refuted).  Two probes during an outage, as the fetch
    hands them to the dashboard: the dataset is not empty and can be
    rendered, the three latency metrics are selected, and none of them
    holds a number.  The upper end of the latency chart's y-range is NaN,
    the maximum of no numbers carried through the product and [min]; it is
    no number, so not min(1.1 * max, 500). *)
Lemma latency_range_of_an_outage :
  length outage_records = 2%nat
  ∧ renderable outage_records
      ["avg_latency_ms"; "max_latency_ms"; "min_latency_ms"]%string = true
  ∧ map (cell "avg_latency_ms") outage_records = [VNaN; VNaN]
  ∧ map (cell "max_latency_ms") outage_records = [VNaN; VNaN]
  ∧ map (cell "min_latency_ms") outage_records = [VNaN; VNaN]
  ∧ rmap latency_range
      (update_dashboard outage_records
         ["avg_latency_ms"; "max_latency_ms"; "min_latency_ms"]%string)
    = Ok (Some (VNum 0, VNaN)).
Proof. repeat split; reflexivity. Qed.

(** C7 (amended).  For every dataset the dashboard can render and every
    non-empty selection of latency metrics whose values include at least
    one number, the latency chart has one series per selected metric, no
    annotation, and the y-range [0, min(1.1 * m, 500)] where [m] is the
    greatest value of the selected metrics over all records; with the
    empty selection the chart has no series, carries the placeholder
    annotation asking to select a metric, and has the y-range [0, 500].  A
    single record whose average latency was stored as 600, hence
    normalised to 500, with only the average selected, gets the y-range
    [0, 500]. *)
Theorem latency_chart_range :
  (∀ (filtered_data : list record) (sel : list string),
      renderable filtered_data sel = true →
      ∃ (out : DashboardOutputs) (traces : list trace) (lay : layout),
        update_dashboard filtered_data sel = Ok out ∧
        latency_fig out = Figure traces lay ∧
        (sel ≠ [] →
         length traces = length sel ∧
         annotations lay = [] ∧
         ((∃ c r q, c ∈ sel ∧ r ∈ filtered_data ∧ cell c r = VNum q) →
          ∃ m : Q,
            (∃ c r, c ∈ sel ∧ r ∈ filtered_data ∧ cell c r = VNum m)
            ∧ (∀ c r q, c ∈ sel → r ∈ filtered_data → cell c r = VNum q →
                        (q <= m)%Q)
            ∧ yaxis_range lay = (VNum 0, VNum (Qmin (m * (11 # 10)) 500)))) ∧
        (sel = [] →
         traces = [] ∧
         annotations lay
         = ["Please select at least one latency metric to display."%string] ∧
         yaxis_range lay = (VNum 0, VNum 500)))
  ∧ (map (cell "avg_latency_ms") (rows spike_table) = [VNum 600]
     ∧ map (cell "avg_latency_ms") spike_records = [VNum 500]
     ∧ rmap latency_range
         (update_dashboard spike_records ["avg_latency_ms"%string])
       = Ok (Some (VNum 0, VNum 500))).
Proof.
  split.
  - intros filtered_data sel Hr.
    destruct (latency_range_cases filtered_data sel Hr)
      as (out & traces & lay & Hout & Hfig & Hsome & Hnone).
    exists out, traces, lay. split; [exact Hout|]. split; [exact Hfig|].
    split; [|exact Hnone].
    intros Hne. destruct (Hsome Hne) as (Hlen & Hann & Hcases).
    split; [exact Hlen|]. split; [exact Hann|].
    intros (c & r & q & Hc & Hrin & Hq).
    destruct Hcases as [Hm | [Hno _]]; [exact Hm|].
    destruct (Hno c r q Hc Hrin Hq).
  - repeat split; reflexivity.
Qed.

Lemma latency_chart_range_witness :
  ∃ (out : DashboardOutputs) (traces : list trace) (lay : layout),
    update_dashboard sample_records
      ["avg_latency_ms"; "max_latency_ms"]%string = Ok out ∧
    latency_fig out = Figure traces lay ∧
    (["avg_latency_ms"; "max_latency_ms"]%string ≠ [] →
     length traces = 2%nat ∧
     annotations lay = [] ∧
     ((∃ c r q, c ∈ ["avg_latency_ms"; "max_latency_ms"]%string
                ∧ r ∈ sample_records ∧ cell c r = VNum q) →
      ∃ m : Q,
        (∃ c r, c ∈ ["avg_latency_ms"; "max_latency_ms"]%string
                ∧ r ∈ sample_records ∧ cell c r = VNum m)
        ∧ (∀ c r q, c ∈ ["avg_latency_ms"; "max_latency_ms"]%string →
                    r ∈ sample_records → cell c r = VNum q → (q <= m)%Q)
        ∧ yaxis_range lay = (VNum 0, VNum (Qmin (m * (11 # 10)) 500)))) ∧
    (["avg_latency_ms"; "max_latency_ms"]%string = [] →
     traces = [] ∧
     annotations lay
     = ["Please select at least one latency metric to display."%string] ∧
     yaxis_range lay = (VNum 0, VNum 500)).
Proof.
  exact (proj1 latency_chart_range sample_records
           ["avg_latency_ms"; "max_latency_ms"]%string eq_refl).
Defined.

(** ** get_filtered_data *)

Lemma returned_eq (x : result (list record) * World) :
  returned x = true → x = (Ok (payload x), x.2).
Proof.
  unfold returned, payload. destruct x as [[l|e] w]; simpl; intros H;
    [reflexivity | discriminate].
Qed.

Section Memoize.
Variable timeout : Z.
Variable f : Z → string → string → M (list record).

Lemma memoize_hit (now : Z) (a b : string) (w : World) (created : Z)
    (v : list record) :
  cache w !! (a, b) = Some (created, v) →
  now < created + timeout →
  memoize timeout f now a b w = (Ok v, w).
Proof.
  intros Hc Hlt. unfold memoize. rewrite Hc.
  apply Z.ltb_lt in Hlt. rewrite Hlt. reflexivity.
Qed.

(** A miss that returns writes the key; a miss that raises writes
    nothing. *)
Lemma memoize_miss (now : Z) (a b : string) (w : World) :
  (∀ c0 v0, cache w !! (a, b) = Some (c0, v0) → c0 + timeout <= now) →
  memoize timeout f now a b w
  = match f now a b w with
    | (Ok v, w') => (Ok v, set_cache (<[(a, b) := (now, v)]> (cache w')) w')
    | (Raise e, w') => (Raise e, w')
    end.
Proof.
  intros Hstale. unfold memoize.
  destruct (cache w !! (a, b)) as [[c0 v0]|] eqn:Hc; [|reflexivity].
  specialize (Hstale c0 v0 eq_refl).
  destruct (now <? c0 + timeout) eqn:Hlt; [|reflexivity].
  apply Z.ltb_lt in Hlt. lia.
Qed.

(** After a call that returned there is an entry for the key, holding the
    value returned; it was written by this call unless the call was served
    from a fresh entry. *)
Lemma memoize_entry (now : Z) (a b : string) (w w1 : World)
    (v : list record) :
  memoize timeout f now a b w = (Ok v, w1) →
  ∃ created,
    cache w1 !! (a, b) = Some (created, v)
    ∧ ((∀ c0 v0, cache w !! (a, b) = Some (c0, v0) → c0 + timeout <= now) →
       created = now).
Proof.
  unfold memoize. intros H.
  assert (Hmiss :
    match f now a b w with
    | (Ok v0, w') => (Ok v0, set_cache (<[(a, b) := (now, v0)]> (cache w')) w')
    | (Raise e, w') => (Raise e, w')
    end = (Ok v, w1) →
    cache w1 !! (a, b) = Some (now, v)).
  { destruct (f now a b w) as [[v0|e] w']; intros E; inversion E; subst.
    cbn [set_cache cache]. apply lookup_insert_eq. }
  destruct (cache w !! (a, b)) as [[c0 v0]|] eqn:Hc.
  - destruct (now <? c0 + timeout) eqn:Hlt.
    + inversion H; subst. exists c0. split; [exact Hc|].
      intros Hstale. apply Z.ltb_lt in Hlt.
      specialize (Hstale c0 v eq_refl). lia.
    + exists now. split; [apply Hmiss; exact H | reflexivity].
  - exists now. split; [apply Hmiss; exact H | reflexivity].
Qed.
End Memoize.


Lemma filter_columns (now : Z) (df f : DataFrame) (date_range : string) :
  filter_data_by_date now df date_range = Ok f → columns f = columns df.
Proof.
  unfold filter_data_by_date.
  destruct (if String.eqb date_range "last_12_hours" then _ else _)
    as [start_date|]; intros H.
  - destruct (getitem df "timestamp") as [ts|]; simpl in H; [|discriminate].
    destruct (mapR (ge_timestamp start_date) ts) as [mask|]; simpl in H;
      [|discriminate].
    inversion H. reflexivity.
  - inversion H. reflexivity.
Qed.

Lemma parsed_columns (found : option DataFrame) :
  empty (parsed found) = false → columns (parsed found) = map snd query_columns.
Proof.
  unfold parsed. destruct found as [tbl|]; [|discriminate].
  destruct (queryable tbl); [|discriminate].
  destruct (to_datetime _); [reflexivity | discriminate].
Qed.

(** The [try] block raises only when the filter does, on a frame that is
    not empty. *)
Lemma cached_path_raises (now : Z) (db_path date_range : string) (w w' : World)
    (e : exn) :
  cached_path now db_path date_range w = (Raise e, w') →
  w' = called w
  ∧ empty (parsed (storage w (S (parse_log_calls w)) db_path)) = false
  ∧ filter_data_by_date now
      (parsed (storage w (S (parse_log_calls w)) db_path)) date_range
    = Raise e.
Proof.
  unfold cached_path, bind. rewrite parse_log_spec.
  set (df := parsed (storage w (S (parse_log_calls w)) db_path)).
  destruct (empty df) eqn:He; [discriminate|].
  unfold lift, ret.
  destruct (filter_data_by_date now df date_range) as [f|e'] eqn:Hf.
  - destruct (empty f); [discriminate|].
    rewrite select_columns_ok; [discriminate|].
    assert (Hc : columns f = map snd query_columns).
    { rewrite (filter_columns _ _ _ _ Hf). apply parsed_columns. exact He. }
    unfold has_column. rewrite Hc. reflexivity.
  - intros H. inversion H; subst. auto.
Qed.

Lemma dom_project (cols : list string) (r : record) :
  dom (project cols r) = list_to_set cols.
Proof.
  unfold project. induction cols as [|c cols IH]; cbn [map list_to_set].
  - rewrite list_to_map_nil. apply dom_empty_L.
  - rewrite list_to_map_cons, dom_insert_L, IH. reflexivity.
Qed.





Lemma uncached_path_spec (now : Z) (db_path date_range : string) (w : World) :
  uncached_path now db_path date_range w
  = (rmap (λ f, if negb (empty f) then to_dict_records f else [])
       (filter_data_by_date now
          (parsed (storage w (S (parse_log_calls w)) db_path)) date_range),
     called w).
Proof.
  unfold uncached_path, bind. rewrite parse_log_spec. unfold lift, ret.
  destruct (filter_data_by_date _ _ _); reflexivity.
Qed.

(** When the database is the same at the second read, a failure of the
    [try] block is repeated by the [except] block and leaves the function. *)
Lemma fallback_repeats_failure (now : Z) (db_path date_range : string)
    (w w' : World) (e : exn) :
  cached_path now db_path date_range w = (Raise e, w') →
  storage w (S (S (parse_log_calls w))) db_path
  = storage w (S (parse_log_calls w)) db_path →
  get_filtered_data_uncached now db_path date_range w
  = (Raise e, called (called w)).
Proof.
  intros Hc Hsame. unfold get_filtered_data_uncached, try_catch. rewrite Hc.
  apply cached_path_raises in Hc as (-> & _ & Hf).
  rewrite uncached_path_spec. cbn [called storage parse_log_calls].
  rewrite Hsame, Hf. reflexivity.
Qed.

(** When the [try] block raises and the [except] block returns, the
    decorator sees an ordinary return value and stores it. *)
Lemma fallback_result_is_cached (now : Z) (db_path date_range : string)
    (w w' w'' : World) (e : exn) (v : list record) :
  (∀ c0 v0, cache w !! (db_path, date_range) = Some (c0, v0) →
            c0 + seconds 300 <= now) →
  cached_path now db_path date_range w = (Raise e, w') →
  uncached_path now db_path date_range w' = (Ok v, w'') →
  get_filtered_data now db_path date_range w
  = (Ok v, set_cache (<[(db_path, date_range) := (now, v)]> (cache w'')) w'').
Proof.
  intros Hstale Hc Hu. unfold get_filtered_data.
  rewrite memoize_miss by exact Hstale.
  unfold get_filtered_data_uncached, try_catch. rewrite Hc, Hu. reflexivity.
Qed.

(** ** Tables without UTC offsets never make the fetch raise *)

Lemma datetime_cell_shape (format : option string) (v t : value) :
  datetime_cell format v = Ok t → t = VNaT ∨ ∃ z tz, t = VTime z tz.
Proof.
  destruct v, format; simpl; intros H;
    repeat match type of H with
           | context [if ?c then _ else _] => destruct c
           end;
    try discriminate; inversion H; eauto.
Qed.

Lemma datetime_cells_naive (format : option string) (vals ts : list value) :
  mapR (datetime_cell format) vals = Ok ts →
  existsb is_aware ts = false →
  forallb naive_cell ts = true.
Proof.
  revert ts. induction vals as [|v vals IH]; simpl; intros ts H Ha.
  - inversion H. reflexivity.
  - destruct (datetime_cell format v) as [t|] eqn:Hv; simpl in H;
      [|discriminate].
    destruct (mapR (datetime_cell format) vals) as [ts'|]; simpl in H;
      [|discriminate].
    inversion H; subst. simpl in Ha |- *.
    apply orb_false_iff in Ha as [Ht Hts].
    rewrite (IH ts' eq_refl Hts), andb_true_r.
    destruct (datetime_cell_shape _ _ _ Hv) as [-> | (z & [|] & ->)];
      simpl in *; congruence.
Qed.

Lemma finished_rows_naive (rs : list record) (ts : list value) :
  forallb naive_cell ts = true →
  forallb (λ r, naive_cell (cell "timestamp" r))
          (map finish_row (zip_with (λ r v, <["timestamp" := v]> r) rs ts))
  = true.
Proof.
  revert ts. induction rs as [|r rs IH]; intros [|t ts] H;
    cbn [zip_with map forallb] in *; try reflexivity.
  apply andb_true_iff in H as [Ht Hts].
  rewrite cell_finish_row_timestamp, cell_insert_eq, Ht.
  apply IH. exact Hts.
Qed.

Lemma normalized_tz_naive (tbl : DataFrame) (ts : list value) :
  to_datetime (map (cell "timestamp") (map select_row (rows tbl))) = Ok ts →
  existsb is_aware ts = false →
  tz_naive (normalized tbl ts) = true.
Proof.
  intros Hts Ha. unfold tz_naive, normalized. cbn [rows].
  apply andb_true_iff. split; [reflexivity|].
  apply finished_rows_naive.
  unfold to_datetime in Hts.
  destruct (mapR (datetime_cell _) _) as [ts'|] eqn:E; simpl in Hts;
    [|discriminate].
  destruct (_ && _); [discriminate|]. inversion Hts; subst.
  eapply datetime_cells_naive; eauto.
Qed.

Lemma filter_returns_on_naive (now : Z) (df : DataFrame) (date_range : string) :
  tz_naive df = true → ∃ out, filter_data_by_date now df date_range = Ok out.
Proof.
  intros Hn. unfold filter_data_by_date.
  destruct (if String.eqb date_range "last_12_hours" then _ else _)
    as [start_date|]; [|eauto].
  rewrite filter_bounded by exact Hn. eauto.
Qed.

Lemma cached_path_world (now : Z) (db_path date_range : string) (w : World) :
  (cached_path now db_path date_range w).2 = called w.
Proof.
  unfold cached_path, bind. rewrite parse_log_spec.
  destruct (empty _); [reflexivity|]. unfold lift, ret.
  destruct (filter_data_by_date _ _ _) as [f|]; [|reflexivity].
  destruct (empty f); [reflexivity|].
  destruct (select_columns f columns_to_cache); reflexivity.
Qed.

(** When the table the call finds holds no timestamp with a UTC offset, the
    [try] block returns and the function does not raise. *)
Lemma fetch_returns_without_offsets (now : Z) (db_path date_range : string)
    (w : World) (tbl : DataFrame) (ts : list value) :
  storage w (S (parse_log_calls w)) db_path = Some tbl →
  queryable tbl = true →
  to_datetime (map (cell "timestamp") (map select_row (rows tbl))) = Ok ts →
  existsb is_aware ts = false →
  ∃ l, get_filtered_data_uncached now db_path date_range w = (Ok l, called w).
Proof.
  intros Hst Hq Hts Ha.
  unfold get_filtered_data_uncached, try_catch.
  pose proof (cached_path_world now db_path date_range w) as Hw.
  destruct (cached_path now db_path date_range w) as [[l|e] w'] eqn:E.
  - simpl in Hw. subst w'. eauto.
  - exfalso. apply cached_path_raises in E as (_ & _ & Hf).
    rewrite Hst in Hf. unfold parsed in Hf. rewrite Hq, Hts in Hf.
    destruct (filter_returns_on_naive now (normalized tbl ts) date_range
                (normalized_tz_naive tbl ts Hts Ha)) as [out Hout].
    congruence.
Qed.

(** C9 (the code at the failing input).  With timestamps stored with a UTC
    offset and the window "last_12_hours", the comparison with the cutoff
    raises TypeError in the [try] block; the [except] block reads and
    filters again, the comparison raises again, and the error reaches the
    caller of [fetch_data].  When the second read finds a usable table, the
    [except] block's full-column records (seven fields, against the six of
    the reduced list) are returned through the decorator and are written to
    the cache. *)
Theorem fetch_error_reaches_caller :
  (cached_path (hours 12) "logs/internet_status.db" "last_12_hours"
     (world_with aware_table)).1 = Raise TypeError
  ∧ fetch_data (hours 12) 0 "last_12_hours" (world_with aware_table)
    = (Raise TypeError, called (called (world_with aware_table)))
  ∧ (cached_path (hours 12) "logs/internet_status.db" "last_12_hours"
       (world_changing aware_table sample_table)).1 = Raise TypeError
  ∧ rmap (map (λ r : record, size r))
      (fetch_data (hours 12) 0 "last_12_hours"
         (world_changing aware_table sample_table)).1
    = Ok [7%nat; 7%nat; 7%nat]
  ∧ rmap (map (λ r : record, size r))
      (fetch_data (hours 12) 0 "last_12_hours" (world_with sample_table)).1
    = Ok [6%nat; 6%nat; 6%nat]
  ∧ cache_entry
      (fetch_data (hours 12) 0 "last_12_hours"
         (world_changing aware_table sample_table))
      "logs/internet_status.db" "last_12_hours"
    = Some (hours 12, 3%nat).
Proof. repeat split; reflexivity. Qed.

(** * Further properties *)

(** ** filter_data_by_date, all windows *)

Lemma filter_by_window (now : Z) (df : DataFrame) (date_range : string) :
  filter_data_by_date now df date_range
  = match window date_range with
    | Some len =>
        let! ts := getitem df "timestamp" in
        let! mask := mapR (ge_timestamp (now - len)) ts in
        Ok {| columns := columns df; rows := boolean_index (rows df) mask |}
    | None => Ok df
    end.
Proof.
  unfold filter_data_by_date, window.
  repeat (destruct (String.eqb date_range _); [reflexivity|]).
  reflexivity.
Qed.

Lemma filter_naive (now : Z) (df : DataFrame) (date_range : string) :
  tz_naive df = true →
  filter_data_by_date now df date_range
  = Ok (match window date_range with
        | Some _ => {| columns := columns df;
                       rows := rows_in_window now date_range df |}
        | None => df
        end).
Proof.
  intros Hn. rewrite filter_by_window. unfold rows_in_window.
  destruct (window date_range) as [len|]; [|reflexivity].
  apply filter_bounded. exact Hn.
Qed.

Lemma boolean_index_sublist {A} (xs : list A) (mask : list bool) :
  sublist (boolean_index xs mask) xs.
Proof.
  revert mask. induction xs as [|x xs IH]; intros [|b mask]; simpl;
    try apply sublist_nil_l.
  destruct b; [apply sublist_skip | apply sublist_cons]; apply IH.
Qed.

Lemma filter_frame (now : Z) (df out : DataFrame) (date_range : string) :
  filter_data_by_date now df date_range = Ok out →
  columns out = columns df ∧ sublist (rows out) (rows df).
Proof.
  rewrite filter_by_window. destruct (window date_range) as [len|].
  - destruct (getitem df "timestamp") as [ts|]; simpl; [|discriminate].
    destruct (mapR _ ts) as [mask|]; simpl; [|discriminate].
    intros H. inversion H; subst. split; [reflexivity|].
    apply boolean_index_sublist.
  - intros H. inversion H; subst. split; reflexivity.
Qed.

(** X1.  Whenever the filter returns, for whatever selector, its output has
    the columns of the input and its rows are rows of the input in their
    original order: nothing is added, reordered or altered. *)
Theorem filter_keeps_order (now : Z) (df out : DataFrame)
    (date_range : string) :
  filter_data_by_date now df date_range = Ok out →
  columns out = columns df
  ∧ sublist (rows out) (rows df)
  ∧ (length (rows out) <= length (rows df))%nat
  ∧ ∀ r, r ∈ rows out → r ∈ rows df.
Proof.
  intros H. destruct (filter_frame now df out date_range H) as [Hc Hs].
  split; [exact Hc|]. split; [exact Hs|]. split.
  - apply sublist_length. exact Hs.
  - intros r Hr. eapply elem_of_sublist; eauto.
Qed.
Lemma filter_keeps_order_witness :
  ∃ out : DataFrame,
    filter_data_by_date (hours 22) (parsed (Some sample_table)) "last_12_hours"
    = Ok out
    ∧ columns out = columns (parsed (Some sample_table))
    ∧ sublist (rows out) (rows (parsed (Some sample_table)))
    ∧ (length (rows out) <= length (rows (parsed (Some sample_table))))%nat
    ∧ ∀ r, r ∈ rows out → r ∈ rows (parsed (Some sample_table)).
Proof.
  eexists. split.
  - apply (filter_naive (hours 22) (parsed (Some sample_table))
             "last_12_hours" eq_refl).
  - apply (filter_keeps_order (hours 22) (parsed (Some sample_table)) _
             "last_12_hours").
    apply (filter_naive (hours 22) (parsed (Some sample_table))
             "last_12_hours" eq_refl).
Defined.
Lemma filter_sublist_mono (p q : record → bool) (l : list record) :
  (∀ r, p r = true → q r = true) →
  sublist (List.filter p l) (List.filter q l).
Proof.
  intros H. induction l as [|r l IH]; simpl; [constructor|].
  destruct (p r) eqn:Hp.
  - rewrite (H r Hp). apply sublist_skip. exact IH.
  - destruct (q r); [apply sublist_cons|]; exact IH.
Qed.

Lemma filter_sublist (p : record → bool) (l : list record) :
  sublist (List.filter p l) l.
Proof.
  induction l as [|r l IH]; simpl; [constructor|].
  destruct (p r); [apply sublist_skip | apply sublist_cons]; exact IH.
Qed.

Lemma at_or_after_mono (c1 c2 : Z) (r : record) :
  c2 <= c1 → at_or_after c1 r = true → at_or_after c2 r = true.
Proof.
  unfold at_or_after. intros Hle.
  destruct (cell "timestamp" r) as [| | | | | |t [|]]; try discriminate.
  rewrite !Z.leb_le. lia.
Qed.

Lemma rows_in_window_mono (now : Z) (df : DataFrame) (d1 d2 : string)
    (len1 len2 : Z) :
  window d1 = Some len1 → window d2 = Some len2 → len1 <= len2 →
  sublist (rows_in_window now d1 df) (rows_in_window now d2 df).
Proof.
  intros H1 H2 Hle. unfold rows_in_window. rewrite H1, H2.
  apply filter_sublist_mono. intros r. apply at_or_after_mono. lia.
Qed.

(** X2.  The windows nest.  On a frame whose timestamps carry no time zone
    and at one reading of the clock, the records of the last 12 hours are
    among those of the last 24 hours, these among those of the last 48
    hours, these among those of the last 7 days, and these among all
    records, each time in the same order. *)
Theorem filter_windows_nest (now : Z) (df : DataFrame) :
  tz_naive df = true →
  ∃ o12 o24 o48 o7d : DataFrame,
    filter_data_by_date now df "last_12_hours" = Ok o12 ∧
    filter_data_by_date now df "last_24_hours" = Ok o24 ∧
    filter_data_by_date now df "last_48_hours" = Ok o48 ∧
    filter_data_by_date now df "last_7_days" = Ok o7d ∧
    sublist (rows o12) (rows o24) ∧
    sublist (rows o24) (rows o48) ∧
    sublist (rows o48) (rows o7d) ∧
    sublist (rows o7d) (rows df).
Proof.
  intros Hn.
  eexists _, _, _, _.
  repeat (split; [apply (filter_naive now df _ Hn)|]).
  cbn [window String.eqb Ascii.eqb Bool.eqb rows].
  split; [|split; [|split]].
  - eapply rows_in_window_mono; [reflexivity | reflexivity |]. unfold hours. lia.
  - eapply rows_in_window_mono; [reflexivity | reflexivity |]. unfold hours. lia.
  - eapply rows_in_window_mono; [reflexivity | reflexivity |].
    unfold hours, days. lia.
  - unfold rows_in_window. cbn [window String.eqb Ascii.eqb Bool.eqb].
    apply filter_sublist.
Qed.

Lemma filter_windows_nest_witness :
  ∃ o12 o24 o48 o7d : DataFrame,
    filter_data_by_date (hours 22) (parsed (Some sample_table)) "last_12_hours"
    = Ok o12 ∧
    filter_data_by_date (hours 22) (parsed (Some sample_table)) "last_24_hours"
    = Ok o24 ∧
    filter_data_by_date (hours 22) (parsed (Some sample_table)) "last_48_hours"
    = Ok o48 ∧
    filter_data_by_date (hours 22) (parsed (Some sample_table)) "last_7_days"
    = Ok o7d ∧
    sublist (rows o12) (rows o24) ∧
    sublist (rows o24) (rows o48) ∧
    sublist (rows o48) (rows o7d) ∧
    sublist (rows o7d) (rows (parsed (Some sample_table))).
Proof.
  exact (filter_windows_nest (hours 22) (parsed (Some sample_table)) eq_refl).
Defined.

Lemma filter_filter_narrow (p q : record → bool) (l : list record) :
  (∀ r, p r = true → q r = true) →
  List.filter p (List.filter q l) = List.filter p l.
Proof.
  intros H. induction l as [|r l IH]; simpl; [reflexivity|].
  destruct (q r) eqn:Hq; simpl.
  - rewrite IH. reflexivity.
  - destruct (p r) eqn:Hp; [|exact IH]. rewrite (H r Hp) in Hq. discriminate.
Qed.

Lemma forallb_filter (p q : record → bool) (l : list record) :
  forallb p l = true → forallb p (List.filter q l) = true.
Proof.
  induction l as [|r l IH]; simpl; [reflexivity|].
  intros H. apply andb_true_iff in H as [Hr Hl].
  destruct (q r); simpl; [rewrite Hr|]; auto.
Qed.

(** X3.  Filtering composes.  On a frame whose timestamps carry no time
    zone, narrowing the output of a window further, at the same reading of
    the clock, gives what the narrower window gives on the input; in
    particular filtering twice with one selector is filtering once. *)
Theorem filter_twice (now : Z) (df o2 : DataFrame) (d1 d2 : string)
    (len1 : Z) :
  tz_naive df = true →
  window d1 = Some len1 →
  (∀ len2, window d2 = Some len2 → len1 <= len2) →
  filter_data_by_date now df d2 = Ok o2 →
  filter_data_by_date now o2 d1 = filter_data_by_date now df d1.
Proof.
  intros Hn H1 H2 Ho.
  rewrite (filter_naive now df d2 Hn) in Ho. inversion Ho; subst o2. clear Ho.
  rewrite (filter_naive now df d1 Hn), H1.
  destruct (window d2) as [len2|] eqn:Hw2.
  - assert (Hn2 : tz_naive {| columns := columns df;
                              rows := rows_in_window now d2 df |} = true).
    { unfold tz_naive in *. apply andb_true_iff in Hn as [Hc Hr].
      apply andb_true_iff. split; [exact Hc|]. cbn [rows].
      unfold rows_in_window. rewrite Hw2. apply forallb_filter. exact Hr. }
    rewrite (filter_naive now _ d1 Hn2), H1. cbn [columns]. f_equal. f_equal.
    unfold rows_in_window. rewrite H1, Hw2. cbn [rows].
    apply filter_filter_narrow. intros r. apply at_or_after_mono.
    specialize (H2 len2 eq_refl). lia.
  - rewrite (filter_naive now df d1 Hn), H1. reflexivity.
Qed.

Lemma filter_twice_witness :
  filter_data_by_date (hours 22)
    {| columns := columns (parsed (Some sample_table));
       rows := rows_in_window (hours 22) "last_24_hours"
                 (parsed (Some sample_table)) |}
    "last_12_hours"
  = filter_data_by_date (hours 22) (parsed (Some sample_table)) "last_12_hours".
Proof.
  apply (filter_twice (hours 22) (parsed (Some sample_table)) _
           "last_12_hours" "last_24_hours" (hours 12)).
  - reflexivity.
  - reflexivity.
  - intros len2 H. inversion H. unfold hours. lia.
  - apply filter_naive. reflexivity.
Defined.

(** ** The except block on a failed read *)

Lemma filter_without_timestamp (now : Z) (df : DataFrame)
    (date_range : string) (len : Z) :
  window date_range = Some len →
  has_column df "timestamp" = false →
  filter_data_by_date now df date_range = Raise (KeyError "timestamp").
Proof.
  intros Hw Hc. rewrite filter_by_window, Hw. unfold getitem. rewrite Hc.
  reflexivity.
Qed.

(** X4.  The two blocks of [get_filtered_data] treat a failed read
    differently.  When the database cannot be read, the [try] block stops at
    its emptiness test and returns the empty list; the [except] block has no
    such test and hands the column-less frame to the filter, so for each of
    the four bounded windows it raises KeyError on "timestamp", while for
    "all_time" (and any other selector) it returns the empty list. *)
Theorem except_block_on_failed_read (now : Z) (db_path date_range : string)
    (w : World) :
  storage w (S (parse_log_calls w)) db_path = None →
  cached_path now db_path date_range w = (Ok [], called w)
  ∧ uncached_path now db_path date_range w
    = (match window date_range with
       | Some _ => Raise (KeyError "timestamp")
       | None => Ok []
       end, called w).
Proof.
  intros Hst. split.
  - unfold cached_path, bind. rewrite parse_log_spec, Hst. reflexivity.
  - rewrite uncached_path_spec, Hst. cbn [parsed].
    destruct (window date_range) as [len|] eqn:Hw.
    + rewrite (filter_without_timestamp now empty_frame date_range len Hw eq_refl).
      reflexivity.
    + rewrite filter_by_window, Hw. reflexivity.
Qed.

Lemma except_block_on_failed_read_witness :
  cached_path (hours 12) "no_such_file.db" "last_12_hours"
    (world_with sample_table)
  = (Ok [], called (world_with sample_table))
  ∧ uncached_path (hours 12) "no_such_file.db" "last_12_hours"
      (world_with sample_table)
    = (match window "last_12_hours" with
       | Some _ => Raise (KeyError "timestamp")
       | None => Ok []
       end, called (world_with sample_table)).
Proof.
  exact (except_block_on_failed_read (hours 12) "no_such_file.db"
           "last_12_hours" (world_with sample_table) eq_refl).
Defined.

(** ** What parse_log leaves in every row *)

Lemma elem_of_zip_with_inv {A B C} (f : A → B → C) (l : list A) (k : list B)
    (x : C) :
  x ∈ zip_with f l k → ∃ a b, a ∈ l ∧ b ∈ k ∧ x = f a b.
Proof.
  revert k. induction l as [|a l IH]; intros [|b k]; simpl; intros H;
    try (inversion H; fail).
  apply elem_of_cons in H as [-> | H].
  - exists a, b. repeat split; left.
  - destruct (IH k H) as (a' & b' & Ha & Hb & ->).
    exists a', b'. repeat split; right; assumption.
Qed.

Lemma normalized_rows_elem (tbl : DataFrame) (ts : list value) (r : record) :
  r ∈ rows (normalized tbl ts) →
  ∃ stored t, stored ∈ rows tbl ∧ t ∈ ts
              ∧ r = finish_row (<["timestamp" := t]> (select_row stored)).
Proof.
  unfold normalized. cbn [rows]. intros H.
  apply elem_of_map_iff in H as (r0 & -> & H).
  apply elem_of_zip_with_inv in H as (s0 & t & Hs & Ht & ->).
  apply elem_of_map_iff in Hs as (stored & -> & Hs).
  eauto.
Qed.

Lemma datetime_cells_shape (format : option string) (vals ts : list value)
    (t : value) :
  mapR (datetime_cell format) vals = Ok ts → t ∈ ts →
  t = VNaT ∨ ∃ z tz, t = VTime z tz.
Proof.
  revert ts. induction vals as [|v vals IH]; simpl; intros ts H Ht.
  - inversion H; subst. inversion Ht.
  - destruct (datetime_cell format v) as [t0|] eqn:Hv; simpl in H;
      [|discriminate].
    destruct (mapR (datetime_cell format) vals) as [ts'|]; simpl in H;
      [|discriminate].
    inversion H; subst. apply elem_of_cons in Ht as [-> | Ht].
    + eapply datetime_cell_shape; eauto.
    + eapply IH; eauto.
Qed.

Lemma to_datetime_shape (vals ts : list value) (t : value) :
  to_datetime vals = Ok ts → t ∈ ts → t = VNaT ∨ ∃ z tz, t = VTime z tz.
Proof.
  unfold to_datetime. intros H Ht.
  destruct (mapR (datetime_cell _) vals) as [ts'|] eqn:E; simpl in H;
    [|discriminate].
  destruct (_ && _); [discriminate|]. inversion H; subst.
  eapply datetime_cells_shape; eauto.
Qed.

Lemma cell_finish_row_success (r : record) :
  cell "success" (finish_row r) = to_numeric (cell "success" r).
Proof. unfold finish_row, clip_in, numeric_in. read_cell. Qed.

Lemma cell_finish_row_status (r : record) :
  cell "status_message" (finish_row r) = cell "status_message" r.
Proof. unfold finish_row, clip_in, numeric_in. read_cell. Qed.

Lemma to_numeric_shape (v : value) :
  to_numeric v = VNaN ∨ ∃ q, to_numeric v = VNum q.
Proof. destruct v; simpl; eauto. Qed.

Lemma clip_shape (u : Q) (v : value) :
  (v = VNaN ∨ ∃ q, v = VNum q) →
  clip u v = VNaN ∨ ∃ q, clip u v = VNum q ∧ (q <= u)%Q.
Proof.
  intros [-> | [q ->]]; [left; reflexivity|]. right. simpl.
  destruct (Qle_bool q u) eqn:E.
  - exists q. split; [reflexivity|]. apply Qle_bool_iff. exact E.
  - exists u. split; [reflexivity|]. lra.
Qed.

Lemma parsed_row_normalised (found : option DataFrame) (r : record) :
  r ∈ rows (parsed found) →
  (cell "timestamp" r = VNaT ∨ ∃ t tz, cell "timestamp" r = VTime t tz) ∧
  (∀ c, c ∈ numeric_columns → cell c r = VNaN ∨ ∃ q, cell c r = VNum q) ∧
  (∀ c q,
      c = "avg_latency_ms"%string ∨ c = "max_latency_ms"%string
      ∨ c = "min_latency_ms"%string →
      cell c r = VNum q → (q <= 500)%Q) ∧
  (∀ q, cell "packet_loss" r = VNum q → (q <= 100)%Q).
Proof.
  intros Hr. unfold parsed in Hr.
  destruct found as [tbl|]; [|inversion Hr].
  destruct (queryable tbl); [|inversion Hr].
  destruct (to_datetime _) as [ts|] eqn:Hts; [|inversion Hr].
  apply normalized_rows_elem in Hr as (stored & t & _ & Ht & ->).
  set (r0 := <["timestamp" := t]> (select_row stored)).
  assert (Hlat : ∀ c, c = "avg_latency_ms"%string ∨ c = "max_latency_ms"%string
                      ∨ c = "min_latency_ms"%string →
                 cell c (finish_row r0) = VNaN
                 ∨ ∃ q, cell c (finish_row r0) = VNum q ∧ (q <= 500)%Q).
  { intros c Hc. rewrite cell_finish_row_latency by exact Hc.
    apply clip_shape, to_numeric_shape. }
  assert (Hpl : cell "packet_loss" (finish_row r0) = VNaN
                ∨ ∃ q, cell "packet_loss" (finish_row r0) = VNum q
                       ∧ (q <= 100)%Q).
  { rewrite cell_finish_row_packet_loss. apply clip_shape, to_numeric_shape. }
  split; [|split; [|split]].
  - rewrite cell_finish_row_timestamp. unfold r0. rewrite cell_insert_eq.
    eapply to_datetime_shape; eauto.
  - intros c Hc. unfold numeric_columns in Hc.
    repeat (apply elem_of_cons in Hc as [-> | Hc]); [| | | | | inversion Hc].
    + rewrite cell_finish_row_success. apply to_numeric_shape.
    + destruct (Hlat "avg_latency_ms"%string) as [H | (q & H & _)]; eauto.
    + destruct (Hlat "max_latency_ms"%string) as [H | (q & H & _)]; eauto.
    + destruct (Hlat "min_latency_ms"%string) as [H | (q & H & _)]; eauto.
    + destruct Hpl as [H | (q & H & _)]; eauto.
  - intros c q Hc Hq. destruct (Hlat c Hc) as [H | (q' & H & Hle)];
      rewrite H in Hq; inversion Hq; subst. exact Hle.
  - intros q Hq. destruct Hpl as [H | (q' & H & Hle)];
      rewrite H in Hq; inversion Hq; subst. exact Hle.
Qed.

(** X5.  Whatever the database holds, every row of the frame [parse_log]
    returns is normalised: its timestamp is a Timestamp or NaT; each of the
    five numeric columns holds a number or NaN; a latency that is a number
    is at most 500 and a packet loss that is a number is at most 100. *)
Theorem parse_log_rows_normalised (db_path : string) (w : World) :
  ∃ df : DataFrame,
    parse_log db_path w = (Ok df, called w) ∧
    ∀ r : record, r ∈ rows df →
      (cell "timestamp" r = VNaT ∨ ∃ t tz, cell "timestamp" r = VTime t tz) ∧
      (∀ c, c ∈ numeric_columns → cell c r = VNaN ∨ ∃ q, cell c r = VNum q) ∧
      (∀ c q,
          c = "avg_latency_ms"%string ∨ c = "max_latency_ms"%string
          ∨ c = "min_latency_ms"%string →
          cell c r = VNum q → (q <= 500)%Q) ∧
      (∀ q, cell "packet_loss" r = VNum q → (q <= 100)%Q).
Proof.
  exists (parsed (storage w (S (parse_log_calls w)) db_path)).
  split; [apply parse_log_spec|].
  intros r. apply parsed_row_normalised.
Qed.
(** X6.  Coercion keeps the row and loses only the cell.  For a stored row
    of a table that is read successfully: the success percentage is read
    under the name "success" and is not capped (a number stays as it is,
    whatever its size); in every numeric column a NULL or a text that is no
    number becomes NaN; the status text is read under the name
    "status_message" unchanged. *)
Theorem parse_log_coerces (db_path : string) (w : World) (tbl : DataFrame)
    (ts : list value) (i : nat) (stored : record) :
  storage w (S (parse_log_calls w)) db_path = Some tbl →
  queryable tbl = true →
  to_datetime (map (cell "timestamp") (map select_row (rows tbl))) = Ok ts →
  rows tbl !! i = Some stored →
  ∃ (df : DataFrame) (r : record),
    parse_log db_path w = (Ok df, called w) ∧
    length (rows df) = length (rows tbl) ∧
    rows df !! i = Some r ∧
    (∀ q, stored !! "success_percentage" = Some (VNum q) →
          cell "success" r = VNum q) ∧
    (∀ v, stored !! "success_percentage" = Some v →
          v = VNone ∨ (∃ s, v = VStr s) → cell "success" r = VNaN) ∧
    (∀ c v,
        c = "avg_latency_ms"%string ∨ c = "max_latency_ms"%string
        ∨ c = "min_latency_ms"%string ∨ c = "packet_loss"%string →
        stored !! c = Some v →
        v = VNone ∨ (∃ s, v = VStr s) → cell c r = VNaN) ∧
    cell "status_message" r = default VNone (stored !! "status").
Proof.
  intros Hst Hq Hts Hi.
  destruct (normalized_lookup tbl ts i stored Hts Hi) as [t Ht].
  exists (normalized tbl ts),
         (finish_row (<["timestamp" := t]> (select_row stored))).
  split.
  { rewrite parse_log_spec, Hst. unfold parsed. rewrite Hq, Hts. reflexivity. }
  split; [apply normalized_length; exact Hts|].
  split; [exact Ht|].
  assert (Hsucc : cell "success" (select_row stored)
                  = default VNone (stored !! "success_percentage")).
  { unfold select_row, cell.
    cbn [map query_columns list_to_map foldr fst snd uncurry].
    repeat (rewrite lookup_insert_eq || rewrite lookup_insert_ne by done).
    reflexivity. }
  assert (Hstat : cell "status_message" (select_row stored)
                  = default VNone (stored !! "status")).
  { unfold select_row, cell.
    cbn [map query_columns list_to_map foldr fst snd uncurry].
    repeat (rewrite lookup_insert_eq || rewrite lookup_insert_ne by done).
    reflexivity. }
  split; [|split; [|split]].
  - intros q Hs. rewrite cell_finish_row_success, cell_insert_ne by done.
    rewrite Hsucc, Hs. reflexivity.
  - intros v Hs Hv. rewrite cell_finish_row_success, cell_insert_ne by done.
    rewrite Hsucc, Hs. destruct Hv as [-> | [s ->]]; reflexivity.
  - intros c v Hc Hs Hv.
    assert (Hraw : cell c (<["timestamp" := t]> (select_row stored)) = v).
    { rewrite cell_insert_ne by (destruct Hc as [-> | [-> | [-> | ->]]]; done).
      rewrite cell_select_row_same by tauto. rewrite Hs. reflexivity. }
    destruct Hc as [Hc | [Hc | [Hc | ->]]].
    + rewrite cell_finish_row_latency by tauto. rewrite Hraw.
      destruct Hv as [-> | [s ->]]; reflexivity.
    + rewrite cell_finish_row_latency by tauto. rewrite Hraw.
      destruct Hv as [-> | [s ->]]; reflexivity.
    + rewrite cell_finish_row_latency by tauto. rewrite Hraw.
      destruct Hv as [-> | [s ->]]; reflexivity.
    + rewrite cell_finish_row_packet_loss. rewrite Hraw.
      destruct Hv as [-> | [s ->]]; reflexivity.
  - rewrite cell_finish_row_status, cell_insert_ne by done. exact Hstat.
Qed.

Lemma parse_log_coerces_witness :
  ∃ (df : DataFrame) (r : record),
    parse_log "logs/internet_status.db" (world_with sample_table)
    = (Ok df, called (world_with sample_table)) ∧
    length (rows df) = length (rows sample_table) ∧
    rows df !! 2%nat = Some r ∧
    (∀ q, stored_row (VDateStr (hours 11) false ISO)
            (VNum 0) VNone VNone VNone (VNum 100) !! "success_percentage"
          = Some (VNum q) →
          cell "success" r = VNum q) ∧
    (∀ v, stored_row (VDateStr (hours 11) false ISO)
            (VNum 0) VNone VNone VNone (VNum 100) !! "success_percentage"
          = Some v →
          v = VNone ∨ (∃ s, v = VStr s) → cell "success" r = VNaN) ∧
    (∀ c v,
        c = "avg_latency_ms"%string ∨ c = "max_latency_ms"%string
        ∨ c = "min_latency_ms"%string ∨ c = "packet_loss"%string →
        stored_row (VDateStr (hours 11) false ISO)
          (VNum 0) VNone VNone VNone (VNum 100) !! c = Some v →
        v = VNone ∨ (∃ s, v = VStr s) → cell c r = VNaN) ∧
    cell "status_message" r
    = default VNone
        (stored_row (VDateStr (hours 11) false ISO)
           (VNum 0) VNone VNone VNone (VNum 100) !! "status").
Proof.
  exact (parse_log_coerces "logs/internet_status.db" (world_with sample_table)
           sample_table
           [VTime (hours 9) false; VTime (hours 10) false; VTime (hours 11) false]
           2%nat
           (stored_row (VDateStr (hours 11) false ISO)
              (VNum 0) VNone VNone VNone (VNum 100))
           eq_refl eq_refl eq_refl eq_refl).
Defined.

Lemma mapR_raises {A B} (f : A → result B) (l : list A) (a : A) (e : exn) :
  a ∈ l → f a = Raise e → ∃ e', mapR f l = Raise e'.
Proof.
  induction l as [|x l IH]; intros Hin Hf; [inversion Hin|].
  apply elem_of_cons in Hin as [-> | Hin]; simpl.
  - rewrite Hf. eauto.
  - destruct (f x); simpl; [|eauto].
    destruct (IH Hin Hf) as [e' ->]. eauto.
Qed.

(** X7.  One unreadable timestamp loses the whole table.  If any stored
    row holds, as its timestamp, a text that is no date-time and is not one
    of the texts read as a missing date-time (the empty text, "NaT", "nan"
    and their variants), the conversion of the timestamp column fails as a
    whole and [parse_log] returns the empty frame: none of the other rows
    is returned. *)
Theorem parse_log_bad_timestamp (db_path : string) (w : World)
    (tbl : DataFrame) (stored : record) (s : string) :
  storage w (S (parse_log_calls w)) db_path = Some tbl →
  stored ∈ rows tbl →
  stored !! "timestamp" = Some (VStr s) →
  s ∉ nat_strings →
  parse_log db_path w = (Ok empty_frame, called w).
Proof.
  intros Hst Hin Hs Hn. rewrite parse_log_spec, Hst. unfold parsed.
  destruct (queryable tbl); [|reflexivity].
  assert (Hr : ∃ e, to_datetime (map (cell "timestamp")
                                    (map select_row (rows tbl))) = Raise e).
  { unfold to_datetime.
    destruct (mapR_raises
                (datetime_cell
                   (guessed_format
                      (map (cell "timestamp") (map select_row (rows tbl)))))
                (map (cell "timestamp") (map select_row (rows tbl)))
                (VStr s) ValueError) as [e' He'].
    - apply elem_of_map_iff. exists (select_row stored). split.
      + rewrite cell_select_row_same by tauto. rewrite Hs. reflexivity.
      + apply elem_of_map_iff. eauto.
    - cbn [datetime_cell]. rewrite bool_decide_eq_false_2 by exact Hn.
      reflexivity.
    - rewrite He'. eauto. }
  destruct Hr as [e ->]. reflexivity.
Qed.

Lemma parse_log_bad_timestamp_witness :
  length (rows garbled_table) = 4%nat
  ∧ parse_log "logs/internet_status.db" (world_with garbled_table)
    = (Ok empty_frame, called (world_with garbled_table)).
Proof.
  split; [reflexivity|].
  apply (parse_log_bad_timestamp "logs/internet_status.db"
           (world_with garbled_table) garbled_table
           (stored_row (VStr "n/a")
              (VNum 100) (VNum 20) (VNum 30) (VNum 10) (VNum 0)) "n/a").
  - reflexivity.
  - unfold garbled_table. cbn [rows]. apply elem_of_app. right. left.
  - reflexivity.
  - exact (bool_decide_eq_false_1 ("n/a"%string ∈ nat_strings) eq_refl).
Defined.

(** ** What get_filtered_data hands to the dashboard *)

Lemma project_project (cols : list string) (r : record) :
  project cols (project cols r) = project cols r.
Proof.
  unfold project at 1 3. f_equal.
  apply map_ext_in. intros c Hc. f_equal.
  apply cell_project. apply list_elem_of_In. exact Hc.
Qed.

Lemma empty_rows (df : DataFrame) :
  columns df ≠ [] → empty df = match rows df with [] => true | _ => false end.
Proof. unfold empty. destruct (rows df), (columns df); congruence. Qed.

Lemma cached_path_spec (now : Z) (db_path date_range : string) (w : World)
    (tbl : DataFrame) (ts : list value) :
  storage w (S (parse_log_calls w)) db_path = Some tbl →
  queryable tbl = true →
  to_datetime (map (cell "timestamp") (map select_row (rows tbl))) = Ok ts →
  existsb is_aware ts = false →
  cached_path now db_path date_range w
  = (Ok (map (project columns_to_cache)
             (rows_in_window now date_range (normalized tbl ts))),
     called w).
Proof.
  intros Hst Hq Hts Ha. unfold cached_path, bind.
  rewrite parse_log_spec, Hst. unfold parsed. rewrite Hq, Hts.
  rewrite empty_rows by discriminate.
  destruct (rows (normalized tbl ts)) as [|r0 rs] eqn:Hrows.
  { unfold ret, rows_in_window. rewrite Hrows.
    destruct (window date_range); reflexivity. }
  clear Hrows. unfold lift, ret.
  rewrite (filter_naive now _ date_range (normalized_tz_naive tbl ts Hts Ha)).
  assert (Hsel : ∀ f,
            columns f = map snd query_columns →
            (if empty f then λ w0 : World, (Ok [], w0)
             else
               λ w0 : World,
                 match select_columns f columns_to_cache with
                 | Ok a => (Ok (to_dict_records a), w0)
                 | Raise e => (Raise e, w0)
                 end) (called w)
            = (Ok (map (project columns_to_cache) (rows f)), called w)).
  { intros f Hc. rewrite empty_rows by (rewrite Hc; discriminate).
    destruct (rows f) as [|r1 rs1] eqn:Hr; [reflexivity|].
    rewrite select_columns_ok by (unfold has_column; rewrite Hc; reflexivity).
    unfold to_dict_records. cbn [columns rows]. rewrite Hr, map_map.
    apply (f_equal (λ x, (Ok x, called w))).
    apply map_ext. intros r. apply project_project. }
  rewrite Hsel by (destruct (window date_range); reflexivity).
  unfold rows_in_window. destruct (window date_range); reflexivity.
Qed.

(** X8.  On a table that is read successfully and whose timestamps carry
    no UTC offset, the function under the decorator calls [parse_log] once
    and returns one record per row inside the window, in stored order; each
    record has exactly the six fields timestamp, success, avg_latency_ms,
    max_latency_ms, min_latency_ms and packet_loss (the status text is
    dropped), with the values of the normalised row. *)
Theorem fetch_record_shape (now : Z) (db_path date_range : string)
    (w : World) (tbl : DataFrame) (ts : list value) :
  storage w (S (parse_log_calls w)) db_path = Some tbl →
  queryable tbl = true →
  to_datetime (map (cell "timestamp") (map select_row (rows tbl))) = Ok ts →
  existsb is_aware ts = false →
  ∃ l : list record,
    get_filtered_data_uncached now db_path date_range w = (Ok l, called w) ∧
    l = map (project columns_to_cache)
            (rows_in_window now date_range (normalized tbl ts)) ∧
    (∀ r, r ∈ l →
          dom r = list_to_set columns_to_cache
          ∧ r !! "status_message" = None) ∧
    (∀ i r0, rows_in_window now date_range (normalized tbl ts) !! i = Some r0 →
             ∃ r, l !! i = Some r
                  ∧ ∀ c, c ∈ columns_to_cache → cell c r = cell c r0).
Proof.
  intros Hst Hq Hts Ha.
  eexists. split.
  { unfold get_filtered_data_uncached, try_catch.
    rewrite (cached_path_spec now db_path date_range w tbl ts Hst Hq Hts Ha).
    reflexivity. }
  split; [reflexivity|]. split.
  - intros r Hr. apply elem_of_map_iff in Hr as (r0 & -> & _).
    split; [apply dom_project|].
    apply not_elem_of_dom. rewrite dom_project, elem_of_list_to_set.
    unfold columns_to_cache. intros H.
    repeat (apply elem_of_cons in H as [H|H]; [discriminate|]).
    inversion H.
  - intros i r0 Hi. exists (project columns_to_cache r0). split.
    + rewrite lookup_map, Hi. reflexivity.
    + intros c Hc. apply cell_project. exact Hc.
Qed.

Lemma fetch_record_shape_witness :
  ∃ l : list record,
    get_filtered_data_uncached (hours 22) "logs/internet_status.db"
      "last_12_hours" (world_with sample_table)
    = (Ok l, called (world_with sample_table)) ∧
    l = map (project columns_to_cache)
            (rows_in_window (hours 22) "last_12_hours"
               (normalized sample_table
                  [VTime (hours 9) false; VTime (hours 10) false;
                   VTime (hours 11) false])) ∧
    (∀ r, r ∈ l →
          dom r = list_to_set columns_to_cache
          ∧ r !! "status_message" = None) ∧
    (∀ i r0,
        rows_in_window (hours 22) "last_12_hours"
          (normalized sample_table
             [VTime (hours 9) false; VTime (hours 10) false;
              VTime (hours 11) false]) !! i = Some r0 →
        ∃ r, l !! i = Some r
             ∧ ∀ c, c ∈ columns_to_cache → cell c r = cell c r0).
Proof.
  exact (fetch_record_shape (hours 22) "logs/internet_status.db"
           "last_12_hours" (world_with sample_table) sample_table
           [VTime (hours 9) false; VTime (hours 10) false; VTime (hours 11) false]
           eq_refl eq_refl eq_refl eq_refl).
Defined.

Lemma parsed_rows_columns (found : option DataFrame) (r : record) :
  r ∈ rows (parsed found) → columns (parsed found) = map snd query_columns.
Proof.
  intros Hr. apply parsed_columns. unfold empty.
  destruct (rows (parsed found)) eqn:E; [inversion Hr|].
  unfold parsed in *. destruct found as [tbl|]; [|discriminate].
  destruct (queryable tbl); [|discriminate].
  destruct (to_datetime _); [reflexivity | discriminate].
Qed.

(** Every record of the [try] block comes from a row of the parsed frame
    and agrees with it on the six cached columns. *)
Lemma cached_path_records (now : Z) (db_path date_range : string)
    (w w' : World) (l : list record) (r : record) :
  cached_path now db_path date_range w = (Ok l, w') → r ∈ l →
  ∃ r0, r0 ∈ rows (parsed (storage w (S (parse_log_calls w)) db_path))
        ∧ ∀ c, c ∈ columns_to_cache → cell c r = cell c r0.
Proof.
  unfold cached_path, bind. rewrite parse_log_spec.
  set (df := parsed (storage w (S (parse_log_calls w)) db_path)).
  destruct (empty df) eqn:He.
  { intros H Hr. inversion H; subst. inversion Hr. }
  unfold lift, ret.
  destruct (filter_data_by_date now df date_range) as [f|] eqn:Hf;
    [|discriminate].
  destruct (filter_frame _ _ _ _ Hf) as [Hc Hs].
  destruct (empty f).
  { intros H Hr. inversion H; subst. inversion Hr. }
  rewrite select_columns_ok.
  2:{ unfold has_column. rewrite Hc. unfold df.
      rewrite (parsed_columns _ He). reflexivity. }
  intros H Hr. inversion H; subst. clear H.
  unfold to_dict_records in Hr. cbn [columns rows] in Hr.
  apply elem_of_map_iff in Hr as (r1 & -> & Hr).
  apply elem_of_map_iff in Hr as (r0 & -> & Hr).
  exists r0. split; [eapply elem_of_sublist; eauto|].
  intros c Hcin. rewrite !cell_project by exact Hcin. reflexivity.
Qed.

(** The same for the [except] block, which reads the database again. *)
Lemma uncached_path_records (now : Z) (db_path date_range : string)
    (w w' : World) (l : list record) (r : record) :
  uncached_path now db_path date_range w = (Ok l, w') → r ∈ l →
  ∃ r0, r0 ∈ rows (parsed (storage w (S (parse_log_calls w)) db_path))
        ∧ ∀ c, c ∈ columns_to_cache → cell c r = cell c r0.
Proof.
  rewrite uncached_path_spec.
  set (df := parsed (storage w (S (parse_log_calls w)) db_path)).
  destruct (filter_data_by_date now df date_range) as [f|] eqn:Hf;
    [|discriminate].
  destruct (filter_frame _ _ _ _ Hf) as [Hc Hs].
  cbn [rmap]. intros H Hr. inversion H; subst. clear H.
  destruct (empty f); cbn [negb] in Hr; [inversion Hr|].
  unfold to_dict_records in Hr.
  apply elem_of_map_iff in Hr as (r0 & -> & Hr).
  assert (Hr0 : r0 ∈ rows df) by (eapply elem_of_sublist; eauto).
  exists r0. split; [exact Hr0|].
  intros c Hcin. apply cell_project. rewrite Hc.
  unfold df. rewrite (parsed_rows_columns _ _ Hr0).
  unfold columns_to_cache in Hcin. cbn [map snd query_columns].
  repeat (apply elem_of_cons in Hcin as [-> | Hcin]);
    [| | | | | | inversion Hcin];
    repeat (first [apply list_elem_of_here | apply list_elem_of_further]).
Qed.

(** X9.  The caps reach the dashboard.  Whatever the database holds and
    whichever block of [get_filtered_data] produces the answer, in every
    record the function returns a latency that is a number is at most 500
    and a packet loss that is a number is at most 100, and each of the five
    numeric fields is a number or NaN. *)
Theorem fetched_records_capped (now : Z) (db_path date_range : string)
    (w w' : World) (l : list record) :
  get_filtered_data_uncached now db_path date_range w = (Ok l, w') →
  ∀ r : record, r ∈ l →
    (∀ c, c ∈ numeric_columns → cell c r = VNaN ∨ ∃ q, cell c r = VNum q) ∧
    (∀ c q,
        c = "avg_latency_ms"%string ∨ c = "max_latency_ms"%string
        ∨ c = "min_latency_ms"%string →
        cell c r = VNum q → (q <= 500)%Q) ∧
    (∀ q, cell "packet_loss" r = VNum q → (q <= 100)%Q).
Proof.
  intros H r Hr.
  assert (Hsrc : ∃ found r0, r0 ∈ rows (parsed found)
                   ∧ ∀ c, c ∈ columns_to_cache → cell c r = cell c r0).
  { unfold get_filtered_data_uncached, try_catch in H.
    destruct (cached_path now db_path date_range w) as [[l0|e] w0] eqn:Hc.
    - inversion H; subst.
      destruct (cached_path_records _ _ _ _ _ _ _ Hc Hr) as (r0 & H0 & H1).
      eauto.
    - destruct (uncached_path_records _ _ _ _ _ _ _ H Hr) as (r0 & H0 & H1).
      eauto. }
  destruct Hsrc as (found & r0 & Hr0 & Hcell).
  destruct (parsed_row_normalised found r0 Hr0) as (_ & Hnum & Hlat & Hpl).
  assert (Hin : ∀ c, c ∈ numeric_columns → c ∈ columns_to_cache).
  { intros c Hc. unfold numeric_columns in Hc. unfold columns_to_cache.
    repeat (apply elem_of_cons in Hc as [-> | Hc]); [| | | | | inversion Hc];
      repeat (first [apply list_elem_of_here | apply list_elem_of_further]). }
  split; [|split].
  - intros c Hc. rewrite (Hcell c (Hin c Hc)). apply Hnum. exact Hc.
  - intros c q Hc. rewrite (Hcell c).
    + apply Hlat. exact Hc.
    + apply Hin. unfold numeric_columns.
      destruct Hc as [-> | [-> | ->]];
        repeat (first [apply list_elem_of_here | apply list_elem_of_further]).
  - intros q. rewrite (Hcell "packet_loss"%string).
    + apply Hpl.
    + apply Hin. unfold numeric_columns.
      repeat (first [apply list_elem_of_here | apply list_elem_of_further]).
Qed.

Lemma fetched_records_capped_witness :
  returned (get_filtered_data_uncached (hours 12) "logs/internet_status.db"
              "all_time" (world_with sample_table)) = true
  ∧ ∀ r : record,
      r ∈ payload (get_filtered_data_uncached (hours 12)
                     "logs/internet_status.db" "all_time"
                     (world_with sample_table)) →
      (∀ c, c ∈ numeric_columns → cell c r = VNaN ∨ ∃ q, cell c r = VNum q) ∧
      (∀ c q,
          c = "avg_latency_ms"%string ∨ c = "max_latency_ms"%string
          ∨ c = "min_latency_ms"%string →
          cell c r = VNum q → (q <= 500)%Q) ∧
      (∀ q, cell "packet_loss" r = VNum q → (q <= 100)%Q).
Proof.
  split; [reflexivity|].
  exact (fetched_records_capped (hours 12) "logs/internet_status.db" "all_time"
           (world_with sample_table) _ _
           (returned_eq
              (get_filtered_data_uncached (hours 12) "logs/internet_status.db"
                 "all_time" (world_with sample_table)) eq_refl)).
Defined.

(** X10.  A failed read is remembered.  When the database cannot be read
    and the cache holds no fresh entry, the fetch returns the empty list
    after one call of [parse_log], and the memoising wrapper stores that
    empty list: every identical request made less than 300 seconds later
    returns the empty list again without looking at the database, whatever
    the database holds by then. *)
Theorem failed_read_is_cached (t1 t2 : Z) (db_path date_range : string)
    (w : World) :
  storage w (S (parse_log_calls w)) db_path = None →
  (∀ c0 v0, cache w !! (db_path, date_range) = Some (c0, v0) →
            c0 + seconds 300 <= t1) →
  ∃ w1 : World,
    get_filtered_data t1 db_path date_range w = (Ok [], w1) ∧
    parse_log_calls w1 = S (parse_log_calls w) ∧
    storage w1 = storage w ∧
    (t2 < t1 + seconds 300 →
     get_filtered_data t2 db_path date_range w1 = (Ok [], w1)).
Proof.
  intros Hst Hstale.
  assert (Hc : cached_path t1 db_path date_range w = (Ok [], called w)).
  { unfold cached_path, bind. rewrite parse_log_spec, Hst. reflexivity. }
  exists (set_cache (<[(db_path, date_range) := (t1, [])]> (cache (called w)))
                    (called w)).
  split; [|split; [reflexivity|split; [reflexivity|]]].
  - unfold get_filtered_data. rewrite memoize_miss by exact Hstale.
    unfold get_filtered_data_uncached, try_catch. rewrite Hc. reflexivity.
  - intros Hlt. unfold get_filtered_data.
    apply (memoize_hit _ _ _ _ _ _ t1); [|exact Hlt].
    cbn [set_cache cache]. apply lookup_insert_eq.
Qed.

Lemma failed_read_is_cached_witness :
  storage (world_recovering sample_table) 2 "logs/internet_status.db"
  = Some sample_table
  ∧ ∃ w1 : World,
      get_filtered_data 0 "logs/internet_status.db" "all_time"
        (world_recovering sample_table) = (Ok [], w1) ∧
      parse_log_calls w1 = 1%nat ∧
      storage w1 = storage (world_recovering sample_table) ∧
      (seconds 299 < 0 + seconds 300 →
       get_filtered_data (seconds 299) "logs/internet_status.db" "all_time" w1
       = (Ok [], w1)).
Proof.
  split; [reflexivity|].
  apply (failed_read_is_cached 0 (seconds 299) "logs/internet_status.db"
           "all_time" (world_recovering sample_table)).
  - reflexivity.
  - intros c0 v0 H. unfold world_recovering in H. cbn [cache] in H.
    rewrite lookup_empty in H. discriminate.
Defined.

(** ** calculate_y_range *)

Lemma calculate_y_range_nonempty (data_series : list value)
    (absolute_max buffer_ratio : Q) :
  data_series ≠ [] →
  (∃ m : Q,
      VNum m ∈ data_series
      ∧ (∀ q, VNum q ∈ data_series → (q <= m)%Q)
      ∧ (calculate_y_range data_series absolute_max buffer_ratio).2
        = VNum (Qmin (m * (1 + buffer_ratio)) absolute_max))
  ∨ ((∀ q, VNum q ∉ data_series)
     ∧ (calculate_y_range data_series absolute_max buffer_ratio).2 = VNaN).
Proof.
  intros Hne. destruct data_series as [|v s]; [congruence|].
  cbn [calculate_y_range snd].
  destruct (series_max_spec (v :: s)) as [[Hn Hno] | (m & Hm & Hin & Hub)].
  - right. split; [exact Hno|]. rewrite Hn. reflexivity.
  - left. exists m. split; [exact Hin|]. split; [exact Hub|].
    rewrite Hm. cbn [vmul]. rewrite py_min_Qmin. reflexivity.
Qed.


(** X11.  On a series of numbers and NaN, the range [calculate_y_range]
    returns always starts at 0.  For an empty series it ends at the
    absolute maximum.  For a series holding a number it ends at
    min(m * (1 + buffer_ratio), absolute maximum), with [m] the greatest
    number of the series, hence never above the absolute maximum; when that
    greatest number is negative and the buffer factor positive, the end
    lies below 0.  For a non-empty series of NaN only it ends at NaN. *)
Theorem calculate_y_range_ends (data_series : list value)
    (absolute_max buffer_ratio : Q) :
  forallb number_or_nan data_series = true →
  (calculate_y_range data_series absolute_max buffer_ratio).1 = VNum 0
  ∧ (data_series = [] →
     (calculate_y_range data_series absolute_max buffer_ratio).2
     = VNum absolute_max)
  ∧ (data_series ≠ [] →
     (∃ m : Q,
         VNum m ∈ data_series
         ∧ (∀ q, VNum q ∈ data_series → (q <= m)%Q)
         ∧ (calculate_y_range data_series absolute_max buffer_ratio).2
           = VNum (Qmin (m * (1 + buffer_ratio)) absolute_max)
         ∧ (Qmin (m * (1 + buffer_ratio)) absolute_max <= absolute_max)%Q
         ∧ ((m < 0)%Q → (0 < 1 + buffer_ratio)%Q →
            (Qmin (m * (1 + buffer_ratio)) absolute_max < 0)%Q))
     ∨ ((∀ q, VNum q ∉ data_series)
        ∧ (calculate_y_range data_series absolute_max buffer_ratio).2 = VNaN)).
Proof.
  intros _.
  split; [destruct data_series; reflexivity|].
  split; [intros ->; reflexivity|].
  intros Hne. destruct data_series as [|v s]; [congruence|].
  cbn [calculate_y_range snd].
  destruct (series_max_spec (v :: s)) as [[Hn Hno] | (m & Hm & Hin & Hub)].
  - right. split; [exact Hno|]. rewrite Hn. reflexivity.
  - left. exists m. split; [exact Hin|]. split; [exact Hub|].
    rewrite Hm. cbn [vmul]. rewrite py_min_Qmin.
    split; [reflexivity|]. split.
    + apply Q.le_min_r.
    + intros Hneg Hpos.
      apply Qle_lt_trans with (m * (1 + buffer_ratio))%Q;
        [apply Q.le_min_l | nra].
Qed.

Lemma calculate_y_range_ends_witness :
  calculate_y_range [VNum 40; VNaN; VNum 95] 100 (1 # 10)
  = (VNum 0, VNum 100)
  ∧ calculate_y_range [VNum 40; VNaN; VNum 50] 100 (1 # 10)
    = (VNum 0, VNum (50 * (1 + (1 # 10))))
  ∧ ∃ m : Q,
      VNum m ∈ [VNum (-3); VNum (-8)]
      ∧ (calculate_y_range [VNum (-3); VNum (-8)] 500 (1 # 10)).2
        = VNum (Qmin (m * (1 + (1 # 10))) 500)
      ∧ (Qmin (m * (1 + (1 # 10))) 500 < 0)%Q.
Proof.
  split; [reflexivity|]. split; [reflexivity|].
  destruct (calculate_y_range_ends [VNum (-3); VNum (-8)] 500 (1 # 10)
              eq_refl)
    as (_ & _ & H).
  destruct H as [(m & Hin & Hub & Heq & _ & Hneg) | [Hno _]]; [discriminate| |].
  - exists m. split; [exact Hin|]. split; [exact Heq|].
    apply Hneg; [|reflexivity].
    apply elem_of_cons in Hin as [Hin|Hin];
      [|apply list_elem_of_singleton in Hin];
      inversion Hin; subst; reflexivity.
  - exfalso. apply (Hno (-3)%Q). left.
Defined.

(** ** trigger_power_cycle, clicked *)

(** X12.  Once the button has been clicked, the callback runs the script
    exactly once and reports what happened: the time of the click when the
    script exits with status 0, the script's captured error output when it
    exits with any other status (a returned text, not an exception), while
    a script that cannot be launched at all raises to the caller.  Nothing
    else in the world changes. *)
Theorem trigger_power_cycle_outcomes (now : string) (n_clicks : Z)
    (w : World) :
  0 < n_clicks →
  (trigger_power_cycle now n_clicks w).2 = launched w
  ∧ (∀ stderr, script w = Exited 0 stderr →
       (trigger_power_cycle now n_clicks w).1
       = Ok ("Power cycle triggered at " +:+ now))
  ∧ (∀ code stderr, script w = Exited code stderr → code ≠ 0 →
       (trigger_power_cycle now n_clicks w).1
       = Ok ("Power cycle failed: " +:+ stderr))
  ∧ (script w = NotLaunched →
       (trigger_power_cycle now n_clicks w).1 = Raise OSError).
Proof.
  intros H. unfold trigger_power_cycle. apply Z.ltb_lt in H. rewrite H.
  unfold subprocess_run_check, count_subprocess, try_catch, bind, ret, lift.
  cbn [launched script].
  destruct (script w) as [[|p|p] err|]; cbn [fst snd];
    repeat split; try reflexivity; intros; try discriminate; try congruence.
Qed.

Lemma trigger_power_cycle_outcomes_witness :
  (trigger_power_cycle "2024-11-04 08:00:00" 3 (world_with sample_table)).2
  = launched (world_with sample_table)
  ∧ (trigger_power_cycle "2024-11-04 08:00:00" 3 (world_with sample_table)).1
    = Ok "Power cycle triggered at 2024-11-04 08:00:00"%string.
Proof.
  destruct (trigger_power_cycle_outcomes "2024-11-04 08:00:00" 3
              (world_with sample_table)) as (Hw & Hok & _); [lia|].
  split; [exact Hw|]. exact (Hok ""%string eq_refl).
Defined.

(** ** update_dashboard: charts and table *)

Lemma update_dashboard_charts (filtered_data : list record)
    (sel : list string) :
  renderable filtered_data sel = true →
  ∃ out : DashboardOutputs,
    update_dashboard filtered_data sel = Ok out ∧
    success_fig out
    = Figure
        [ {| trace_x := map (cell "timestamp") (rows (sorted_frame filtered_data));
             trace_y := map (cell "success") (rows (sorted_frame filtered_data));
             trace_name := "Success Rate (%)" |} ]
        {| title := "Internet Connectivity Over Time";
           yaxis_title := "Ping Response Success Rate (%)";
           yaxis_range := (VNum 0, VNum 100);
           xaxis_title := "Timestamp";
           xaxis_range :=
             (time_min (map (cell "timestamp") (rows (sorted_frame filtered_data))),
              time_max (map (cell "timestamp") (rows (sorted_frame filtered_data))));
           annotations := [] |} ∧
    packetloss_fig out
    = Figure
        [ {| trace_x := map (cell "timestamp") (rows (sorted_frame filtered_data));
             trace_y := map (cell "packet_loss") (rows (sorted_frame filtered_data));
             trace_name := "Packet Loss (%)" |} ]
        {| title := "Packet Loss Over Time";
           yaxis_title := "Packet Loss (%)";
           yaxis_range :=
             (VNum 0,
              (calculate_y_range
                 (map (cell "packet_loss") (rows (sorted_frame filtered_data)))
                 ABSOLUTE_MAX_PACKET_LOSS (1 # 10)).2);
           xaxis_title := "Timestamp";
           xaxis_range :=
             (time_min (map (cell "timestamp") (rows (sorted_frame filtered_data))),
              time_max (map (cell "timestamp") (rows (sorted_frame filtered_data))));
           annotations := [] |} ∧
    (∃ lay,
        latency_fig out
        = Figure
            (map (λ metric,
                    {| trace_x := map (cell "timestamp")
                                      (rows (sorted_frame filtered_data));
                       trace_y := map (cell metric)
                                      (rows (sorted_frame filtered_data));
                       trace_name := name_mapping metric |}) sel)
            lay
        ∧ title lay = "Latency Over Time"%string
        ∧ xaxis_range lay
          = (time_min (map (cell "timestamp") (rows (sorted_frame filtered_data))),
             time_max (map (cell "timestamp") (rows (sorted_frame filtered_data))))) ∧
    table_data out
    = to_dict_records
        {| columns := columns (sorted_frame filtered_data);
           rows := sorted_rows "timestamp" false
                     (rows (sorted_frame filtered_data)) |}.
Proof.
  unfold renderable. intros H.
  apply andb_true_iff in H as [H Hsel0].
  apply andb_true_iff in H as [H Hpl].
  apply andb_true_iff in H as [H Hsu].
  apply andb_true_iff in H as [H Hts].
  apply negb_true_iff in H.
  set (df0 := DataFrame_of_records filtered_data) in *.
  assert (Hcol : ∀ c, has_column (sorted_frame filtered_data) c = has_column df0 c)
    by reflexivity.
  assert (Hsel : forallb (has_column (sorted_frame filtered_data)) sel = true)
    by exact Hsel0.
  assert (Hsort : sort_values df0 "timestamp" true = Ok (sorted_frame filtered_data)).
  { unfold sort_values. rewrite Hts. reflexivity. }
  assert (Hd : sort_values (sorted_frame filtered_data) "timestamp" false
               = Ok {| columns := columns (sorted_frame filtered_data);
                       rows := sorted_rows "timestamp" false
                                 (rows (sorted_frame filtered_data)) |}).
  { unfold sort_values. rewrite Hcol, Hts. reflexivity. }
  unfold update_dashboard. fold df0. rewrite H. cbn [negb].
  unfold getitem at 1. rewrite Hts.
  cbn [rbind]. rewrite Hsort. cbn [rbind].
  assert (Hg : ∀ c, has_column df0 c = true →
                 getitem (sorted_frame filtered_data) c
                 = Ok (map (cell c) (rows (sorted_frame filtered_data)))).
  { intros c Hc. unfold getitem. rewrite Hcol, Hc. reflexivity. }
  destruct sel as [|m sel].
  - cbn [rbind]. rewrite !Hg by auto. cbn [rbind]. rewrite Hd. cbn [rbind].
    eexists. split; [reflexivity|].
    cbn [success_fig packetloss_fig latency_fig table_data].
    split; [reflexivity|]. split; [reflexivity|]. split; [|reflexivity].
    eexists. split; [reflexivity|]. split; reflexivity.
  - rewrite select_columns_ok by exact Hsel. cbn [rbind].
    rewrite !Hg by auto. cbn [rbind].
    rewrite traces_ok by exact Hsel. cbn [rbind]. rewrite Hd. cbn [rbind].
    eexists. split; [reflexivity|].
    cbn [success_fig packetloss_fig latency_fig table_data].
    split; [reflexivity|]. split; [reflexivity|]. split; [|reflexivity].
    eexists. split; [reflexivity|]. split; reflexivity.
Qed.

(** Sorting by timestamp. *)
Lemma time_le_total (ascending : bool) (a b : value) :
  time_le ascending a b = false → time_le ascending b a = true.
Proof.
  unfold time_le. destruct (time_key a), (time_key b), ascending;
    try discriminate; try reflexivity; rewrite Z.leb_gt, Z.leb_le; lia.
Qed.

Lemma time_le_trans (ascending : bool) (a b c : value) :
  time_le ascending a b = true → time_le ascending b c = true →
  time_le ascending a c = true.
Proof.
  unfold time_le. destruct (time_key a), (time_key b), (time_key c), ascending;
    try discriminate; try reflexivity; rewrite !Z.leb_le; lia.
Qed.

Lemma sorted_rows_sorted (ascending : bool) (l : list record) :
  StronglySorted (in_time_order ascending)
                 (sorted_rows "timestamp" ascending l).
Proof.
  unfold sorted_rows.
  set (le := λ a b : record,
               time_le ascending (cell "timestamp" a) (cell "timestamp" b)).
  assert (Hins : ∀ r s, StronglySorted (in_time_order ascending) s →
                        StronglySorted (in_time_order ascending)
                                       (insert_sorted le r s)).
  { intros r s Hs. induction Hs as [|h t Ht IH Hall]; simpl.
    - repeat constructor.
    - destruct (le r h) eqn:E.
      + constructor; [constructor; assumption|].
        constructor; [exact E|].
        eapply Forall_impl; [exact Hall|]. intros x Hx.
        unfold in_time_order in *. eapply time_le_trans; eauto.
      + constructor; [exact IH|].
        rewrite insert_sorted_perm. constructor; [|exact Hall].
        unfold in_time_order. apply time_le_total. exact E. }
  induction l as [|r l IH]; simpl; [constructor|]. apply Hins. exact IH.
Qed.

Lemma strongly_sorted_lookup {A} (R : A → A → Prop) (l : list A) (i j : nat)
    (a b : A) :
  StronglySorted R l → (i < j)%nat → l !! i = Some a → l !! j = Some b →
  R a b.
Proof.
  intros Hs. revert i j. induction Hs as [|x l Hl IH Hall]; intros i j Hij Hi Hj.
  - destruct i; discriminate.
  - destruct j as [|j]; [lia|]. destruct i as [|i]; simpl in *.
    + inversion Hi; subst. rewrite Forall_forall in Hall. apply Hall.
      eapply list_elem_of_lookup_2. exact Hj.
    + eapply IH; [|exact Hi|exact Hj]. lia.
Qed.

Lemma map_project_fixed (cols : list string) (l : list record) :
  (∀ r, r ∈ l → ∃ r0, r = project cols r0) → map (project cols) l = l.
Proof.
  induction l as [|r l IH]; intros H; simpl; [reflexivity|].
  destruct (H r (list_elem_of_here _ _)) as [r0 ->].
  rewrite project_project, IH; [reflexivity|].
  intros r' Hr'. apply H. right. exact Hr'.
Qed.

(** Reading of the order: between two rows with timestamps the order is
    the order of the instants; a row without timestamp is followed only by
    rows without timestamp. *)
Lemma in_time_order_reading (ascending : bool) (a b : record) :
  in_time_order ascending a b →
  (∀ ta tza tb tzb,
      cell "timestamp" a = VTime ta tza → cell "timestamp" b = VTime tb tzb →
      if ascending then ta <= tb else tb <= ta)
  ∧ (time_key (cell "timestamp" a) = None →
     time_key (cell "timestamp" b) = None).
Proof.
  unfold in_time_order, time_le. intros H. split.
  - intros ta tza tb tzb Ha Hb. rewrite Ha, Hb in H. simpl in H.
    destruct ascending; apply Z.leb_le; exact H.
  - intros Ha. rewrite Ha in H. destruct (time_key (cell "timestamp" b));
      [discriminate | reflexivity].
Qed.

(** X13.  The table shows every record once, newest first.  For every
    dataset of fetched records the dashboard can render, the table rows are
    the records (each with all the keys that occur in the dataset, a
    missing key filled with NaN) in a different order: of two rows with
    timestamps the earlier one in the table is not older than the later
    one, and rows without timestamp come after all the others. *)
Theorem table_newest_first (filtered_data : list record) (sel : list string) :
  renderable filtered_data sel = true →
  typed_input filtered_data sel = true →
  ∃ out : DashboardOutputs,
    update_dashboard filtered_data sel = Ok out ∧
    table_data out ≡ₚ framed filtered_data ∧
    length (table_data out) = length filtered_data ∧
    ∀ (i j : nat) (a b : record),
      (i < j)%nat → table_data out !! i = Some a → table_data out !! j = Some b →
      (∀ ta tza tb tzb,
          cell "timestamp" a = VTime ta tza →
          cell "timestamp" b = VTime tb tzb → tb <= ta)
      ∧ (time_key (cell "timestamp" a) = None →
         time_key (cell "timestamp" b) = None).
Proof.
  intros Hr _.
  destruct (update_dashboard_charts filtered_data sel Hr)
    as (out & Hout & _ & _ & _ & Htab).
  exists out. split; [exact Hout|].
  assert (Hfix : table_data out
                 = sorted_rows "timestamp" false
                     (rows (sorted_frame filtered_data))).
  { rewrite Htab. unfold to_dict_records. cbn [columns rows].
    apply map_project_fixed. intros r Hr0.
    rewrite sorted_rows_perm in Hr0.
    unfold sorted_frame in Hr0 |- *. cbn [rows columns] in Hr0 |- *.
    rewrite sorted_rows_perm in Hr0.
    unfold DataFrame_of_records in Hr0 |- *. cbn [rows columns] in Hr0 |- *.
    apply elem_of_map_iff in Hr0 as (r0 & -> & _). eauto. }
  assert (Hperm : table_data out ≡ₚ framed filtered_data).
  { rewrite Hfix. unfold sorted_frame. cbn [rows].
    rewrite !sorted_rows_perm. reflexivity. }
  split; [exact Hperm|]. split.
  { rewrite Hperm. unfold framed, DataFrame_of_records. cbn [rows].
    apply length_map. }
  intros i j a b Hij Hi Hj.
  assert (Hord : in_time_order false a b).
  { eapply (strongly_sorted_lookup _ (table_data out) i j); eauto.
    rewrite Hfix. apply sorted_rows_sorted. }
  destruct (in_time_order_reading false a b Hord) as [H1 H2].
  split; [|exact H2]. intros ta tza tb tzb Ha Hb. exact (H1 ta tza tb tzb Ha Hb).
Qed.

Lemma table_newest_first_witness :
  renderable sample_records ["avg_latency_ms"]%string = true ∧
  typed_input sample_records ["avg_latency_ms"]%string = true ∧
  ∃ out : DashboardOutputs,
    update_dashboard sample_records ["avg_latency_ms"]%string = Ok out ∧
    table_data out ≡ₚ framed sample_records ∧
    length (table_data out) = length sample_records ∧
    ∀ (i j : nat) (a b : record),
      (i < j)%nat → table_data out !! i = Some a → table_data out !! j = Some b →
      (∀ ta tza tb tzb,
          cell "timestamp" a = VTime ta tza →
          cell "timestamp" b = VTime tb tzb → tb <= ta)
      ∧ (time_key (cell "timestamp" a) = None →
         time_key (cell "timestamp" b) = None).
Proof.
  split; [reflexivity|]. split; [reflexivity|].
  exact (table_newest_first sample_records ["avg_latency_ms"]%string
           eq_refl eq_refl).
Defined.

Lemma time_fold_spec (le : Z → Z → bool) (R : Z → Z → Prop) (s : list value) :
  (∀ x y, le x y = true → R x y) → (∀ x y, le x y = false → R y x) →
  (∀ x, R x x) → (∀ x y z, R x y → R y z → R x z) →
  (fold_right (time_pick le) VNaT s = VNaT
   ∧ ∀ v, v ∈ s → time_key v = None)
  ∨ ∃ t tz, fold_right (time_pick le) VNaT s = VTime t tz
            ∧ VTime t tz ∈ s
            ∧ ∀ v t', v ∈ s → time_key v = Some t' → R t t'.
Proof.
  intros Hle Hnle Hrefl Htrans. induction s as [|a s IH].
  - left. split; [reflexivity|]. intros v Hv. inversion Hv.
  - cbn [fold_right].
    destruct IH as [[-> Hnone] | (t & tz & -> & Hin & Hlow)].
    + destruct (time_key a) as [x|] eqn:Ea.
      * right. destruct a; try discriminate. simpl in Ea. inversion Ea; subst.
        eexists _, _. split; [reflexivity|]. split; [left|].
        intros v t' Hv Hk. apply elem_of_cons in Hv as [-> | Hv].
        -- simpl in Hk. inversion Hk; subst. apply Hrefl.
        -- rewrite (Hnone v Hv) in Hk. discriminate.
      * left. split.
        -- unfold time_pick. rewrite Ea. reflexivity.
        -- intros v Hv. apply elem_of_cons in Hv as [-> | Hv]; auto.
    + right. destruct (time_key a) as [x|] eqn:Ea.
      * destruct a; try discriminate. simpl in Ea. inversion Ea; subst.
        unfold time_pick. cbn [time_key]. destruct (le x t) eqn:E.
        -- eexists _, _. split; [reflexivity|]. split; [left|].
           intros v t' Hv Hk. apply elem_of_cons in Hv as [-> | Hv].
           ++ simpl in Hk. inversion Hk; subst. apply Hrefl.
           ++ eapply Htrans; [apply Hle; exact E|]. eapply Hlow; eauto.
        -- exists t, tz. split; [reflexivity|]. split; [right; exact Hin|].
           intros v t' Hv Hk. apply elem_of_cons in Hv as [-> | Hv].
           ++ simpl in Hk. inversion Hk; subst. apply Hnle. exact E.
           ++ eapply Hlow; eauto.
      * exists t, tz. split.
        -- unfold time_pick. rewrite Ea. reflexivity.
        -- split; [right; exact Hin|].
           intros v t' Hv Hk. apply elem_of_cons in Hv as [-> | Hv].
           ++ congruence.
           ++ eapply Hlow; eauto.
Qed.

Lemma sorted_frame_cells (filtered_data : list record) (c : string)
    (v : value) :
  c ∈ columns (DataFrame_of_records filtered_data) →
  v ∈ map (cell c) (rows (sorted_frame filtered_data)) ↔
  ∃ r, r ∈ filtered_data ∧ cell c r = v.
Proof.
  intros Hc. unfold sorted_frame. cbn [rows].
  rewrite sorted_rows_perm. unfold DataFrame_of_records in *.
  cbn [rows columns] in *. rewrite elem_of_map_iff. split.
  - intros (r' & -> & Hr'). apply elem_of_map_iff in Hr' as (r & -> & Hr).
    exists r. split; [exact Hr|]. symmetry. apply cell_project. exact Hc.
  - intros (r & Hr & <-). eexists. split.
    + symmetry. apply cell_project. exact Hc.
    + apply elem_of_map_iff. eauto.
Qed.

Lemma renderable_columns (filtered_data : list record) (sel : list string) :
  renderable filtered_data sel = true →
  empty (DataFrame_of_records filtered_data) = false
  ∧ "timestamp"%string ∈ columns (DataFrame_of_records filtered_data)
  ∧ "success"%string ∈ columns (DataFrame_of_records filtered_data)
  ∧ "packet_loss"%string ∈ columns (DataFrame_of_records filtered_data).
Proof.
  unfold renderable. intros H.
  apply andb_true_iff in H as [H _].
  apply andb_true_iff in H as [H Hpl].
  apply andb_true_iff in H as [H Hsu].
  apply andb_true_iff in H as [H Hts].
  apply negb_true_iff in H.
  rewrite <- !has_column_elem. auto.
Qed.

(** X14.  The charts plot the records oldest first.  For every dataset of
    fetched records the dashboard can render there is one ordering of the
    records, ascending in time with the rows without timestamp last, that
    all charts share: the success chart and the packet loss chart have one
    series each, the latency chart one series per selected metric in the
    order of the selection, named by the display name of the metric; every
    series has the timestamps of that ordering as x values and the values
    of its column, row by row, as y values.  The success chart has the
    fixed y-range 0 to 100. *)
Theorem charts_oldest_first (filtered_data : list record) (sel : list string) :
  renderable filtered_data sel = true →
  typed_input filtered_data sel = true →
  ∃ (out : DashboardOutputs) (S : list record) (l1 l2 l3 : layout),
    update_dashboard filtered_data sel = Ok out ∧
    S ≡ₚ framed filtered_data ∧
    (∀ (i j : nat) (a b : record),
        (i < j)%nat → S !! i = Some a → S !! j = Some b →
        (∀ ta tza tb tzb,
            cell "timestamp" a = VTime ta tza →
            cell "timestamp" b = VTime tb tzb → ta <= tb)
        ∧ (time_key (cell "timestamp" a) = None →
           time_key (cell "timestamp" b) = None)) ∧
    success_fig out
    = Figure [ {| trace_x := map (cell "timestamp") S;
                  trace_y := map (cell "success") S;
                  trace_name := "Success Rate (%)" |} ] l1 ∧
    yaxis_range l1 = (VNum 0, VNum 100) ∧
    packetloss_fig out
    = Figure [ {| trace_x := map (cell "timestamp") S;
                  trace_y := map (cell "packet_loss") S;
                  trace_name := "Packet Loss (%)" |} ] l2 ∧
    latency_fig out
    = Figure (map (λ metric,
                     {| trace_x := map (cell "timestamp") S;
                        trace_y := map (cell metric) S;
                        trace_name := name_mapping metric |}) sel) l3.
Proof.
  intros Hr _.
  destruct (update_dashboard_charts filtered_data sel Hr)
    as (out & Hout & Hs & Hp & (lay & Hl & _ & _) & _).
  exists out, (rows (sorted_frame filtered_data)).
  eexists _, _, lay. split; [exact Hout|]. split.
  { unfold sorted_frame, framed. cbn [rows]. apply sorted_rows_perm. }
  split.
  { intros i j a b Hij Hi Hj.
    assert (Hord : in_time_order true a b).
    { eapply (strongly_sorted_lookup _ _ i j); eauto.
      unfold sorted_frame. cbn [rows]. apply sorted_rows_sorted. }
    destruct (in_time_order_reading true a b Hord) as [H1 H2].
    split; [|exact H2]. intros ta tza tb tzb Ha Hb.
    exact (H1 ta tza tb tzb Ha Hb). }
  split; [exact Hs|]. split; [reflexivity|]. split; [exact Hp|]. exact Hl.
Qed.

Lemma charts_oldest_first_witness :
  renderable sample_records ["avg_latency_ms"; "foo"]%string = false ∧
  renderable sample_records ["max_latency_ms"; "avg_latency_ms"]%string = true ∧
  typed_input sample_records ["max_latency_ms"; "avg_latency_ms"]%string
  = true ∧
  ∃ (out : DashboardOutputs) (S : list record) (l1 l2 l3 : layout),
    update_dashboard sample_records
      ["max_latency_ms"; "avg_latency_ms"]%string = Ok out ∧
    S ≡ₚ framed sample_records ∧
    (∀ (i j : nat) (a b : record),
        (i < j)%nat → S !! i = Some a → S !! j = Some b →
        (∀ ta tza tb tzb,
            cell "timestamp" a = VTime ta tza →
            cell "timestamp" b = VTime tb tzb → ta <= tb)
        ∧ (time_key (cell "timestamp" a) = None →
           time_key (cell "timestamp" b) = None)) ∧
    success_fig out
    = Figure [ {| trace_x := map (cell "timestamp") S;
                  trace_y := map (cell "success") S;
                  trace_name := "Success Rate (%)" |} ] l1 ∧
    yaxis_range l1 = (VNum 0, VNum 100) ∧
    packetloss_fig out
    = Figure [ {| trace_x := map (cell "timestamp") S;
                  trace_y := map (cell "packet_loss") S;
                  trace_name := "Packet Loss (%)" |} ] l2 ∧
    latency_fig out
    = Figure (map (λ metric,
                     {| trace_x := map (cell "timestamp") S;
                        trace_y := map (cell metric) S;
                        trace_name := name_mapping metric |})
                  ["max_latency_ms"; "avg_latency_ms"]%string) l3.
Proof.
  split; [reflexivity|]. split; [reflexivity|]. split; [reflexivity|].
  exact (charts_oldest_first sample_records
           ["max_latency_ms"; "avg_latency_ms"]%string eq_refl eq_refl).
Defined.

(** X15.  The time axis spans the data.  For every dataset of fetched
    records the dashboard can render, the three charts have the same x-axis
    range; it runs from the earliest to the latest timestamp among the
    records, both ends being timestamps of records; when no record has a
    timestamp both ends are NaT. *)
Theorem charts_span_the_data (filtered_data : list record)
    (sel : list string) :
  renderable filtered_data sel = true →
  typed_input filtered_data sel = true →
  ∃ (out : DashboardOutputs) (d1 d2 d3 : list trace) (l1 l2 l3 : layout)
    (lo hi : value),
    update_dashboard filtered_data sel = Ok out ∧
    success_fig out = Figure d1 l1 ∧
    latency_fig out = Figure d2 l2 ∧
    packetloss_fig out = Figure d3 l3 ∧
    xaxis_range l1 = (lo, hi) ∧
    xaxis_range l2 = (lo, hi) ∧
    xaxis_range l3 = (lo, hi) ∧
    ((lo = VNaT ∧ hi = VNaT
      ∧ ∀ r, r ∈ filtered_data → time_key (cell "timestamp" r) = None)
     ∨ ∃ t1 tz1 t2 tz2,
         lo = VTime t1 tz1 ∧ hi = VTime t2 tz2
         ∧ (∃ r, r ∈ filtered_data ∧ cell "timestamp" r = lo)
         ∧ (∃ r, r ∈ filtered_data ∧ cell "timestamp" r = hi)
         ∧ ∀ r t tz, r ∈ filtered_data → cell "timestamp" r = VTime t tz →
                     t1 <= t <= t2).
Proof.
  intros Hr _.
  destruct (update_dashboard_charts filtered_data sel Hr)
    as (out & Hout & Hs & Hp & (lay & Hl & _ & Hx) & _).
  destruct (renderable_columns _ _ Hr) as (_ & Hts & _ & _).
  set (ts := map (cell "timestamp") (rows (sorted_frame filtered_data))) in *.
  exists out. eexists _, _, _, _, lay, _, (time_min ts), (time_max ts).
  split; [exact Hout|]. split; [exact Hs|]. split; [exact Hl|].
  split; [exact Hp|]. split; [reflexivity|]. split; [exact Hx|].
  split; [reflexivity|].
  assert (Hcells : ∀ v, v ∈ ts ↔ ∃ r, r ∈ filtered_data ∧ cell "timestamp" r = v).
  { intros v. apply sorted_frame_cells. exact Hts. }
  destruct (time_fold_spec Z.leb Z.le ts) as [[Hmin Hnone] | (t1 & tz1 & Hmin & Hin1 & Hlow)].
  { intros x y. apply Z.leb_le. }
  { intros x y H. apply Z.leb_gt in H. lia. }
  { intros x. lia. }
  { intros x y z. lia. }
  - left. split; [exact Hmin|].
    destruct (time_fold_spec Z.geb (λ x y, y <= x) ts)
      as [[Hmax _] | (t2 & tz2 & _ & Hin2 & _)].
    { intros x y H. apply Z.geb_le in H. exact H. }
    { intros x y H. rewrite Z.geb_leb in H. apply Z.leb_gt in H. lia. }
    { intros x. lia. }
    { intros x y z. lia. }
    + split; [exact Hmax|]. intros r Hrin. apply Hnone. apply Hcells. eauto.
    + specialize (Hnone _ Hin2). discriminate.
  - right.
    destruct (time_fold_spec Z.geb (λ x y, y <= x) ts)
      as [[_ Hnone] | (t2 & tz2 & Hmax & Hin2 & Hup)].
    { intros x y H. apply Z.geb_le in H. exact H. }
    { intros x y H. rewrite Z.geb_leb in H. apply Z.leb_gt in H. lia. }
    { intros x. lia. }
    { intros x y z. lia. }
    + specialize (Hnone _ Hin1). discriminate.
    + exists t1, tz1, t2, tz2. split; [exact Hmin|]. split; [exact Hmax|].
      split; [apply Hcells; unfold time_min; rewrite Hmin; exact Hin1|].
      split; [apply Hcells; unfold time_max; rewrite Hmax; exact Hin2|].
      intros r t tz Hrin Hc.
      assert (Hv : VTime t tz ∈ ts) by (apply Hcells; eauto).
      split; [exact (Hlow _ t Hv eq_refl) | exact (Hup _ t Hv eq_refl)].
Qed.

Lemma charts_span_the_data_witness :
  renderable sample_records ["avg_latency_ms"]%string = true ∧
  typed_input sample_records ["avg_latency_ms"]%string = true ∧
  ∃ (out : DashboardOutputs) (d1 d2 d3 : list trace) (l1 l2 l3 : layout)
    (lo hi : value),
    update_dashboard sample_records ["avg_latency_ms"]%string = Ok out ∧
    success_fig out = Figure d1 l1 ∧
    latency_fig out = Figure d2 l2 ∧
    packetloss_fig out = Figure d3 l3 ∧
    xaxis_range l1 = (lo, hi) ∧
    xaxis_range l2 = (lo, hi) ∧
    xaxis_range l3 = (lo, hi) ∧
    ((lo = VNaT ∧ hi = VNaT
      ∧ ∀ r, r ∈ sample_records → time_key (cell "timestamp" r) = None)
     ∨ ∃ t1 tz1 t2 tz2,
         lo = VTime t1 tz1 ∧ hi = VTime t2 tz2
         ∧ (∃ r, r ∈ sample_records ∧ cell "timestamp" r = lo)
         ∧ (∃ r, r ∈ sample_records ∧ cell "timestamp" r = hi)
         ∧ ∀ r t tz, r ∈ sample_records → cell "timestamp" r = VTime t tz →
                     t1 <= t <= t2).
Proof.
  split; [reflexivity|]. split; [reflexivity|].
  exact (charts_span_the_data sample_records ["avg_latency_ms"]%string
           eq_refl eq_refl).
Defined.

(** X16.  The packet loss chart scales to the data, up to 100.  For every
    dataset of fetched records the dashboard can render, the y-range of the
    packet loss chart starts at 0 and ends at min(m * (1 + 0.1), 100),
    where [m] is the greatest packet loss among the records; the end is
    never above 100, and it is NaN when no record has a packet loss that is
    a number. *)
Theorem packet_loss_chart_range (filtered_data : list record)
    (sel : list string) :
  renderable filtered_data sel = true →
  typed_input filtered_data sel = true →
  ∃ (out : DashboardOutputs) (traces : list trace) (lay : layout),
    update_dashboard filtered_data sel = Ok out ∧
    packetloss_fig out = Figure traces lay ∧
    ((∃ m : Q,
         (∃ r, r ∈ filtered_data ∧ cell "packet_loss" r = VNum m)
         ∧ (∀ r q, r ∈ filtered_data → cell "packet_loss" r = VNum q →
                   (q <= m)%Q)
         ∧ yaxis_range lay
           = (VNum 0, VNum (Qmin (m * (1 + (1 # 10))) 100))
         ∧ (Qmin (m * (1 + (1 # 10))) 100 <= 100)%Q)
     ∨ ((∀ r q, r ∈ filtered_data → cell "packet_loss" r ≠ VNum q)
        ∧ yaxis_range lay = (VNum 0, VNaN))).
Proof.
  intros Hr _.
  destruct (update_dashboard_charts filtered_data sel Hr)
    as (out & Hout & _ & Hp & _ & _).
  destruct (renderable_columns _ _ Hr) as (Hne & _ & _ & Hpl).
  set (pl := map (cell "packet_loss") (rows (sorted_frame filtered_data))) in *.
  exists out. eexists _, _. split; [exact Hout|]. split; [exact Hp|].
  cbn [yaxis_range].
  assert (Hcells : ∀ v, v ∈ pl ↔ ∃ r, r ∈ filtered_data ∧ cell "packet_loss" r = v).
  { intros v. apply sorted_frame_cells. exact Hpl. }
  assert (Hpl_ne : pl ≠ []).
  { intros E. apply (f_equal length) in E. unfold pl in E.
    rewrite length_map in E. unfold sorted_frame in E. cbn [rows] in E.
    rewrite sorted_rows_perm in E. cbn [length] in E.
    apply length_zero_iff_nil in E.
    unfold empty in Hne. rewrite E in Hne. discriminate. }
  destruct (calculate_y_range_nonempty pl 100 (1 # 10) Hpl_ne)
    as [(m & Hin & Hub & Hy) | (Hno & Hy)].
  - left. exists m. split; [apply Hcells; exact Hin|]. split.
    + intros r q Hrin Hc. apply Hub. apply Hcells. eauto.
    + split; [|apply Q.le_min_r]. unfold ABSOLUTE_MAX_PACKET_LOSS. rewrite Hy.
      reflexivity.
  - right. split.
    + intros r q Hrin Hc. apply (Hno q). apply Hcells. eauto.
    + unfold ABSOLUTE_MAX_PACKET_LOSS. rewrite Hy. reflexivity.
Qed.

Lemma packet_loss_chart_range_witness :
  renderable sample_records ["avg_latency_ms"]%string = true ∧
  typed_input sample_records ["avg_latency_ms"]%string = true ∧
  ∃ (out : DashboardOutputs) (traces : list trace) (lay : layout),
    update_dashboard sample_records ["avg_latency_ms"]%string = Ok out ∧
    packetloss_fig out = Figure traces lay ∧
    ((∃ m : Q,
         (∃ r, r ∈ sample_records ∧ cell "packet_loss" r = VNum m)
         ∧ (∀ r q, r ∈ sample_records → cell "packet_loss" r = VNum q →
                   (q <= m)%Q)
         ∧ yaxis_range lay
           = (VNum 0, VNum (Qmin (m * (1 + (1 # 10))) 100))
         ∧ (Qmin (m * (1 + (1 # 10))) 100 <= 100)%Q)
     ∨ ((∀ r q, r ∈ sample_records → cell "packet_loss" r ≠ VNum q)
        ∧ yaxis_range lay = (VNum 0, VNaN))).
Proof.
  split; [reflexivity|]. split; [reflexivity|].
  exact (packet_loss_chart_range sample_records ["avg_latency_ms"]%string
           eq_refl eq_refl).
Defined.

Lemma select_columns_missing (df : DataFrame) (cols : list string) :
  forallb (has_column df) cols = false →
  ∃ c, select_columns df cols = Raise (KeyError c)
       ∧ c ∈ cols ∧ has_column df c = false.
Proof.
  intros H. unfold select_columns.
  destruct (find _ cols) as [c|] eqn:E.
  - apply find_some in E as [Hin Hc]. exists c. split; [reflexivity|].
    split; [apply list_elem_of_In; exact Hin|].
    apply negb_true_iff. exact Hc.
  - exfalso.
    assert (Hall : forallb (has_column df) cols = true).
    { apply forallb_forall. intros x Hx.
      pose proof (find_none _ _ E x Hx) as Hn.
      apply negb_false_iff. exact Hn. }
    congruence.
Qed.

(** X17.  A column the callback reads and the records lack is a KeyError.
    For fetched records that make a non-empty frame, the update returns its
    outputs exactly when the timestamp, the success, the packet loss and
    every selected metric occur as a key of some record; otherwise it
    raises the KeyError of one of these columns that no record has.  A
    missing timestamp is met first, in the log statement at the top of the
    callback. *)
Theorem update_dashboard_missing_column (filtered_data : list record)
    (sel : list string) :
  empty (DataFrame_of_records filtered_data) = false →
  typed_input filtered_data sel = true →
  (if renderable filtered_data sel
   then ∃ out, update_dashboard filtered_data sel = Ok out
   else ∃ c, update_dashboard filtered_data sel = Raise (KeyError c)
             ∧ c ∈ ("timestamp" :: "success" :: "packet_loss" :: sel)%string
             ∧ c ∉ columns (DataFrame_of_records filtered_data))
  ∧ ("timestamp"%string ∉ columns (DataFrame_of_records filtered_data) →
     update_dashboard filtered_data sel = Raise (KeyError "timestamp")).
Proof.
  intros Hne _.
  set (df0 := DataFrame_of_records filtered_data) in *.
  assert (Hno : ∀ c, has_column df0 c = false → c ∉ columns df0).
  { intros c Hc Hin. apply has_column_elem in Hin. congruence. }
  assert (Hfirst : has_column df0 "timestamp" = false →
                   update_dashboard filtered_data sel
                   = Raise (KeyError "timestamp")).
  { intros Hts. unfold update_dashboard. fold df0. rewrite Hne. cbn [negb].
    unfold getitem. rewrite Hts. reflexivity. }
  split.
  2: { intros Hts. apply Hfirst. destruct (has_column df0 "timestamp") eqn:E;
         [|reflexivity]. apply has_column_elem in E. contradiction. }
  destruct (renderable filtered_data sel) eqn:Hr.
  { destruct (update_dashboard_charts _ _ Hr) as (out & Hout & _). eauto. }
  unfold renderable in Hr. fold df0 in Hr. rewrite Hne in Hr.
  cbn [negb andb] in Hr.
  destruct (has_column df0 "timestamp") eqn:Hts.
  2: { exists "timestamp"%string. split; [apply Hfirst; reflexivity|].
       split; [left | apply Hno; exact Hts]. }
  assert (Hsort : sort_values df0 "timestamp" true
                  = Ok (sorted_frame filtered_data)).
  { unfold sort_values. rewrite Hts. reflexivity. }
  assert (Hg : ∀ c, has_column df0 c = true →
                 getitem (sorted_frame filtered_data) c
                 = Ok (map (cell c) (rows (sorted_frame filtered_data)))).
  { intros c Hc. unfold getitem.
    change (has_column (sorted_frame filtered_data) c) with (has_column df0 c).
    rewrite Hc. reflexivity. }
  assert (Hgn : ∀ c, has_column df0 c = false →
                  getitem (sorted_frame filtered_data) c = Raise (KeyError c)).
  { intros c Hc. unfold getitem.
    change (has_column (sorted_frame filtered_data) c) with (has_column df0 c).
    rewrite Hc. reflexivity. }
  unfold update_dashboard. fold df0. rewrite Hne. cbn [negb].
  unfold getitem at 1. rewrite Hts. cbn [rbind]. rewrite Hsort. cbn [rbind].
  destruct (forallb (has_column df0) sel) eqn:Hsel.
  - assert (Hsel' : forallb (has_column (sorted_frame filtered_data)) sel = true)
      by exact Hsel.
    destruct (has_column df0 "success") eqn:Hsu.
    + destruct (has_column df0 "packet_loss") eqn:Hpl; [discriminate|].
      exists "packet_loss"%string.
      split; [|split; [right; right; left | apply Hno; exact Hpl]].
      destruct sel as [|m sel].
      * cbn [rbind]. rewrite !Hg by assumption. cbn [rbind].
        rewrite Hgn by exact Hpl. reflexivity.
      * rewrite select_columns_ok by exact Hsel'. cbn [rbind].
        rewrite !Hg by assumption. cbn [rbind].
        rewrite traces_ok by exact Hsel'. cbn [rbind].
        rewrite Hgn by exact Hpl. reflexivity.
    + exists "success"%string.
      split; [|split; [right; left | apply Hno; exact Hsu]].
      destruct sel as [|m sel].
      * cbn [rbind]. rewrite Hg by assumption. cbn [rbind].
        rewrite Hgn by exact Hsu. reflexivity.
      * rewrite select_columns_ok by exact Hsel'. cbn [rbind].
        rewrite Hg by assumption. cbn [rbind].
        rewrite Hgn by exact Hsu. reflexivity.
  - assert (Hsel' : forallb (has_column (sorted_frame filtered_data)) sel = false)
      by exact Hsel.
    destruct (select_columns_missing _ _ Hsel') as (c & Hc & Hin & Hmiss).
    exists c. split; [|split; [do 3 right; exact Hin | apply Hno; exact Hmiss]].
    destruct sel as [|m sel]; [discriminate|].
    rewrite Hc. reflexivity.
Qed.

Lemma update_dashboard_missing_column_witness :
  empty (DataFrame_of_records lossless_records) = false ∧
  typed_input lossless_records ["avg_latency_ms"]%string = true ∧
  renderable lossless_records ["avg_latency_ms"]%string = false ∧
  update_dashboard lossless_records ["avg_latency_ms"]%string
  = Raise (KeyError "packet_loss") ∧
  (if renderable lossless_records ["avg_latency_ms"]%string
   then ∃ out,
       update_dashboard lossless_records ["avg_latency_ms"]%string = Ok out
   else ∃ c,
       update_dashboard lossless_records ["avg_latency_ms"]%string
       = Raise (KeyError c)
       ∧ c ∈ ["timestamp"; "success"; "packet_loss"; "avg_latency_ms"]%string
       ∧ c ∉ columns (DataFrame_of_records lossless_records)).
Proof.
  split; [reflexivity|]. split; [reflexivity|]. split; [reflexivity|].
  split; [reflexivity|].
  exact (proj1 (update_dashboard_missing_column lossless_records
                  ["avg_latency_ms"]%string eq_refl eq_refl)).
Defined.

(** ** From the fetch to the dashboard *)

Lemma parsed_timestamps_uniform (found : option DataFrame) :
  ∃ aware : bool,
    ∀ r, r ∈ rows (parsed found) →
         instant_or_missing aware (cell "timestamp" r) = true.
Proof.
  unfold parsed.
  destruct found as [tbl|]; [|exists false; intros r Hr; inversion Hr].
  destruct (queryable tbl); [|exists false; intros r Hr; inversion Hr].
  destruct (to_datetime _) as [ts|] eqn:Hts;
    [|exists false; intros r Hr; inversion Hr].
  assert (Hcell : ∀ r, r ∈ rows (normalized tbl ts) → cell "timestamp" r ∈ ts).
  { intros r Hr. apply normalized_rows_elem in Hr as (stored & t & _ & Ht & ->).
    rewrite cell_finish_row_timestamp, cell_insert_eq. exact Ht. }
  assert (Hshape : ∀ t, t ∈ ts → t = VNaT ∨ ∃ z tz, t = VTime z tz).
  { intros t Ht. eapply to_datetime_shape; eauto. }
  unfold to_datetime in Hts.
  destruct (mapR (datetime_cell _) _) as [ts'|]; cbn [rbind] in Hts;
    [|discriminate].
  destruct (existsb is_aware ts' && existsb is_naive ts') eqn:Hmix;
    [discriminate|].
  inversion Hts; subst ts'. clear Hts.
  apply andb_false_iff in Hmix as [Hno | Hno].
  - exists false. intros r Hr. specialize (Hcell r Hr).
    destruct (Hshape _ Hcell) as [-> | (z & tz & Ht)]; [reflexivity|].
    rewrite Ht in *. destruct tz; [|reflexivity].
    assert (existsb is_aware ts = true); [|congruence].
    apply existsb_exists. exists (VTime z true).
    split; [apply list_elem_of_In; exact Hcell | reflexivity].
  - exists true. intros r Hr. specialize (Hcell r Hr).
    destruct (Hshape _ Hcell) as [-> | (z & tz & Ht)]; [reflexivity|].
    rewrite Ht in *. destruct tz; [reflexivity|].
    assert (existsb is_naive ts = true); [|congruence].
    apply existsb_exists. exists (VTime z false).
    split; [apply list_elem_of_In; exact Hcell | reflexivity].
Qed.

Lemma cached_path_keys (now : Z) (db_path date_range : string)
    (w w' : World) (l : list record) (r : record) (c : string) :
  cached_path now db_path date_range w = (Ok l, w') → r ∈ l →
  c ∈ columns_to_cache → is_Some (r !! c).
Proof.
  unfold cached_path, bind. rewrite parse_log_spec.
  set (df := parsed (storage w (S (parse_log_calls w)) db_path)).
  destruct (empty df) eqn:He.
  { intros H Hr. inversion H; subst. inversion Hr. }
  unfold lift, ret.
  destruct (filter_data_by_date now df date_range) as [f|] eqn:Hf;
    [|discriminate].
  destruct (filter_frame _ _ _ _ Hf) as [Hc Hs].
  destruct (empty f).
  { intros H Hr. inversion H; subst. inversion Hr. }
  rewrite select_columns_ok.
  2:{ unfold has_column. rewrite Hc. unfold df.
      rewrite (parsed_columns _ He). reflexivity. }
  intros H Hr Hcin. inversion H; subst. clear H.
  unfold to_dict_records in Hr. cbn [columns rows] in Hr.
  apply elem_of_map_iff in Hr as (r1 & -> & Hr).
  apply elem_of_dom. rewrite dom_project. apply elem_of_list_to_set.
  exact Hcin.
Qed.

Lemma uncached_path_keys (now : Z) (db_path date_range : string)
    (w w' : World) (l : list record) (r : record) (c : string) :
  uncached_path now db_path date_range w = (Ok l, w') → r ∈ l →
  c ∈ columns_to_cache → is_Some (r !! c).
Proof.
  rewrite uncached_path_spec.
  set (df := parsed (storage w (S (parse_log_calls w)) db_path)).
  destruct (filter_data_by_date now df date_range) as [f|] eqn:Hf;
    [|discriminate].
  destruct (filter_frame _ _ _ _ Hf) as [Hc Hs].
  cbn [rmap]. intros H Hr Hcin. inversion H; subst. clear H.
  destruct (empty f); cbn [negb] in Hr; [inversion Hr|].
  unfold to_dict_records in Hr.
  apply elem_of_map_iff in Hr as (r0 & -> & Hr).
  assert (Hr0 : r0 ∈ rows df) by (eapply elem_of_sublist; eauto).
  apply elem_of_dom. rewrite dom_project. apply elem_of_list_to_set.
  rewrite Hc. unfold df. rewrite (parsed_rows_columns _ _ Hr0).
  unfold columns_to_cache in Hcin. cbn [map snd query_columns].
  repeat (apply elem_of_cons in Hcin as [-> | Hcin]);
    [| | | | | | inversion Hcin];
    repeat (first [apply list_elem_of_here | apply list_elem_of_further]).
Qed.

(** What the function under the decorator returns, read off the one table
    the answer was made from. *)
Lemma fetched_records_source (now : Z) (db_path date_range : string)
    (w w' : World) (l : list record) :
  get_filtered_data_uncached now db_path date_range w = (Ok l, w') →
  ∃ found : option DataFrame,
    ∀ r, r ∈ l →
         (∀ c, c ∈ columns_to_cache → is_Some (r !! c))
         ∧ ∃ r0, r0 ∈ rows (parsed found)
                 ∧ ∀ c, c ∈ columns_to_cache → cell c r = cell c r0.
Proof.
  intros H. unfold get_filtered_data_uncached, try_catch in H.
  destruct (cached_path now db_path date_range w) as [[l0|e] w0] eqn:Hc.
  - inversion H; subst.
    exists (storage w (S (parse_log_calls w)) db_path). intros r Hr. split.
    + intros c Hcin. eapply cached_path_keys; eauto.
    + eapply cached_path_records; eauto.
  - exists (storage w0 (S (parse_log_calls w0)) db_path). intros r Hr. split.
    + intros c Hcin. eapply uncached_path_keys; eauto.
    + eapply uncached_path_records; eauto.
Qed.

Lemma records_columns (l : list record) (c : string) :
  c ∈ columns (DataFrame_of_records l) ↔ ∃ r, r ∈ l ∧ is_Some (r !! c).
Proof.
  unfold DataFrame_of_records. cbn [columns].
  rewrite elem_of_remove_dups, list_elem_of_In, in_concat. split.
  - intros (ks & Hks & Hc). apply in_map_iff in Hks as (r & <- & Hr).
    exists r. split; [apply list_elem_of_In; exact Hr|].
    apply list_elem_of_In, list_elem_of_fmap in Hc as ([k v] & -> & Hkv).
    apply elem_of_map_to_list in Hkv. cbn [fst]. eauto.
  - intros (r & Hr & [v Hv]). exists ((map_to_list r).*1). split.
    + apply in_map_iff. exists r. split; [reflexivity|].
      apply list_elem_of_In. exact Hr.
    + apply list_elem_of_In, list_elem_of_fmap. exists (c, v).
      split; [reflexivity|]. apply elem_of_map_to_list. exact Hv.
Qed.

(** X22.  The dashboard renders whatever the fetch returns.  Whatever the
    database holds, when the function under the memoising decorator returns
    a record list, [update_dashboard] returns its outputs on that list for
    every selection among the three latency metrics of the checklist, and
    the table has one row per record.  A non-empty list has every column
    the callback reads, its timestamps are instants (all without or all
    with offset) or NaT, and its numeric fields are numbers or NaN. *)
Theorem dashboard_renders_fetched_data (now : Z) (db_path date_range : string)
    (w w' : World) (l : list record) (sel : list string) :
  get_filtered_data_uncached now db_path date_range w = (Ok l, w') →
  (∀ c, c ∈ sel →
        c ∈ ["avg_latency_ms"; "max_latency_ms"; "min_latency_ms"]%string) →
  (∃ out : DashboardOutputs,
      update_dashboard l sel = Ok out
      ∧ length (table_data out) = length l)
  ∧ (l ≠ [] → renderable l sel = true ∧ typed_input l sel = true).
Proof.
  intros H Hsel.
  destruct (fetched_records_source _ _ _ _ _ _ H) as (found & Hsrc).
  assert (Hcache : ∀ c, c ∈ sel → c ∈ columns_to_cache).
  { intros c Hc. specialize (Hsel c Hc). unfold columns_to_cache.
    repeat (apply elem_of_cons in Hsel as [-> | Hsel]); [| | | inversion Hsel];
      repeat (first [apply list_elem_of_here | apply list_elem_of_further]). }
  assert (Hnum : ∀ c, c ∈ numeric_columns → c ∈ columns_to_cache).
  { intros c Hc. unfold numeric_columns in Hc. unfold columns_to_cache.
    repeat (apply elem_of_cons in Hc as [-> | Hc]); [| | | | | inversion Hc];
      repeat (first [apply list_elem_of_here | apply list_elem_of_further]). }
  assert (Hgood : l ≠ [] → renderable l sel = true ∧ typed_input l sel = true).
  { intros Hne. destruct l as [|r1 l']; [congruence|].
    assert (Hcol : ∀ c, c ∈ columns_to_cache →
                        has_column (DataFrame_of_records (r1 :: l')) c = true).
    { intros c Hc. apply has_column_elem, records_columns.
      exists r1. split; [left|]. apply (Hsrc r1); [left | exact Hc]. }
    split.
    - unfold renderable.
      rewrite !Hcol
        by (unfold columns_to_cache;
            repeat (first [apply list_elem_of_here | apply list_elem_of_further])).
      assert (He : empty (DataFrame_of_records (r1 :: l')) = false).
      { pose proof (Hcol "timestamp"%string) as Hts.
        apply has_column_elem in Hts; [|left].
        unfold empty. unfold DataFrame_of_records in Hts |- *.
        cbn [rows columns map] in Hts |- *.
        destruct (remove_dups _); [inversion Hts | reflexivity]. }
      rewrite He. cbn [negb andb].
      apply forallb_forall. intros c Hc. apply Hcol, Hcache.
      apply list_elem_of_In. exact Hc.
    - unfold typed_input.
      destruct (parsed_timestamps_uniform found) as [aware Haw].
      assert (Hts : forallb (λ r, instant_or_missing aware (cell "timestamp" r))
                            (r1 :: l') = true).
      { apply forallb_forall. intros r Hr. apply list_elem_of_In in Hr.
        destruct (Hsrc r Hr) as (_ & r0 & Hr0 & Hcell).
        rewrite Hcell by left. apply Haw. exact Hr0. }
      assert (Hn : forallb (λ r, forallb (λ c, number_or_nan (cell c r))
                                         numeric_columns) (r1 :: l') = true).
      { apply forallb_forall. intros r Hr. apply list_elem_of_In in Hr.
        destruct (Hsrc r Hr) as (_ & r0 & Hr0 & Hcell).
        apply forallb_forall. intros c Hc. apply list_elem_of_In in Hc.
        rewrite Hcell by (apply Hnum; exact Hc).
        destruct (parsed_row_normalised found r0 Hr0) as (_ & Hshape & _).
        destruct (Hshape c Hc) as [-> | (q & ->)]; reflexivity. }
      assert (Hs : forallb (λ c, bool_decide (c ∈ numeric_columns)) sel = true).
      { apply forallb_forall. intros c Hc. apply list_elem_of_In in Hc.
        apply bool_decide_eq_true. specialize (Hsel c Hc).
        unfold numeric_columns.
        repeat (apply elem_of_cons in Hsel as [-> | Hsel]);
          [| | | inversion Hsel];
          repeat (first [apply list_elem_of_here | apply list_elem_of_further]). }
      rewrite Hn, Hs. destruct aware; rewrite Hts;
        rewrite ?orb_true_r; reflexivity. }
  split; [|exact Hgood].
  destruct l as [|r1 l'].
  - eexists. split; reflexivity.
  - destruct (Hgood ltac:(discriminate)) as [Hr _].
    destruct (update_dashboard_charts _ _ Hr) as (out & Hout & _ & _ & _ & Htab).
    exists out. split; [exact Hout|].
    rewrite Htab. unfold to_dict_records. cbn [rows columns].
    rewrite length_map.
    rewrite (Permutation_length (sorted_rows_perm _ _ _)).
    unfold sorted_frame. cbn [rows].
    rewrite (Permutation_length (sorted_rows_perm _ _ _)).
    unfold DataFrame_of_records. cbn [rows]. apply length_map.
Qed.

Lemma dashboard_renders_fetched_data_witness :
  returned (get_filtered_data_uncached (hours 12) "logs/internet_status.db"
              "last_12_hours" (world_with sample_table)) = true
  ∧ ∃ out : DashboardOutputs,
      update_dashboard
        (payload (get_filtered_data_uncached (hours 12)
                    "logs/internet_status.db" "last_12_hours"
                    (world_with sample_table)))
        ["avg_latency_ms"; "min_latency_ms"]%string = Ok out
      ∧ length (table_data out)
        = length (payload (get_filtered_data_uncached (hours 12)
                             "logs/internet_status.db" "last_12_hours"
                             (world_with sample_table))).
Proof.
  split; [reflexivity|].
  refine (proj1 (dashboard_renders_fetched_data (hours 12)
                   "logs/internet_status.db" "last_12_hours"
                   (world_with sample_table) _ _
                   ["avg_latency_ms"; "min_latency_ms"]%string
                   (returned_eq
                      (get_filtered_data_uncached (hours 12)
                         "logs/internet_status.db" "last_12_hours"
                         (world_with sample_table)) eq_refl) _)).
  intros c Hc.
  repeat (apply elem_of_cons in Hc as [-> | Hc]); [| | inversion Hc];
    repeat (first [apply list_elem_of_here | apply list_elem_of_further]).
Defined.


(** ** The power-cycle script *)

(** X18.  As written, the script never reaches the plug.  The cooldown
    check looks up the module [os], which the script does not import, so
    [is_in_cooldown] raises NameError in whatever state it is called.
    [control_tapo] catches it in its general handler, logs it, and then
    reads its local [device], which is bound only later in the [try] block:
    the function ends with UnboundLocalError.  No request is sent to the
    plug, the cooldown file and the clock are as before, and the log has
    gained the one error record. *)
Theorem control_tapo_never_reaches_plug (s : Script.State) :
  Script.is_in_cooldown s = (Script.Raise (Script.NameError "os"), s)
  ∧ (Script.control_tapo s).1
    = Script.Raise (Script.UnboundLocalError "device")
  ∧ Script.requests (Script.control_tapo s).2 = Script.requests s
  ∧ Script.cooldown_file (Script.control_tapo s).2 = Script.cooldown_file s
  ∧ Script.clock (Script.control_tapo s).2 = Script.clock s
  ∧ Script.log (Script.control_tapo s).2
    = Script.log s
      ++ [(Script.ERROR,
           "An unexpected error occurred: name 'os' is not defined"%string)].
Proof. repeat split; reflexivity. Qed.

Ltac plug_cases s :=
  repeat (match goal with
          | |- context [Script.plug s ?n] => destruct (Script.plug s n)
          end; cbn -[String.append str_nat Script.str]).

Ltac not_sent := rewrite list_elem_of_In; cbn; intuition discriminate.

(** X19.  The retry loop of [handle_exception].  Whatever the plug
    answers, [handle_exception] returns without raising; it sends no
    switch-off and opens no new connection; it refreshes the session at
    most three times and switches on at most once per refresh; it leaves
    the cooldown file and the clock alone.  Either it ends with a round
    that went through (refresh, switch-on, then the one request for the
    device information), or it never asks for the device information, has
    refreshed three times, and its last log record is the critical one. *)
Theorem handle_exception_retries (d : Script.Device) (s : Script.State) :
  let s' := (Script.handle_exception d s).2 in
  let new := Script.sent_since s s' in
  (Script.handle_exception d s).1 = Script.Ok tt
  ∧ Script.requests s' = Script.requests s ++ new
  ∧ (Script.Off ∉ new) ∧ (Script.Connect ∉ new)
  ∧ (Script.count Script.RefreshSession new <= 3)%nat
  ∧ (Script.count Script.On new <= Script.count Script.RefreshSession new)%nat
  ∧ Script.cooldown_file s' = Script.cooldown_file s
  ∧ Script.clock s' = Script.clock s
  ∧ ((∃ pre, new = pre ++ [Script.RefreshSession; Script.On;
                            Script.GetDeviceInfoJson]
             ∧ (Script.GetDeviceInfoJson ∉ pre))
     ∨ ((Script.GetDeviceInfoJson ∉ new)
        ∧ Script.count Script.RefreshSession new = 3%nat
        ∧ last (Script.log s')
          = Some (Script.CRITICAL,
                  "All retry attempts failed. Please check your connection."%string))).
Proof.
  unfold Script.sent_since, Script.handle_exception.
  cbn [seq Script.retry_attempts Script.retry_loop].
  unfold Script.try_except, Script.retry, Script.print_device_info,
    Script.try_except, Script.bind, Script.logging, Script.send.
  cbn -[String.append str_nat Script.str].
  plug_cases s.
  all: rewrite <- ?app_assoc; rewrite ?drop_app_length; cbn [app].
  all: split; [reflexivity|]; split; [reflexivity|].
  all: split; [not_sent|]; split; [not_sent|].
  all: split; [cbn; lia|]; split; [cbn; lia|].
  all: split; [reflexivity|]; split; [reflexivity|].
  all: first
         [ right; split; [not_sent|];
           split; [reflexivity|]; rewrite last_app; reflexivity
         | left;
           match goal with
           | |- ∃ pre, ?new = _ ∧ _ => exists (take (length new - 3) new)
           end;
           split; [reflexivity | not_sent] ].
Qed.

(** X20.  A round that goes through ends the retries.  If the plug
    answers the next two requests (the refresh and the switch-on of the
    first round), [handle_exception] sends exactly three requests, the
    refresh, one switch-on and the request for the device information, and
    returns, also when that third request fails; nothing critical is
    logged. *)
Theorem handle_exception_first_round (d : Script.Device) (s : Script.State)
    (body1 body2 : string) :
  Script.plug s (length (Script.requests s)) = Script.Answers body1 →
  Script.plug s (S (length (Script.requests s))) = Script.Answers body2 →
  (Script.handle_exception d s).1 = Script.Ok tt
  ∧ Script.sent_since s (Script.handle_exception d s).2
    = [Script.RefreshSession; Script.On; Script.GetDeviceInfoJson]
  ∧ ∀ lvl msg, (lvl, msg) ∈ drop (length (Script.log s))
                              (Script.log (Script.handle_exception d s).2) →
               lvl ≠ Script.CRITICAL.
Proof.
  intros H1 H2.
  unfold Script.sent_since, Script.handle_exception.
  cbn [seq Script.retry_attempts Script.retry_loop].
  unfold Script.try_except, Script.retry, Script.print_device_info,
    Script.try_except, Script.bind, Script.logging, Script.send.
  cbn -[String.append str_nat Script.str].
  rewrite H1. cbn -[String.append str_nat Script.str].
  rewrite length_app, Nat.add_1_r, H2.
  cbn -[String.append str_nat Script.str].
  match goal with
  | |- context [Script.plug s ?n] => destruct (Script.plug s n)
  end; cbn -[String.append str_nat Script.str];
    rewrite <- ?app_assoc, !drop_app_length; cbn [app];
    (split; [reflexivity|]; split; [reflexivity|]);
    intros lvl msg Hin Hl; subst lvl;
    rewrite list_elem_of_In in Hin; cbn in Hin; intuition discriminate.
Qed.

Lemma handle_exception_first_round_witness :
  (Script.handle_exception Script.P100 (Script.start 0)).1 = Script.Ok tt
  ∧ Script.sent_since (Script.start 0)
      (Script.handle_exception Script.P100 (Script.start 0)).2
    = [Script.RefreshSession; Script.On; Script.GetDeviceInfoJson]
  ∧ ∀ lvl msg,
      (lvl, msg) ∈ drop (length (Script.log (Script.start 0)))
                     (Script.log
                        (Script.handle_exception Script.P100
                           (Script.start 0)).2) →
      lvl ≠ Script.CRITICAL.
Proof.
  exact (handle_exception_first_round Script.P100 (Script.start 0)
           "{}" "{}" eq_refl eq_refl).
Defined.

(** X21.  Three failed refreshes and the retries are over.  If the plug
    fails the next three requests, [handle_exception] sends exactly three
    session refreshes, never a switch-on, and returns without raising; it
    logs, for each round, the warning that announces it and the error it
    met, and then the critical record. *)
Theorem handle_exception_gives_up (d : Script.Device) (s : Script.State)
    (e1 e2 e3 : Script.exn) :
  Script.plug s (length (Script.requests s)) = Script.Fails e1 →
  Script.plug s (S (length (Script.requests s))) = Script.Fails e2 →
  Script.plug s (S (S (length (Script.requests s)))) = Script.Fails e3 →
  (Script.handle_exception d s).1 = Script.Ok tt
  ∧ Script.sent_since s (Script.handle_exception d s).2
    = [Script.RefreshSession; Script.RefreshSession; Script.RefreshSession]
  ∧ map fst (drop (length (Script.log s))
                  (Script.log (Script.handle_exception d s).2))
    = [Script.WARNING; Script.ERROR; Script.WARNING; Script.ERROR;
       Script.WARNING; Script.ERROR; Script.CRITICAL]
  ∧ ∀ i e, [e1; e2; e3] !! i = Some e →
           (Script.ERROR,
            "Retry attempt " +:+ str_nat (S i) +:+ " failed: "
            +:+ Script.str e)
           ∈ Script.log (Script.handle_exception d s).2.
Proof.
  intros H1 H2 H3.
  unfold Script.sent_since, Script.handle_exception.
  cbn [seq Script.retry_attempts Script.retry_loop].
  unfold Script.try_except, Script.retry, Script.print_device_info,
    Script.try_except, Script.bind, Script.logging, Script.send.
  cbn -[String.append str_nat Script.str].
  rewrite H1. cbn -[String.append str_nat Script.str].
  rewrite length_app, Nat.add_1_r, H2.
  cbn -[String.append str_nat Script.str].
  rewrite !length_app. cbn [length]. rewrite !Nat.add_1_r, H3.
  cbn -[String.append str_nat Script.str].
  rewrite <- ?app_assoc, !drop_app_length. cbn [app].
  split; [reflexivity|]. split; [reflexivity|]. split; [reflexivity|].
  intros i e Hi. apply elem_of_app. right.
  destruct i as [|[|[|i]]]; cbn in Hi; inversion Hi; subst.
  - apply list_elem_of_further, list_elem_of_here.
  - do 3 apply list_elem_of_further. apply list_elem_of_here.
  - do 5 apply list_elem_of_further. apply list_elem_of_here.
Qed.

Lemma handle_exception_gives_up_witness :
  (Script.handle_exception Script.P100 (Script.start 3)).1 = Script.Ok tt
  ∧ Script.sent_since (Script.start 3)
      (Script.handle_exception Script.P100 (Script.start 3)).2
    = [Script.RefreshSession; Script.RefreshSession; Script.RefreshSession].
Proof.
  destruct (handle_exception_gives_up Script.P100 (Script.start 3)
              (Script.DeviceError "connection refused")
              (Script.DeviceError "connection refused")
              (Script.DeviceError "connection refused")
              eq_refl eq_refl eq_refl) as (H1 & H2 & _).
  split; [exact H1 | exact H2].
Defined.
